(** * MCP-Expokossodo tool gateway: a shallow embedding and its properties

    The development follows the layout of the Python sources:
    - [Auth]                 app/auth.py (roles, permissions, rate limiter)
    - [RedisClient]          app/cache/redis_client.py
    - [Db]                   app/db/models.py and the store the queries run on
    - [Queries]              app/db/queries.py
    - [Schemas]              app/schemas/tools_in.py and tools_out.py
    - [Services]             app/services/eventos.py, inscritos.py, asistencia.py
    - [EstadisticasService]  app/services/estadisticas.py
    - [Tools]                app/api/tools.py

    Exceptions are values of [Resultado]; mutable objects (the rate
    limiter, the Redis store, the database session) are threaded
    explicitly.  Times are integers counted in seconds. *)

From Stdlib Require Import ZArith QArith Qround Qabs Qpower Qreduction Lqa.
From Stdlib Require Import List Bool Ascii String Lia Floats Uint63.
From Stdlib Require Import Sorting.Sorted Sorting.Permutation DecimalString.
From stdpp Require Import base option gmap strings list.
Import ListNotations.

Local Open Scope string_scope.
Local Open Scope list_scope.
Local Open Scope Z_scope.

(** ** Exceptions and results *)

(** The [detail] payload of a FastAPI [HTTPException]: either a plain
    message or an [MCPError] document with its [details] mapping. *)
Inductive Detail :=
| DetailText (msg : string)
| DetailMCPError (error message : string) (details : list (string * Z)).

Inductive Excepcion :=
| HTTPException (status_code : Z) (detail : Detail)
| ValueError (msg : string)
| MultipleResultsFound
| IntegrityError
| ZeroDivisionError
| AttributeError (msg : string).

Inductive Resultado (A : Type) :=
| Ok (a : A)
| Raise (e : Excepcion).
Arguments Ok {A} a.
Arguments Raise {A} e.

Definition bind {A B} (r : Resultado A) (k : A -> Resultado B) : Resultado B :=
  match r with
  | Ok a => k a
  | Raise e => Raise e
  end.

Notation "'let*' x ':=' r 'in' k" := (bind r (fun x => k))
  (at level 10, x name, r at level 100, k at level 200, only parsing).

Definition is_ok {A} (r : Resultado A) : bool :=
  match r with Ok _ => true | Raise _ => false end.

(** Python's [x in xs] on a list of strings. *)
Definition py_in (x : string) (xs : list string) : bool :=
  existsb (String.eqb x) xs.

(** Python's truthiness of an [Optional[str]]: neither [None] nor empty. *)
Definition truthy (o : option string) : bool :=
  match o with
  | Some s => negb (String.eqb s "")
  | None => false
  end.

(** [str(n)] for an integer. *)
Definition str_of_Z (n : Z) : string :=
  NilZero.string_of_int (Z.to_int n).

(** ** app/config.py *)

Record Settings := {
  rate_limit_reads_per_second : Z;
  rate_limit_writes_per_second : Z;
}.

(** The defaults read when the environment sets nothing. *)
Definition default_settings : Settings :=
  {| rate_limit_reads_per_second := 10;
     rate_limit_writes_per_second := 3 |}.

(** ** app/auth.py *)
Module Auth.

Inductive UserRole := LECTOR | STAFF_PUERTA | COORDINADOR.

Definition role_value (r : UserRole) : string :=
  match r with
  | LECTOR => "LECTOR"
  | STAFF_PUERTA => "STAFF_PUERTA"
  | COORDINADOR => "COORDINADOR"
  end.

(** [UserRole(role_str)]: the enum lookup by value, a [ValueError] for
    any other string. *)
Definition UserRole_of_value (s : string) : Resultado UserRole :=
  if String.eqb s "LECTOR" then Ok LECTOR
  else if String.eqb s "STAFF_PUERTA" then Ok STAFF_PUERTA
  else if String.eqb s "COORDINADOR" then Ok COORDINADOR
  else Raise (ValueError "not a valid UserRole").

Record MCPUser := {
  user_id : string;
  username : string;
  role : UserRole;
  permissions : list string;
}.

Definition ROLE_PERMISSIONS (r : UserRole) : list string :=
  match r with
  | LECTOR =>
      ["getEventos"; "getInscritos"; "getAforo"; "getEstadisticas";
       "buscarRegistro"; "mapaSalaEvento"]
  | STAFF_PUERTA =>
      ["getEventos"; "getInscritos"; "getAforo"; "getEstadisticas";
       "buscarRegistro"; "mapaSalaEvento"; "confirmarAsistencia"]
  | COORDINADOR =>
      ["getEventos"; "getInscritos"; "getAforo"; "getEstadisticas";
       "buscarRegistro"; "mapaSalaEvento"; "confirmarAsistencia";
       "estadisticasDetalladas"]
  end.

(** What [jwt.decode] hands back for a bearer token: the claims of a
    token whose signature and expiry check out, [ExpiredSignatureError]
    for an expired one, or another of PyJWT's errors (a bad signature,
    a text that is no token). *)
Record Payload := {
  p_sub : option string;
  p_username : option string;
  p_role : option string;
}.

Inductive Decoded :=
| Claims (p : Payload)
| ExpiredSignatureError
| InvalidTokenError.

(** The two [except] clauses of [verify_token], tried in order on an
    exception that leaves the [try] body.  [import jwt] is PyJWT,
    which has [ExpiredSignatureError] but no [JWTError]: for an
    exception the first clause does not catch, evaluating the second
    clause's [jwt.JWTError] raises [AttributeError]. *)
Definition except_clauses (expired : bool) : Resultado (option MCPUser) :=
  if expired then Ok None
  else Raise (AttributeError "module 'jwt' has no attribute 'JWTError'").

(** [verify_token]: [Ok None] is the Python [None].  The [ValueError]
    of an unknown role is raised inside the [try] body and meets the
    [except] clauses like any other exception. *)
Definition verify_token (d : Decoded) : Resultado (option MCPUser) :=
  match d with
  | Claims p =>
      match p_sub p, p_username p, p_role p with
      | Some uid, Some uname, Some role_str =>
          match UserRole_of_value role_str with
          | Ok r =>
              Ok (Some {| user_id := uid; username := uname; role := r;
                          permissions := ROLE_PERMISSIONS r |})
          | Raise _ => except_clauses false
          end
      | _, _, _ => Ok None
      end
  | ExpiredSignatureError => except_clauses true
  | InvalidTokenError => except_clauses false
  end.

Definition get_current_user (d : Decoded) : Resultado MCPUser :=
  let* o := verify_token d in
  match o with
  | None => Raise (HTTPException 401 (DetailText "Could not validate credentials"))
  | Some user => Ok user
  end.

(** The inner [permission_checker] of [require_permission], given the
    user [get_current_user] produced. *)
Definition permission_checker (required_permission : string) (user : MCPUser)
  : Resultado MCPUser :=
  if negb (py_in required_permission (permissions user)) then
    Raise (HTTPException 403
             (DetailText ("Permission '" +:+ required_permission +:+ "' required")))
  else Ok user.

Definition require_permission (required_permission : string) (d : Decoded)
  : Resultado MCPUser :=
  let* user := get_current_user d in
  permission_checker required_permission user.

(** The inner [role_checker] of [require_role]: the two role values
    are compared for equality. *)
Definition role_checker (required_role : UserRole) (user : MCPUser)
  : Resultado MCPUser :=
  if negb (String.eqb (role_value (role user)) (role_value required_role)) then
    Raise (HTTPException 403
             (DetailText ("Role '" +:+ role_value required_role +:+ "' required")))
  else Ok user.

Definition require_role (required_role : UserRole) (d : Decoded)
  : Resultado MCPUser :=
  let* user := get_current_user d in
  role_checker required_role user.

(** *** Rate limiter *)

(** [RateLimiter.requests]: a [defaultdict(list)] from key to the
    request times kept for it. *)
Abbreviation RateLimiter := (gmap string (list Z)).

Definition requests_of (rl : RateLimiter) (key : string) : list Z :=
  default [] (rl !! key).

(** [is_allowed] at clock reading [now]; returns the answer and the
    limiter after the call. *)
Definition is_allowed (rl : RateLimiter) (now : Z) (key : string)
           (limit window : Z) : bool * RateLimiter :=
  let kept := List.filter (fun req_time => now - req_time <? window)
                          (requests_of rl key) in
  let rl1 := <[key := kept]> rl in
  if Z.of_nat (length kept) >=? limit then (false, rl1)
  else (true, <[key := kept ++ [now]]> rl1).

Definition write_tools : list string := ["confirmarAsistencia"].

Definition limit_for (cfg : Settings) (tool_name : string) : Z :=
  if py_in tool_name write_tools
  then rate_limit_writes_per_second cfg
  else rate_limit_reads_per_second cfg.

Definition rate_key (user : MCPUser) (tool_name : string) : string :=
  user_id user +:+ ":" +:+ tool_name.

Definition check_rate_limit (cfg : Settings) (rl : RateLimiter) (now : Z)
           (user : MCPUser) (tool_name : string)
  : Resultado unit * RateLimiter :=
  let limit := limit_for cfg tool_name in
  let '(allowed, rl') := is_allowed rl now (rate_key user tool_name) limit 60 in
  if negb allowed then
    (Raise (HTTPException 429 (DetailText "Rate limit exceeded")), rl')
  else (Ok tt, rl').

End Auth.

(** ** app/cache/redis_client.py *)
Module RedisClient.

(** A key held by the Redis server: the serialized value and, for keys
    written with [setex], the instant at which the server drops it. *)
Record Entry := {
  e_value : string;
  e_expire_at : option Z;
}.

(** The [RedisCache] object together with the server behind it.
    [server_up = false] stands for a server whose commands raise
    (connection lost, timeout). *)
Record RedisCache := {
  connected : bool;
  server_up : bool;
  redis : gmap string Entry;
}.

(** What the server answers to [GET key] at time [now]. *)
Definition redis_get (c : RedisCache) (now : Z) (key : string) : option string :=
  match redis c !! key with
  | Some e =>
      match e_expire_at e with
      | Some t => if now <? t then Some (e_value e) else None
      | None => Some (e_value e)
      end
  | None => None
  end.

(** [connect]: the ping succeeds exactly when the server answers. *)
Definition connect (c : RedisCache) : RedisCache :=
  {| connected := server_up c; server_up := server_up c; redis := redis c |}.

(** [disconnect]: a client that was never created is not connected
    either, so the flag is off afterwards in both branches. *)
Definition disconnect (c : RedisCache) : RedisCache :=
  {| connected := false; server_up := server_up c; redis := redis c |}.

Definition delete (c : RedisCache) (key : string) : bool * RedisCache :=
  if negb (connected c) then (false, c)
  else if negb (server_up c) then (false, c)
  else (true, {| connected := connected c; server_up := server_up c;
                 redis := base.delete key (redis c) |}).

(** [exists] *)
Definition exists_ (c : RedisCache) (now : Z) (key : string) : bool :=
  if negb (connected c) then false
  else if negb (server_up c) then false
  else match redis_get c now key with
       | Some _ => true
       | None => false
       end.

Section Values.
(** Cached values and the two conversions the client applies:
    [dumps] is [json.dumps(value, default=str)] for dicts and lists
    and [str(value)] otherwise; [loads] is [json.loads] with the raw
    string as fallback. *)
Variable Value : Type.
Variable dumps : Value -> string.
Variable loads : string -> Value.

Definition get (c : RedisCache) (now : Z) (key : string) : option Value :=
  if negb (connected c) then None
  else if negb (server_up c) then None
  else match redis_get c now key with
       | None => None
       | Some value => Some (loads value)
       end.

(** [set]: [setex] refuses a negative expiry, which the client turns
    into [False] like any other server error. *)
Definition set (c : RedisCache) (now : Z) (key : string) (value : Value)
           (ttl_seconds : option Z) : bool * RedisCache :=
  if negb (connected c) then (false, c)
  else if negb (server_up c) then (false, c)
  else
    let serialized_value := dumps value in
    match ttl_seconds with
    | Some ttl =>
        if ttl =? 0 then
          (true, {| connected := connected c; server_up := server_up c;
                    redis := <[key := {| e_value := serialized_value;
                                         e_expire_at := None |}]> (redis c) |})
        else if ttl <? 0 then (false, c)
        else
          (true, {| connected := connected c; server_up := server_up c;
                    redis := <[key := {| e_value := serialized_value;
                                         e_expire_at := Some (now + ttl) |}]> (redis c) |})
    | None =>
        (true, {| connected := connected c; server_up := server_up c;
                  redis := <[key := {| e_value := serialized_value;
                                       e_expire_at := None |}]> (redis c) |})
    end.

(** Keyword arguments of a tool call, values already formatted with
    [str]; [None] marks a parameter passed as [None]. *)
Definition Params := list (string * option string).

Definition filtered_params (params : Params) : list (string * string) :=
  flat_map (fun kv => match snd kv with
                      | Some v => [(fst kv, v)]
                      | None => []
                      end) params.

(** [sorted(items)]: tuples compare by name first, then by value. *)
Definition item_leb (a b : string * string) : bool :=
  match String.compare (fst a) (fst b) with
  | Lt => true
  | Eq => String.leb (snd a) (snd b)
  | Gt => false
  end.

Fixpoint insert_item (x : string * string) (l : list (string * string)) :=
  match l with
  | [] => [x]
  | y :: l' => if item_leb x y then x :: y :: l' else y :: insert_item x l'
  end.

Definition sorted_items (l : list (string * string)) : list (string * string) :=
  fold_right insert_item [] l.

Fixpoint join_amp (l : list (string * string)) : string :=
  match l with
  | [] => ""
  | [(k, v)] => k +:+ "=" +:+ v
  | (k, v) :: l' => k +:+ "=" +:+ v +:+ "&" +:+ join_amp l'
  end.

Definition get_cache_key (tool_name : string) (params : Params) : string :=
  "mcp:" +:+ tool_name +:+ ":" +:+ join_amp (sorted_items (filtered_params params)).

Definition CACHE_TTL : list (string * Z) :=
  [("mapaSalaEvento", 60); ("getAforo", 60); ("getEventos", 300);
   ("getInscritos", 600); ("getEstadisticas", 300);
   ("confirmarAsistencia", 0); ("buscarRegistro", 0)].

(** [CACHE_TTL.get(tool_name, 0)] *)
Fixpoint dict_get (d : list (string * Z)) (k : string) (dflt : Z) : Z :=
  match d with
  | [] => dflt
  | (k', v) :: d' => if String.eqb k k' then v else dict_get d' k dflt
  end.

Definition cache_get (c : RedisCache) (now : Z) (tool_name : string)
           (params : Params) : option Value :=
  if dict_get CACHE_TTL tool_name 0 =? 0 then None
  else get c now (get_cache_key tool_name params).

Definition cache_set (c : RedisCache) (now : Z) (tool_name : string)
           (value : Value) (params : Params) : bool * RedisCache :=
  let ttl := dict_get CACHE_TTL tool_name 0 in
  if ttl =? 0 then (false, c)
  else set c now (get_cache_key tool_name params) value (Some ttl).

End Values.

End RedisClient.

(** ** Dates *)

Record Date := { year : Z; month : Z; day : Z }.

Definition date_compare (a b : Date) : comparison :=
  match year a ?= year b with
  | Eq => match month a ?= month b with
          | Eq => day a ?= day b
          | c => c
          end
  | c => c
  end.

Definition date_leb (a b : Date) : bool :=
  match date_compare a b with Gt => false | _ => true end.

Definition date_eqb (a b : Date) : bool :=
  match date_compare a b with Eq => true | _ => false end.

Definition is_leap (y : Z) : bool :=
  ((y mod 4 =? 0) && negb (y mod 100 =? 0)) || (y mod 400 =? 0).

Definition days_in_month (y m : Z) : Z :=
  if m =? 2 then (if is_leap y then 29 else 28)
  else if (m =? 4) || (m =? 6) || (m =? 9) || (m =? 11) then 30
  else 31.

(** [datetime.date(y, m, d)]: a [ValueError] outside the calendar. *)
Definition make_date (y m d : Z) : Resultado Date :=
  if (1 <=? y) && (y <=? 9999) && (1 <=? m) && (m <=? 12)
     && (1 <=? d) && (d <=? days_in_month y m)
  then Ok {| year := y; month := m; day := d |}
  else Raise (ValueError "date value out of range").

(** *** [datetime.strptime(s, "%Y-%m-%d").date()]

    The format compiles to the pattern
    [(\d\d\d\d)-(1[0-2]|0[1-9]|[1-9])-(3[01]|[12]\d|0[1-9]|[1-9]| [1-9])]
    which must match the whole string. *)

(** A [str] is held as a Rocq string whose characters are its code
    points, all below 256; among these the decimal digits of [\d] and
    [int] are the ten ASCII digits. *)
Definition digit_of (c : ascii) : option Z :=
  let n := Z.of_nat (nat_of_ascii c) in
  if (48 <=? n) && (n <=? 57) then Some (n - 48) else None.

Fixpoint split_on (sep : ascii) (s : string) : list string :=
  match s with
  | EmptyString => [EmptyString]
  | String c s' =>
      if Ascii.eqb c sep then EmptyString :: split_on sep s'
      else match split_on sep s' with
           | [] => [String c EmptyString]
           | w :: ws => String c w :: ws
           end
  end.

Definition parse_Y (s : string) : option Z :=
  match s with
  | String a (String b (String c (String d EmptyString))) =>
      match digit_of a, digit_of b, digit_of c, digit_of d with
      | Some x, Some y, Some z, Some w => Some (1000 * x + 100 * y + 10 * z + w)
      | _, _, _, _ => None
      end
  | _ => None
  end.

Definition parse_m (s : string) : option Z :=
  match s with
  | String a EmptyString =>
      match digit_of a with
      | Some x => if 1 <=? x then Some x else None
      | None => None
      end
  | String a (String b EmptyString) =>
      match digit_of a, digit_of b with
      | Some x, Some y =>
          let m := 10 * x + y in
          if (1 <=? m) && (m <=? 12) then Some m else None
      | _, _ => None
      end
  | _ => None
  end.

Definition parse_d (s : string) : option Z :=
  match s with
  | String a EmptyString =>
      match digit_of a with
      | Some x => if 1 <=? x then Some x else None
      | None => None
      end
  | String a (String b EmptyString) =>
      match digit_of b with
      | Some y =>
          if Ascii.eqb a " "%char then (if 1 <=? y then Some y else None)
          else match digit_of a with
               | Some x =>
                   let d := 10 * x + y in
                   if (1 <=? d) && (d <=? 31) then Some d else None
               | None => None
               end
      | None => None
      end
  | _ => None
  end.

Definition strptime_date (s : string) : Resultado Date :=
  match split_on "-"%char s with
  | [ys; ms; ds] =>
      match parse_Y ys, parse_m ms, parse_d ds with
      | Some y, Some m, Some d => make_date y m d
      | _, _, _ => Raise (ValueError "time data does not match format '%Y-%m-%d'")
      end
  | _ => Raise (ValueError "time data does not match format '%Y-%m-%d'")
  end.

(** ** app/db/models.py and the store *)
Module Db.

Record ExpoEventos := {
  ev_id : Z;
  ev_fecha : Date;
  ev_hora : string;
  ev_sala : string;
  ev_titulo_charla : string;
  ev_expositor : string;
  ev_descripcion : option string;
  ev_slots_disponibles : option Z;
  ev_disponible : option bool;
}.

Record ExpoRegistros := {
  reg_id : Z;
  reg_nombres : string;
  reg_correo : string;
  reg_empresa : option string;
  reg_qr_code : option string;
}.

Record ExpoRegistroEventos := {
  re_id : Z;
  re_registro_id : Z;
  re_evento_id : Z;
  re_fecha_seleccion : option Z;
}.

Record ExpoAsistenciasPorSala := {
  as_id : Z;
  as_registro_id : Z;
  as_evento_id : Z;
  as_qr_escaneado : string;
  as_fecha_ingreso : option Z;
  as_asesor_verificador : string;
  as_ip_verificacion : option string;
  as_notas : option string;
}.

(** The store behind an [AsyncSession].  A table is the list of its
    rows in the order the engine scans them; nothing in the SQL issued
    by the queries fixes that order.  [fk_enforced] tells whether the
    engine checks the declared foreign keys on commit and [ilike] is
    its case-insensitive pattern match [value ILIKE pattern]. *)
Record Database := {
  eventos : list ExpoEventos;
  registros : list ExpoRegistros;
  registro_eventos : list ExpoRegistroEventos;
  asistencias_por_sala : list ExpoAsistenciasPorSala;
  fk_enforced : bool;
  ilike : string -> string -> bool;
}.

Definition with_asistencias (db : Database) (l : list ExpoAsistenciasPorSala)
  : Database :=
  {| eventos := eventos db; registros := registros db;
     registro_eventos := registro_eventos db;
     asistencias_por_sala := l;
     fk_enforced := fk_enforced db; ilike := ilike db |}.

(** [ORDER BY]: the scanned rows sorted under the comparison [leb],
    here by a stable insertion sort.  The statements issued carry no
    tie-breaker, so the order among rows that compare equal is the
    engine's choice and may differ from one statement to the next; the
    properties below rest on the result being sorted and holding the
    same rows, not on the order among ties. *)
Fixpoint insert_by {A} (leb : A -> A -> bool) (x : A) (l : list A) : list A :=
  match l with
  | [] => [x]
  | y :: l' => if leb x y then x :: y :: l' else y :: insert_by leb x l'
  end.

Definition order_by {A} (leb : A -> A -> bool) (l : list A) : list A :=
  fold_right (insert_by leb) [] l.

(** [LIMIT n OFFSET k] *)
Definition limit_offset {A} (n k : Z) (l : list A) : list A :=
  firstn (Z.to_nat n) (skipn (Z.to_nat k) l).

(** The autoincrement primary key of a new attendance row. *)
Definition next_as_id (db : Database) : Z :=
  1 + fold_right Z.max 0 (map as_id (asistencias_por_sala db)).

End Db.

(** ** app/db/queries.py *)
Module Queries.
Import Db.

Definition option_filter {A B} (o : option A) (f : A -> B -> bool) : list (B -> bool) :=
  match o with
  | Some a => [f a]
  | None => []
  end.

Definition and_ {B} (conditions : list (B -> bool)) (row : B) : bool :=
  forallb (fun c => c row) conditions.

Definition truthy_filter {B} (o : option string) (f : string -> B -> bool)
  : list (B -> bool) :=
  if truthy o then option_filter o f else [].

(** A row of the room-event map. *)
Record SalaEventoRow := {
  sr_sala : string;
  sr_eventoId : Z;
  sr_titulo : string;
  sr_horario : string;
}.

(** The capacity figures of an event; [cupoTotal] is the nullable column
    [slots_disponibles]. *)
Record AforoData := {
  af_cupoTotal : option Z;
  af_inscritos : Z;
  af_confirmados : Z;
  af_asistenciaEnPuerta : Z;
  af_noShowEstimado : Z;
}.

Module EventosQueries.

Definition fecha_hora_leb (a b : ExpoEventos) : bool :=
  match date_compare (ev_fecha a) (ev_fecha b) with
  | Lt => true
  | Eq => String.leb (ev_hora a) (ev_hora b)
  | Gt => false
  end.

Definition opt_ilike (db : Database) (pattern : string) (v : option string) : bool :=
  match v with
  | Some s => ilike db pattern s
  | None => false
  end.

Definition get_eventos_filtered (db : Database)
           (fecha_inicio fecha_fin : option Date)
           (sede sala query : option string) (limit offset : Z)
  : list ExpoEventos :=
  let conditions :=
    option_filter fecha_inicio (fun f e => date_leb f (ev_fecha e))
    ++ option_filter fecha_fin (fun f e => date_leb (ev_fecha e) f)
    ++ truthy_filter sala (fun s e => ilike db ("%" +:+ s +:+ "%") (ev_sala e))
    ++ truthy_filter query (fun q e =>
         ilike db ("%" +:+ q +:+ "%") (ev_titulo_charla e)
         || opt_ilike db ("%" +:+ q +:+ "%") (ev_descripcion e)
         || ilike db ("%" +:+ q +:+ "%") (ev_expositor e)) in
  limit_offset limit offset
    (order_by fecha_hora_leb (List.filter (and_ conditions) (eventos db))).

Definition sala_hora_leb (a b : ExpoEventos) : bool :=
  match String.compare (ev_sala a) (ev_sala b) with
  | Lt => true
  | Eq => String.leb (ev_hora a) (ev_hora b)
  | Gt => false
  end.

Definition get_mapa_sala_evento (db : Database) (dia : Date) : list SalaEventoRow :=
  map (fun e => {| sr_sala := ev_sala e; sr_eventoId := ev_id e;
                   sr_titulo := ev_titulo_charla e; sr_horario := ev_hora e |})
      (order_by sala_hora_leb
                (List.filter (fun e => date_eqb (ev_fecha e) dia) (eventos db))).

End EventosQueries.

(** A row of the registrant listings. *)
Record InscritoRow := {
  registroId : Z;
  nombre : string;
  empresa : option string;
  email : string;
  estado : string;
  creadoEn : option Z;
}.

Module InscritosQueries.

(** [registro_eventos JOIN registros] on the foreign key. *)
Definition join_registros (db : Database)
  : list (ExpoRegistroEventos * ExpoRegistros) :=
  flat_map (fun re =>
              map (fun r => (re, r))
                  (List.filter (fun r => reg_id r =? re_registro_id re)
                               (registros db)))
           (registro_eventos db).

(** [... JOIN eventos] on the second foreign key. *)
Definition join_registros_eventos (db : Database)
  : list (ExpoRegistroEventos * ExpoRegistros * ExpoEventos) :=
  flat_map (fun rr =>
              map (fun e => (rr, e))
                  (List.filter (fun e => ev_id e =? re_evento_id (fst rr))
                               (eventos db)))
           (join_registros db).

(** [desc(fecha_seleccion)]: later selections first, NULLs last. *)
Definition fecha_desc_leb (a b : option Z) : bool :=
  match a, b with
  | Some x, Some y => y <=? x
  | Some _, None => true
  | None, Some _ => false
  | None, None => true
  end.

Definition to_row (re : ExpoRegistroEventos) (r : ExpoRegistros) : InscritoRow :=
  {| registroId := reg_id r;
     nombre := reg_nombres r;
     empresa := reg_empresa r;
     email := reg_correo r;
     estado := "INSCRITO";
     creadoEn := re_fecha_seleccion re |}.

Definition get_inscritos_by_evento (db : Database) (evento_id : Z)
           (estado_inscripcion : option string) (page page_size : Z)
  : Z * list InscritoRow :=
  let selected :=
    List.filter (fun rr => re_evento_id (fst rr) =? evento_id)
                (join_registros db) in
  let total := Z.of_nat (length selected) in
  let offset := (page - 1) * page_size in
  let rows :=
    limit_offset page_size offset
      (order_by (fun a b => fecha_desc_leb (re_fecha_seleccion (fst a))
                                           (re_fecha_seleccion (fst b)))
                selected) in
  (total, map (fun rr => to_row (fst rr) (snd rr)) rows).

Definition get_inscritos_by_filters (db : Database) (dia : option Date)
           (sala estado_inscripcion : option string) (page page_size : Z)
  : Z * list InscritoRow :=
  let conditions :=
    option_filter dia (fun d (x : ExpoRegistroEventos * ExpoRegistros * ExpoEventos) =>
                         date_eqb (ev_fecha (snd x)) d)
    ++ truthy_filter sala (fun s x => ilike db ("%" +:+ s +:+ "%") (ev_sala (snd x))) in
  let base_query := List.filter (and_ conditions) (join_registros_eventos db) in
  let total := Z.of_nat (length base_query) in
  let offset := (page - 1) * page_size in
  let rows :=
    limit_offset page_size offset
      (order_by (fun a b => fecha_desc_leb (re_fecha_seleccion (fst (fst a)))
                                           (re_fecha_seleccion (fst (fst b))))
                base_query) in
  (total, map (fun x => to_row (fst (fst x)) (snd (fst x))) rows).

End InscritosQueries.

Module AforoQueries.

(** [get_aforo_evento]: [None] for an unknown event. *)
Definition get_aforo_evento (db : Database) (evento_id : Z) : option AforoData :=
  match List.filter (fun e => ev_id e =? evento_id) (eventos db) with
  | [] => None
  | evento :: _ =>
      let inscritos :=
        Z.of_nat (length (List.filter (fun re => re_evento_id re =? evento_id)
                                      (registro_eventos db))) in
      let confirmados := inscritos in
      let asistencia_puerta :=
        Z.of_nat (length (List.filter (fun a => as_evento_id a =? evento_id)
                                      (asistencias_por_sala db))) in
      Some {| af_cupoTotal := ev_slots_disponibles evento;
              af_inscritos := inscritos;
              af_confirmados := confirmados;
              af_asistenciaEnPuerta := asistencia_puerta;
              af_noShowEstimado := Z.max 0 (confirmados - asistencia_puerta) |}
  end.

End AforoQueries.

Module AsistenciaQueries.

Definition same_pair (registro_id evento_id : Z) (a : ExpoAsistenciasPorSala) : bool :=
  (as_registro_id a =? registro_id) && (as_evento_id a =? evento_id).

(** [scalar_one_or_none] *)
Definition scalar_one_or_none {A} (rows : list A) : Resultado (option A) :=
  match rows with
  | [] => Ok None
  | [a] => Ok (Some a)
  | _ => Raise MultipleResultsFound
  end.

(** The in-place update of the row found, written back on commit. *)
Definition update_existing (asesor_verificador : string)
           (observacion ip_verificacion : option string) (now : Z)
           (existing : ExpoAsistenciasPorSala) : ExpoAsistenciasPorSala :=
  {| as_id := as_id existing;
     as_registro_id := as_registro_id existing;
     as_evento_id := as_evento_id existing;
     as_qr_escaneado := as_qr_escaneado existing;
     as_fecha_ingreso := Some now;
     as_asesor_verificador := asesor_verificador;
     as_ip_verificacion :=
       if truthy ip_verificacion then ip_verificacion
       else as_ip_verificacion existing;
     as_notas :=
       if truthy observacion then observacion else as_notas existing |}.

(** [select(ExpoRegistros.qr_code).where(id == registro_id)] then
    [scalar()]: the first row's column, [None] without rows. *)
Definition select_qr_code (db : Database) (registro_id : Z) : option string :=
  match List.filter (fun r => reg_id r =? registro_id) (registros db) with
  | r :: _ => reg_qr_code r
  | [] => None
  end.

Definition fk_ok (db : Database) (registro_id evento_id : Z) : bool :=
  existsb (fun r => reg_id r =? registro_id) (registros db)
  && existsb (fun e => ev_id e =? evento_id) (eventos db).

(** [confirmar_asistencia] at database time [now]: the answer and the
    store after the call.  An exception leaves the store as it was
    (the session is rolled back). *)
Definition confirmar_asistencia (db : Database) (now : Z)
           (registro_id evento_id : Z) (estado asesor_verificador : string)
           (observacion ip_verificacion : option string)
  : Resultado bool * Database :=
  match scalar_one_or_none
          (List.filter (same_pair registro_id evento_id)
                       (asistencias_por_sala db)) with
  | Raise e => (Raise e, db)
  | Ok (Some existing) =>
      let updated :=
        update_existing asesor_verificador observacion ip_verificacion now existing in
      (Ok true,
       with_asistencias db
         (map (fun a => if as_id a =? as_id existing then updated else a)
              (asistencias_por_sala db)))
  | Ok None =>
      let qr_code := select_qr_code db registro_id in
      let new_asistencia :=
        {| as_id := next_as_id db;
           as_registro_id := registro_id;
           as_evento_id := evento_id;
           as_qr_escaneado :=
             if truthy qr_code then default "" qr_code
             else "manual_" +:+ str_of_Z registro_id +:+ "_" +:+ str_of_Z evento_id;
           as_fecha_ingreso := Some now;
           as_asesor_verificador := asesor_verificador;
           as_ip_verificacion := ip_verificacion;
           as_notas := observacion |} in
      if fk_enforced db && negb (fk_ok db registro_id evento_id)
      then (Raise IntegrityError, db)
      else (Ok true,
            with_asistencias db (asistencias_por_sala db ++ [new_asistencia]))
  end.

End AsistenciaQueries.

(** An event attached to a search hit. *)
Record EventoAsociado := {
  ea_eventoId : Z;
  ea_titulo : string;
  ea_estado : string;
}.

(** A search hit. *)
Record Coincidencia := {
  cr_registroId : Z;
  cr_nombre : string;
  cr_empresa : option string;
  cr_email : string;
  cr_eventosAsociados : list EventoAsociado;
}.

Definition or_ {B} (conditions : list (B -> bool)) (row : B) : bool :=
  existsb (fun c => c row) conditions.

Module BusquedaQueries.

(** [registro_eventos JOIN eventos] restricted to one registration. *)
Definition eventos_asociados (db : Database) (registro_id : Z)
  : list EventoAsociado :=
  flat_map (fun re =>
              map (fun e => {| ea_eventoId := ev_id e;
                               ea_titulo := ev_titulo_charla e;
                               ea_estado := "INSCRITO" |})
                  (List.filter (fun e => ev_id e =? re_evento_id re) (eventos db)))
           (List.filter (fun re => re_registro_id re =? registro_id)
                        (registro_eventos db)).

Definition buscar_registro (db : Database) (query : string)
           (campos : option (list string)) : list Coincidencia :=
  let campos :=
    match campos with
    | None | Some [] => ["nombre"; "email"; "empresa"]
    | Some l => l
    end in
  let search_term := "%" +:+ query +:+ "%" in
  let conditions :=
    (if py_in "nombre" campos
     then [fun r => ilike db search_term (reg_nombres r)] else [])
    ++ (if py_in "email" campos
        then [fun r => ilike db search_term (reg_correo r)] else [])
    ++ (if py_in "empresa" campos
        then [fun r => EventosQueries.opt_ilike db search_term (reg_empresa r)]
        else []) in
  match conditions with
  | [] => []
  | _ =>
      let registros := firstn 20 (List.filter (or_ conditions) (registros db)) in
      map (fun registro =>
             {| cr_registroId := reg_id registro;
                cr_nombre := reg_nombres registro;
                cr_empresa := reg_empresa registro;
                cr_email := reg_correo registro;
                cr_eventosAsociados := eventos_asociados db (reg_id registro) |})
          registros
  end.

End BusquedaQueries.

End Queries.

(** ** app/schemas *)
Module Schemas.

(** A request body that fails pydantic validation is answered with
    status 422 before the handler runs.  The schemas are those of
    pydantic 1.x, which [config.py] requires by importing
    [BaseSettings] from [pydantic]: [min_length], [max_length], [ge],
    [le], [min_items] and the validators are enforced, while
    [pattern=] is not a constraint that version knows, so the three
    fields that carry one accept any string. *)
Definition RequestValidationError : Excepcion :=
  HTTPException 422 (DetailText "validation error").

Record ConfirmarAsistenciaInput := {
  ca_registroId : Z;
  ca_eventoId : Z;
  ca_estado : string;
  ca_observacion : option string;
}.


(** [max_length=500] on [observacion]. *)
Definition validate_ConfirmarAsistenciaInput (i : ConfirmarAsistenciaInput)
  : Resultado ConfirmarAsistenciaInput :=
  if match ca_observacion i with
     | Some o => Nat.leb (String.length o) 500
     | None => true
     end
  then Ok i else Raise RequestValidationError.

Record ConfirmarAsistenciaOutput := {
  co_ok : bool;
  co_timestamp : Z;
  co_registroId : Z;
  co_eventoId : Z;
}.

Record GetInscritosInput := {
  gi_eventoId : option Z;
  gi_dia : option Date;
  gi_sala : option string;
  gi_estadoInscripcion : option string;
  gi_page : Z;
  gi_pageSize : Z;
}.

(** The [pre=True] validator of [sala] and [estadoInscripcion]. *)
Definition empty_string_to_none (v : option string) : option string :=
  match v with
  | Some s => if String.eqb s "" then None else Some s
  | None => None
  end.

(** The values [pattern="^(INSCRITO|CONFIRMADO|CANCELADO)$"] names;
    the validation does not check them. *)
Definition estado_inscripcion_ok (v : option string) : bool :=
  match v with
  | Some s => py_in s ["INSCRITO"; "CONFIRMADO"; "CANCELADO"]
  | None => true
  end.

(** [ge=1] on [page], [ge=1] and [le=100] on [pageSize]. *)
Definition validate_GetInscritosInput (i : GetInscritosInput)
  : Resultado GetInscritosInput :=
  let sala := empty_string_to_none (gi_sala i) in
  let est := empty_string_to_none (gi_estadoInscripcion i) in
  if (1 <=? gi_page i) && (1 <=? gi_pageSize i) && (gi_pageSize i <=? 100)
  then Ok {| gi_eventoId := gi_eventoId i; gi_dia := gi_dia i;
             gi_sala := sala; gi_estadoInscripcion := est;
             gi_page := gi_page i; gi_pageSize := gi_pageSize i |}
  else Raise RequestValidationError.

Record GetInscritosOutput := {
  go_total : Z;
  go_page : Z;
  go_pageSize : Z;
  go_lista : list Queries.InscritoRow;
}.

Record GetEventosInput := {
  ge_fechaInicio : option Date;
  ge_fechaFin : option Date;
  ge_sede : option string;
  ge_sala : option string;
  ge_query : option string;
}.

(** [validate_fecha_range] *)
Definition validate_GetEventosInput (i : GetEventosInput)
  : Resultado GetEventosInput :=
  match ge_fechaFin i, ge_fechaInicio i with
  | Some v, Some ini =>
      if negb (date_leb ini v) then Raise RequestValidationError else Ok i
  | _, _ => Ok i
  end.

Record EventoInfo := {
  ei_id : Z;
  ei_titulo : string;
  ei_sala : string;
  ei_fechaInicio : Date;
  ei_cupoTotal : Z;
  ei_estado : string;
  ei_expositor : string;
}.

Record GetEventosOutput := {
  geo_eventos : list EventoInfo;
  geo_total : Z;
}.

Record GetAforoInput := { ga_eventoId : Z }.

Record GetAforoOutput := {
  gao_cupoTotal : Z;
  gao_inscritos : Z;
  gao_confirmados : Z;
  gao_asistenciaEnPuerta : Z;
  gao_noShowEstimado : Z;
}.

Record MapaSalaEventoInput := { ms_dia : Date }.

Record MapaSalaEventoOutput := {
  mso_items : list Queries.SalaEventoRow;
  mso_dia : Date;
  mso_total : Z;
}.

Record Rango := { inicio : string; fin : string }.

Record GetEstadisticasInput := {
  es_granularidad : string;
  es_rango : Rango;
  es_kpis : list string;
}.

Definition valid_kpis : list string :=
  ["inscritos"; "confirmados"; "tasaAsistencia"; "noShow";
   "leadsPorFuente"; "eventosMasPopulares"].

(** [min_items=1] and [validate_kpis]; the [pattern] of
    [granularidad] is not checked, and [validate_rango] holds of every
    [Rango]. *)
Definition validate_GetEstadisticasInput (i : GetEstadisticasInput)
  : Resultado GetEstadisticasInput :=
  if Nat.leb 1 (length (es_kpis i))
     && forallb (fun k => py_in k valid_kpis) (es_kpis i)
  then Ok i else Raise RequestValidationError.

(** A KPI value: an integer, or the float nearest to
    [hundredths / 100] that [round(x, 2)] returns. *)
Inductive Valor :=
| VInt (n : Z)
| VFloat2 (hundredths : Z).

Inductive Detalle :=
| DetPeriodo (granularidad periodo : string)
| DetTasa (inscritos asistieron : Z) (porcentaje : Valor)
| DetNoShow (inscritos asistieron noShows : Z)
| DetLeads (totalLeads : Z) (topFuentes : list (string * Z))
| DetEventos (totalEventos : Z) (topEventos : list (Z * string * string * Z)).

Record KpiInfo := {
  nombre : string;
  valor : Valor;
  detalle : Detalle;
}.

Record GetEstadisticasOutput := {
  kpis : list KpiInfo;
  granularidad : string;
  periodo : Rango;
}.

Record BuscarRegistroInput := {
  br_query : string;
  br_campos : option (list string);
}.

Definition valid_campos : list string := ["nombre"; "email"; "empresa"; "doc"].

(** [min_length=2] on [query] and [validate_campos]. *)
Definition validate_BuscarRegistroInput (i : BuscarRegistroInput)
  : Resultado BuscarRegistroInput :=
  if Nat.leb 2 (String.length (br_query i)) then
    match br_campos i with
    | None =>
        Ok {| br_query := br_query i;
              br_campos := Some ["nombre"; "email"; "empresa"] |}
    | Some v =>
        if forallb (fun campo => py_in campo valid_campos) v then Ok i
        else Raise RequestValidationError
    end
  else Raise RequestValidationError.

Record BuscarRegistroOutput := {
  bo_coincidencias : list Queries.Coincidencia;
  bo_total : Z;
}.

End Schemas.

(** ** Python arithmetic used by the statistics *)

(** A Python float is a binary64 number; it is represented by the
    rational it denotes.  [binary64 x] is the float nearest to the
    rational [x], ties to the even significand, for [x] in the normal
    range (no overflow, no subnormals). *)

(** The nearest integer, a tie going to the even one. *)
Definition round_half_even (y : Q) : Z :=
  let f := Qfloor y in
  match Qcompare (y - inject_Z f) (1 # 2) with
  | Lt => f
  | Gt => f + 1
  | Eq => if Z.even f then f else f + 1
  end.

(** The exponent [E] with [2 ^ E <= x < 2 ^ (E + 1)], for [x > 0]. *)
Definition binade (x : Q) : Z :=
  let c := Z.log2 (Qnum x) - Z.log2 (Zpos (Qden x)) in
  if Qle_bool (2 ^ c) x then c else c - 1.

Definition binary64_pos (x : Q) : Q :=
  let e := binade x - 52 in
  (inject_Z (round_half_even (x / 2 ^ e)) * 2 ^ e)%Q.

Definition binary64 (x : Q) : Q :=
  let x := Qred x in
  match Qcompare x 0 with
  | Eq => 0%Q
  | Gt => binary64_pos x
  | Lt => (- binary64_pos (- x))%Q
  end.

(** [float(n)], the conversion Python applies to an [int] operand. *)
Definition float_of_int (n : Z) : Q := binary64 (inject_Z n).

(** [x * y] on floats. *)
Definition float_mul (x y : Q) : Q := binary64 (x * y).

(** [x / y] on floats: a [ZeroDivisionError] for a zero divisor. *)
Definition py_truediv (x y : Q) : Resultado Q :=
  if Qeq_bool y 0 then Raise ZeroDivisionError else Ok (binary64 (x / y)).

(** [round(x, 2)] on a float, as the number of hundredths of its result:
    the float's exact value rounded half-even to two decimals (the result
    is the float nearest to that decimal). *)
Definition py_round2 (x : Q) : Z := round_half_even (x * 100).

(** The rational a hardware float denotes, for checking [binary64]
    against the primitive operations. *)
Definition Q_of_float (x : float) : Q :=
  match Prim2SF x with
  | S754_finite s m e => ((if s then -1 else 1) * inject_Z (Zpos m) * 2 ^ e)%Q
  | _ => 0%Q
  end.

Definition hardware_rate (a i : Z) : Q :=
  Q_of_float (PrimFloat.div
                (PrimFloat.mul (PrimFloat.of_uint63 (Uint63.of_Z a)) 100%float)
                (PrimFloat.of_uint63 (Uint63.of_Z i))).

Definition model_rate (a i : Z) : Q :=
  binary64 (float_mul (float_of_int a) 100 / float_of_int i).

Definition pad2 (n : Z) : string :=
  if n <? 10 then "0" +:+ str_of_Z n else str_of_Z n.

Definition pad4 (n : Z) : string :=
  if n <? 10 then "000" +:+ str_of_Z n
  else if n <? 100 then "00" +:+ str_of_Z n
  else if n <? 1000 then "0" +:+ str_of_Z n
  else str_of_Z n.

(** [str(d)] for a date *)
Definition date_str (d : Date) : string :=
  pad4 (year d) +:+ "-" +:+ pad2 (month d) +:+ "-" +:+ pad2 (day d).

(** ** app/services *)
Module Services.
Import Db Queries Schemas.

(** A structlog record: level and event name, with the KPI name where
    the call passes one. *)
Inductive LogEvent :=
| LogInfo (event : string)
| LogWarning (event : string)
| LogError (event : string) (kpi_name : option string).

Module EventosService.

Definition to_info (evento : ExpoEventos) : EventoInfo :=
  {| ei_id := ev_id evento;
     ei_titulo := ev_titulo_charla evento;
     ei_sala := ev_sala evento;
     ei_fechaInicio := ev_fecha evento;
     ei_cupoTotal :=
       match ev_slots_disponibles evento with
       | Some n => if n =? 0 then 60 else n
       | None => 60
       end;
     ei_estado :=
       match ev_disponible evento with
       | Some true => "ACTIVO"
       | _ => "INACTIVO"
       end;
     ei_expositor := ev_expositor evento |}.

Definition get_eventos (db : Database) (input_data : GetEventosInput)
  : list LogEvent * Resultado GetEventosOutput :=
  let eventos :=
    EventosQueries.get_eventos_filtered db
      (ge_fechaInicio input_data) (ge_fechaFin input_data)
      (ge_sede input_data) (ge_sala input_data) (ge_query input_data) 50 0 in
  let eventos_info := map to_info eventos in
  ([LogInfo "get_eventos_started"; LogInfo "get_eventos_completed"],
   Ok {| geo_eventos := eventos_info;
         geo_total := Z.of_nat (length eventos_info) |}).

Definition get_mapa_sala_evento (db : Database) (input_data : MapaSalaEventoInput)
  : Resultado MapaSalaEventoOutput :=
  let items := EventosQueries.get_mapa_sala_evento db (ms_dia input_data) in
  Ok {| mso_items := items; mso_dia := ms_dia input_data;
        mso_total := Z.of_nat (length items) |}.

End EventosService.

Module InscritosService.

(** [InscritoInfo] requires [creadoEn]; a row without it fails the
    model's validation. *)
Definition check_row (item : InscritoRow) : Resultado InscritoRow :=
  match creadoEn item with
  | Some _ => Ok item
  | None => Raise (ValueError "creadoEn: none is not an allowed value")
  end.

Fixpoint check_rows (l : list InscritoRow) : Resultado (list InscritoRow) :=
  match l with
  | [] => Ok []
  | item :: l' =>
      let* i := check_row item in
      let* r := check_rows l' in
      Ok (i :: r)
  end.

Definition truthy_id (o : option Z) : bool :=
  match o with
  | Some n => negb (n =? 0)
  | None => false
  end.

Definition get_inscritos (db : Database) (input_data : GetInscritosInput)
  : Resultado GetInscritosOutput :=
  let '(total, lista_data) :=
    if truthy_id (gi_eventoId input_data) then
      InscritosQueries.get_inscritos_by_evento db
        (default 0 (gi_eventoId input_data))
        (gi_estadoInscripcion input_data)
        (gi_page input_data) (gi_pageSize input_data)
    else
      InscritosQueries.get_inscritos_by_filters db
        (gi_dia input_data) (gi_sala input_data)
        (gi_estadoInscripcion input_data)
        (gi_page input_data) (gi_pageSize input_data) in
  let* lista := check_rows lista_data in
  Ok {| go_total := total; go_page := gi_page input_data;
        go_pageSize := gi_pageSize input_data; go_lista := lista |}.

(** [get_aforo]: [GetAforoOutput] requires an integer [cupoTotal]. *)
Definition get_aforo (db : Database) (input_data : GetAforoInput)
  : Resultado (option GetAforoOutput) :=
  match AforoQueries.get_aforo_evento db (ga_eventoId input_data) with
  | None => Ok None
  | Some aforo_data =>
      match af_cupoTotal aforo_data with
      | None => Raise (ValueError "cupoTotal: none is not an allowed value")
      | Some cupo =>
          Ok (Some {| gao_cupoTotal := cupo;
                      gao_inscritos := af_inscritos aforo_data;
                      gao_confirmados := af_confirmados aforo_data;
                      gao_asistenciaEnPuerta := af_asistenciaEnPuerta aforo_data;
                      gao_noShowEstimado := af_noShowEstimado aforo_data |})
      end
  end.

Definition buscar_registro (db : Database) (input_data : BuscarRegistroInput)
  : Resultado BuscarRegistroOutput :=
  let coincidencias :=
    BusquedaQueries.buscar_registro db (br_query input_data)
                                    (br_campos input_data) in
  Ok {| bo_coincidencias := coincidencias;
        bo_total := Z.of_nat (length coincidencias) |}.

End InscritosService.

Module AsistenciaService.

(** [confirmar_asistencia]: [db_now] is the database clock
    ([current_timestamp]), [utcnow] the service's own. *)
Definition confirmar_asistencia (db : Database) (db_now utcnow : Z)
           (input_data : ConfirmarAsistenciaInput)
           (asesor_verificador : string) (ip_verificacion : option string)
  : Resultado (option ConfirmarAsistenciaOutput) * Database :=
  let '(r, db') :=
    AsistenciaQueries.confirmar_asistencia db db_now
      (ca_registroId input_data) (ca_eventoId input_data)
      (ca_estado input_data) asesor_verificador
      (ca_observacion input_data) ip_verificacion in
  match r with
  | Raise e => (Raise e, db')
  | Ok success =>
      if negb success then (Ok None, db')
      else (Ok (Some {| co_ok := true; co_timestamp := utcnow;
                        co_registroId := ca_registroId input_data;
                        co_eventoId := ca_eventoId input_data |}), db')
  end.

End AsistenciaService.

End Services.

(** ** app/services/estadisticas.py *)
Module EstadisticasService.
Import Db Queries Schemas Services.

Definition in_range (fecha_inicio fecha_fin : Date) (e : ExpoEventos) : bool :=
  date_leb fecha_inicio (ev_fecha e) && date_leb (ev_fecha e) fecha_fin.

(** [Model.join(...)] on a declarative class.  The classes of
    [models.py] have no attribute [join] (the queries write
    [Model.__table__.join(...)]), so the lookup raises before anything
    is joined; [rows] is what the join would hold. *)
Definition Model_join {A} (rows : A) : Resultado A :=
  Raise (AttributeError "type object has no attribute 'join'").

(** [registro_eventos JOIN eventos] restricted to the range. *)
Definition inscripciones_en_rango (db : Database) (fi ff : Date)
  : list (ExpoRegistroEventos * ExpoEventos) :=
  flat_map (fun re =>
              map (fun e => (re, e))
                  (List.filter (fun e => (ev_id e =? re_evento_id re) && in_range fi ff e)
                               (eventos db)))
           (registro_eventos db).

(** [asistencias_por_sala JOIN eventos] restricted to the range. *)
Definition asistencias_en_rango (db : Database) (fi ff : Date)
  : list (ExpoAsistenciasPorSala * ExpoEventos) :=
  flat_map (fun a =>
              map (fun e => (a, e))
                  (List.filter (fun e => (ev_id e =? as_evento_id a) && in_range fi ff e)
                               (eventos db)))
           (asistencias_por_sala db).

(** [registros JOIN registro_eventos JOIN eventos] restricted to the
    range, projected on the grouping column [empresa]. *)
Definition leads_en_rango (db : Database) (fi ff : Date) : list (option string) :=
  flat_map (fun r =>
              flat_map (fun re =>
                          map (fun _ => reg_empresa r)
                              (List.filter (fun e => (ev_id e =? re_evento_id re)
                                                     && in_range fi ff e)
                                           (eventos db)))
                       (List.filter (fun re => re_registro_id re =? reg_id r)
                                    (registro_eventos db)))
           (registros db).

(** [eventos JOIN registro_eventos] restricted to the range, projected
    on the grouping columns. *)
Definition populares_en_rango (db : Database) (fi ff : Date)
  : list (Z * string * string) :=
  flat_map (fun e =>
              map (fun _ => (ev_id e, ev_titulo_charla e, ev_sala e))
                  (List.filter (fun re => re_evento_id re =? ev_id e)
                               (registro_eventos db)))
           (List.filter (in_range fi ff) (eventos db)).

(** [GROUP BY]: one row per distinct key, in order of first
    appearance, with its number of rows. *)
Fixpoint dedup {K} (eqb : K -> K -> bool) (l : list K) : list K :=
  match l with
  | [] => []
  | k :: l' => k :: List.filter (fun x => negb (eqb k x)) (dedup eqb l')
  end.

Definition count_of {K} (eqb : K -> K -> bool) (k : K) (l : list K) : Z :=
  Z.of_nat (length (List.filter (eqb k) l)).

Definition group_count {K} (eqb : K -> K -> bool) (l : list K) : list (K * Z) :=
  map (fun k => (k, count_of eqb k l)) (dedup eqb l).

Definition empresa_eqb (a b : option string) : bool :=
  match a, b with
  | Some x, Some y => String.eqb x y
  | None, None => true
  | _, _ => false
  end.

Definition evento_key_eqb (a b : Z * string * string) : bool :=
  (fst (fst a) =? fst (fst b)) && String.eqb (snd (fst a)) (snd (fst b))
  && String.eqb (snd a) (snd b).

(** [ORDER BY count DESC] *)
Definition count_desc_leb {K} (a b : K * Z) : bool := snd b <=? snd a.

Definition _kpi_inscritos (db : Database) (granularidad : string)
           (fecha_inicio fecha_fin : Date) (alias : string) : Resultado KpiInfo :=
  let* joined := Model_join (inscripciones_en_rango db fecha_inicio fecha_fin) in
  let total := Z.of_nat (length joined) in
  Ok {| nombre := alias; valor := VInt total;
        detalle := DetPeriodo granularidad
                     (date_str fecha_inicio +:+ " a " +:+ date_str fecha_fin) |}.

(** The line "Calculate rate" and the two [round(tasa, 2)]. *)
Definition calculate_rate (total_inscritos total_asistieron : Z) : Resultado Valor :=
  if total_inscritos >? 0 then
    let* tasa := py_truediv (float_mul (float_of_int total_asistieron) 100)
                            (float_of_int total_inscritos) in
    Ok (VFloat2 (py_round2 tasa))
  else Ok (VInt 0).

Definition _kpi_tasa_asistencia (db : Database) (granularidad : string)
           (fecha_inicio fecha_fin : Date) : Resultado KpiInfo :=
  let* inscritos := Model_join (inscripciones_en_rango db fecha_inicio fecha_fin) in
  let total_inscritos := Z.of_nat (length inscritos) in
  let* asistieron := Model_join (asistencias_en_rango db fecha_inicio fecha_fin) in
  let total_asistieron := Z.of_nat (length asistieron) in
  let* rounded := calculate_rate total_inscritos total_asistieron in
  Ok {| nombre := "tasaAsistencia"; valor := rounded;
        detalle := DetTasa total_inscritos total_asistieron rounded |}.

Definition _kpi_no_show (db : Database) (granularidad : string)
           (fecha_inicio fecha_fin : Date) : Resultado KpiInfo :=
  let* tasa_kpi := _kpi_tasa_asistencia db granularidad fecha_inicio fecha_fin in
  match detalle tasa_kpi with
  | DetTasa total_inscritos total_asistieron _ =>
      let no_shows := total_inscritos - total_asistieron in
      Ok {| nombre := "noShow"; valor := VInt no_shows;
            detalle := DetNoShow total_inscritos total_asistieron no_shows |}
  | _ => Raise (ValueError "KeyError")
  end.

Definition coalesce (o : option string) (dflt : string) : string :=
  match o with Some s => s | None => dflt end.

(** The rows of the [leadsPorFuente] statement over the joined rows. *)
Definition leads_rows (leads : list (option string)) : list (string * Z) :=
  map (fun g => (coalesce (fst g) "Sin empresa", snd g))
      (limit_offset 10 0 (order_by count_desc_leb (group_count empresa_eqb leads))).

Definition sum_totals (l : list (string * Z)) : Z :=
  fold_right (fun item acc => snd item + acc) 0 l.

Definition _kpi_leads_por_fuente (db : Database) (granularidad : string)
           (fecha_inicio fecha_fin : Date) : Resultado KpiInfo :=
  let* joined := Model_join (leads_en_rango db fecha_inicio fecha_fin) in
  let fuentes := leads_rows joined in
  let total_leads := sum_totals fuentes in
  Ok {| nombre := "leadsPorFuente"; valor := VInt total_leads;
        detalle := DetLeads total_leads fuentes |}.

Definition populares_rows (joined : list (Z * string * string))
  : list (Z * string * string * Z) :=
  limit_offset 10 0 (order_by count_desc_leb (group_count evento_key_eqb joined)).

Definition _kpi_eventos_populares (db : Database) (granularidad : string)
           (fecha_inicio fecha_fin : Date) : Resultado KpiInfo :=
  let* joined := Model_join (populares_en_rango db fecha_inicio fecha_fin) in
  let eventos := populares_rows joined in
  let n := Z.of_nat (length eventos) in
  Ok {| nombre := "eventosMasPopulares"; valor := VInt n;
        detalle := DetEventos n eventos |}.

(** The dispatch inside the [try] of [_calculate_kpi]; [None] is the
    final [else] branch. *)
Definition dispatch_kpi (db : Database) (kpi_name granularidad : string)
           (fecha_inicio fecha_fin : Date) : option (Resultado KpiInfo) :=
  if String.eqb kpi_name "inscritos" then
    Some (_kpi_inscritos db granularidad fecha_inicio fecha_fin "inscritos")
  else if String.eqb kpi_name "confirmados" then
    Some (_kpi_inscritos db granularidad fecha_inicio fecha_fin "confirmados")
  else if String.eqb kpi_name "tasaAsistencia" then
    Some (_kpi_tasa_asistencia db granularidad fecha_inicio fecha_fin)
  else if String.eqb kpi_name "noShow" then
    Some (_kpi_no_show db granularidad fecha_inicio fecha_fin)
  else if String.eqb kpi_name "leadsPorFuente" then
    Some (_kpi_leads_por_fuente db granularidad fecha_inicio fecha_fin)
  else if String.eqb kpi_name "eventosMasPopulares" then
    Some (_kpi_eventos_populares db granularidad fecha_inicio fecha_fin)
  else None.

(** The [try]/[except] of [_calculate_kpi] around what the dispatch
    did: a result is returned, an exception is logged and swallowed,
    and the final [else] branch ([None]) logs a warning. *)
Definition try_kpi (kpi_name : string) (outcome : option (Resultado KpiInfo))
  : list LogEvent * option KpiInfo :=
  match outcome with
  | Some (Ok kpi) => ([], Some kpi)
  | Some (Raise e) => ([LogError "calculate_kpi_error" (Some kpi_name)], None)
  | None => ([LogWarning ("Unknown KPI: " +:+ kpi_name)], None)
  end.

Definition _calculate_kpi (db : Database) (kpi_name granularidad : string)
           (fecha_inicio fecha_fin : Date) : list LogEvent * option KpiInfo :=
  try_kpi kpi_name (dispatch_kpi db kpi_name granularidad fecha_inicio fecha_fin).

(** The [for kpi_name in input_data.kpis] loop around the per-KPI
    call. *)
Fixpoint for_kpi_name (calculate : string -> list LogEvent * option KpiInfo)
         (names : list string) : list LogEvent * list KpiInfo :=
  match names with
  | [] => ([], [])
  | kpi_name :: rest =>
      let '(log1, kpi_result) := calculate kpi_name in
      let '(log2, kpis) := for_kpi_name calculate rest in
      (log1 ++ log2,
       match kpi_result with
       | Some k => k :: kpis
       | None => kpis
       end)
  end.

Definition calculate_all (db : Database) (names : list string) (granularidad : string)
           (fecha_inicio fecha_fin : Date) : list LogEvent * list KpiInfo :=
  for_kpi_name
    (fun kpi_name => _calculate_kpi db kpi_name granularidad fecha_inicio fecha_fin)
    names.

Definition get_estadisticas (db : Database) (input_data : GetEstadisticasInput)
  : list LogEvent * Resultado GetEstadisticasOutput :=
  let started := LogInfo "get_estadisticas_started" in
  match strptime_date (inicio (es_rango input_data)) with
  | Raise e => ([started; LogError "get_estadisticas_error" None], Raise e)
  | Ok fecha_inicio =>
      match strptime_date (fin (es_rango input_data)) with
      | Raise e => ([started; LogError "get_estadisticas_error" None], Raise e)
      | Ok fecha_fin =>
          let '(log, kpis) :=
            calculate_all db (es_kpis input_data) (es_granularidad input_data)
                          fecha_inicio fecha_fin in
          (started :: log ++ [LogInfo "get_estadisticas_completed"],
           Ok {| kpis := kpis;
                 granularidad := es_granularidad input_data;
                 periodo := es_rango input_data |})
      end
  end.

End EstadisticasService.

(** ** app/api/tools.py *)
Module Tools.
Import Db Queries Schemas Services.

(** The mutable state the handlers share: the global rate limiter, the
    global cache client and the database. *)
Record World := {
  limiter : gmap string (list Z);
  cache : RedisClient.RedisCache;
  db : Database;
}.

(** What a handler sees of the HTTP request besides its body: the
    decoded bearer token, the peer address, and the three clocks read
    on the way ([time()], the database's [current_timestamp] and
    [datetime.utcnow()]). *)
Record Request := {
  credentials : Auth.Decoded;
  client_host : option string;
  rq_time : Z;
  rq_db_time : Z;
  rq_utcnow : Z;
}.

Definition INTERNAL_ERROR (message : string) : Excepcion :=
  HTTPException 500 (DetailMCPError "INTERNAL_ERROR" message []).

Definition NOT_FOUND (message : string) (details : list (string * Z)) : Excepcion :=
  HTTPException 404 (DetailMCPError "NOT_FOUND" message details).

(** [except HTTPException: raise] followed by [except Exception]. *)
Definition reraise_or_500 (message : string) (e : Excepcion) : Excepcion :=
  match e with
  | HTTPException _ _ => e
  | _ => INTERNAL_ERROR message
  end.

(** The dependencies and the body validation FastAPI runs before the
    handler: authentication and permission first, then the body. *)
Definition prelude {I} (tool : string) (validate : I -> Resultado I)
           (rq : Request) (input_data : I) : Resultado (Auth.MCPUser * I) :=
  let* user := Auth.require_permission tool (credentials rq) in
  let* i := validate input_data in
  Ok (user, i).

Definition with_limiter (w : World) (rl : gmap string (list Z)) : World :=
  {| limiter := rl; cache := cache w; db := db w |}.

Definition with_db (w : World) (d : Database) : World :=
  {| limiter := limiter w; cache := cache w; db := d |}.

Definition get_eventos (cfg : Settings) (w : World) (rq : Request)
           (input_data : GetEventosInput)
  : list LogEvent * Resultado GetEventosOutput * World :=
  match prelude "getEventos" validate_GetEventosInput rq input_data with
  | Raise e => ([], Raise e, w)
  | Ok (user, input_data) =>
      let '(admitted, rl) :=
        Auth.check_rate_limit cfg (limiter w) (rq_time rq) user "getEventos" in
      let w1 := with_limiter w rl in
      match admitted with
      | Raise e => ([], Raise e, w1)
      | Ok _ =>
          let '(log, result) := EventosService.get_eventos (db w1) input_data in
          match result with
          | Ok r =>
              (LogInfo "get_eventos_request" :: log ++ [LogInfo "get_eventos_success"],
               Ok r, w1)
          | Raise e =>
              (LogInfo "get_eventos_request" :: log ++ [LogError "get_eventos_error" None],
               Raise (INTERNAL_ERROR "Error retrieving events"), w1)
          end
      end
  end.

Definition get_inscritos (cfg : Settings) (w : World) (rq : Request)
           (input_data : GetInscritosInput)
  : Resultado GetInscritosOutput * World :=
  match prelude "getInscritos" validate_GetInscritosInput rq input_data with
  | Raise e => (Raise e, w)
  | Ok (user, input_data) =>
      let '(admitted, rl) :=
        Auth.check_rate_limit cfg (limiter w) (rq_time rq) user "getInscritos" in
      let w1 := with_limiter w rl in
      match admitted with
      | Raise e => (Raise e, w1)
      | Ok _ =>
          match InscritosService.get_inscritos (db w1) input_data with
          | Ok r => (Ok r, w1)
          | Raise e => (Raise (INTERNAL_ERROR "Error retrieving inscribed users"), w1)
          end
      end
  end.

Definition get_aforo (cfg : Settings) (w : World) (rq : Request)
           (input_data : GetAforoInput)
  : Resultado GetAforoOutput * World :=
  match prelude "getAforo" Ok rq input_data with
  | Raise e => (Raise e, w)
  | Ok (user, input_data) =>
      let '(admitted, rl) :=
        Auth.check_rate_limit cfg (limiter w) (rq_time rq) user "getAforo" in
      let w1 := with_limiter w rl in
      match admitted with
      | Raise e => (Raise e, w1)
      | Ok _ =>
          match InscritosService.get_aforo (db w1) input_data with
          | Ok None =>
              (Raise (NOT_FOUND "Event not found"
                        [("eventoId", ga_eventoId input_data)]), w1)
          | Ok (Some r) => (Ok r, w1)
          | Raise e =>
              (Raise (reraise_or_500 "Error retrieving event capacity" e), w1)
          end
      end
  end.

Definition mapa_sala_evento (cfg : Settings) (w : World) (rq : Request)
           (input_data : MapaSalaEventoInput)
  : Resultado MapaSalaEventoOutput * World :=
  match prelude "mapaSalaEvento" Ok rq input_data with
  | Raise e => (Raise e, w)
  | Ok (user, input_data) =>
      let '(admitted, rl) :=
        Auth.check_rate_limit cfg (limiter w) (rq_time rq) user "mapaSalaEvento" in
      let w1 := with_limiter w rl in
      match admitted with
      | Raise e => (Raise e, w1)
      | Ok _ =>
          match EventosService.get_mapa_sala_evento (db w1) input_data with
          | Ok r => (Ok r, w1)
          | Raise e =>
              (Raise (INTERNAL_ERROR "Error retrieving room-event mapping"), w1)
          end
      end
  end.

Definition confirmar_asistencia (cfg : Settings) (w : World) (rq : Request)
           (input_data : ConfirmarAsistenciaInput)
  : Resultado ConfirmarAsistenciaOutput * World :=
  match prelude "confirmarAsistencia" validate_ConfirmarAsistenciaInput
                rq input_data with
  | Raise e => (Raise e, w)
  | Ok (user, input_data) =>
      let '(admitted, rl) :=
        Auth.check_rate_limit cfg (limiter w) (rq_time rq) user "confirmarAsistencia" in
      let w1 := with_limiter w rl in
      match admitted with
      | Raise e => (Raise e, w1)
      | Ok _ =>
          let '(result, db') :=
            AsistenciaService.confirmar_asistencia (db w1) (rq_db_time rq)
              (rq_utcnow rq) input_data (Auth.username user) (client_host rq) in
          let w2 := with_db w1 db' in
          match result with
          | Ok None =>
              (Raise (NOT_FOUND "Registration or event not found"
                        [("registroId", ca_registroId input_data);
                         ("eventoId", ca_eventoId input_data)]), w2)
          | Ok (Some r) => (Ok r, w2)
          | Raise e => (Raise (reraise_or_500 "Error confirming attendance" e), w2)
          end
      end
  end.

Definition get_estadisticas (cfg : Settings) (w : World) (rq : Request)
           (input_data : GetEstadisticasInput)
  : list LogEvent * Resultado GetEstadisticasOutput * World :=
  match prelude "getEstadisticas" validate_GetEstadisticasInput rq input_data with
  | Raise e => ([], Raise e, w)
  | Ok (user, input_data) =>
      let '(admitted, rl) :=
        Auth.check_rate_limit cfg (limiter w) (rq_time rq) user "getEstadisticas" in
      let w1 := with_limiter w rl in
      match admitted with
      | Raise e => ([], Raise e, w1)
      | Ok _ =>
          let '(log, result) := EstadisticasService.get_estadisticas (db w1) input_data in
          match result with
          | Ok r =>
              (LogInfo "get_estadisticas_request" :: log
                 ++ [LogInfo "get_estadisticas_success"], Ok r, w1)
          | Raise e =>
              (LogInfo "get_estadisticas_request" :: log
                 ++ [LogError "get_estadisticas_error" None],
               Raise (INTERNAL_ERROR "Error calculating statistics"), w1)
          end
      end
  end.

Definition buscar_registro (cfg : Settings) (w : World) (rq : Request)
           (input_data : BuscarRegistroInput)
  : Resultado BuscarRegistroOutput * World :=
  match prelude "buscarRegistro" validate_BuscarRegistroInput rq input_data with
  | Raise e => (Raise e, w)
  | Ok (user, input_data) =>
      let '(admitted, rl) :=
        Auth.check_rate_limit cfg (limiter w) (rq_time rq) user "buscarRegistro" in
      let w1 := with_limiter w rl in
      match admitted with
      | Raise e => (Raise e, w1)
      | Ok _ =>
          match InscritosService.buscar_registro (db w1) input_data with
          | Ok r => (Ok r, w1)
          | Raise e => (Raise (INTERNAL_ERROR "Error searching registrations"), w1)
          end
      end
  end.

(** [tools_health]: the tools the router announces. *)
Definition tools_health : list string :=
  ["getEventos"; "getInscritos"; "getAforo"; "confirmarAsistencia";
   "getEstadisticas"; "buscarRegistro"; "mapaSalaEvento"].

End Tools.

(** ** Vocabulary of the properties *)

(** The claims [jwt.decode] returns for a token that [create_access_token]
    issued to [(user_id, username, role)] and that has not expired. *)
Definition token_of (uid uname : string) (r : Auth.UserRole) : Auth.Decoded :=
  Auth.Claims {| Auth.p_sub := Some uid; Auth.p_username := Some uname;
                 Auth.p_role := Some (Auth.role_value r) |}.

Definition user_of (uid uname : string) (r : Auth.UserRole) : Auth.MCPUser :=
  {| Auth.user_id := uid; Auth.username := uname; Auth.role := r;
     Auth.permissions := Auth.ROLE_PERMISSIONS r |}.

Definition PermissionDenied (tool : string) : Excepcion :=
  HTTPException 403 (DetailText ("Permission '" +:+ tool +:+ "' required")).

Definition RateLimitExceeded : Excepcion :=
  HTTPException 429 (DetailText "Rate limit exceeded").

(** Successive admission checks of one key at the given clock readings. *)
Fixpoint admit_all (rl : gmap string (list Z)) (key : string) (limit : Z)
         (times : list Z) : list bool * gmap string (list Z) :=
  match times with
  | [] => ([], rl)
  | now :: rest =>
      let '(b, rl1) := Auth.is_allowed rl now key limit 60 in
      let '(bs, rl2) := admit_all rl1 key limit rest in
      (b :: bs, rl2)
  end.

(** The keyword arguments under which a [getEventos] call is keyed: its
    five filters by name, absent ones as [None]. *)
Definition eventos_params (i : Schemas.GetEventosInput) : RedisClient.Params :=
  [("fechaInicio", option_map date_str (Schemas.ge_fechaInicio i));
   ("fechaFin", option_map date_str (Schemas.ge_fechaFin i));
   ("sede", Schemas.ge_sede i);
   ("sala", Schemas.ge_sala i);
   ("query", Schemas.ge_query i)].

Definition with_cache (w : Tools.World) (c : RedisClient.RedisCache) : Tools.World :=
  {| Tools.limiter := Tools.limiter w; Tools.cache := c; Tools.db := Tools.db w |}.

(** A handler ignores the cache when swapping the cache for another one
    changes nothing of what it returns and nothing else of the state. *)
Definition ignores_cache {I O : Type}
           (handler : Settings -> Tools.World -> Tools.Request -> I -> O * Tools.World)
  : Prop :=
  forall cfg w rq input_data c',
    handler cfg (with_cache w c') rq input_data =
    (fst (handler cfg w rq input_data),
     with_cache (snd (handler cfg w rq input_data)) c').

(** The tools with a nonzero TTL in [CACHE_TTL]. *)
Definition cached_tools : list string :=
  ["mapaSalaEvento"; "getAforo"; "getEventos"; "getInscritos"; "getEstadisticas"].

(** The cache-aside reading of [getEventos]: whenever the cache holds a
    live entry under the call's key, an answered call returns that entry
    and the events service has not run. *)
Definition served_from_cache : Prop :=
  forall (loads : string -> Schemas.GetEventosOutput) cfg w rq input_data v log r w',
    RedisClient.cache_get _ loads (Tools.cache w) (Tools.rq_time rq)
                          "getEventos" (eventos_params input_data) = Some v ->
    Tools.get_eventos cfg w rq input_data = (log, Ok r, w') ->
    r = v /\ ~ In (Services.LogInfo "get_eventos_started") log.

(** *** Sample data *)

Definition empty_db : Db.Database :=
  {| Db.eventos := []; Db.registros := []; Db.registro_eventos := [];
     Db.asistencias_por_sala := []; Db.fk_enforced := false;
     Db.ilike := fun _ _ => true |}.

Definition sample_evento (id : Z) (d : Date) : Db.ExpoEventos :=
  {| Db.ev_id := id; Db.ev_fecha := d; Db.ev_hora := "10:00";
     Db.ev_sala := "Sala A"; Db.ev_titulo_charla := "Charla";
     Db.ev_expositor := "Ponente"; Db.ev_descripcion := None;
     Db.ev_slots_disponibles := Some 60; Db.ev_disponible := Some true |}.

Definition one_event_db : Db.Database :=
  {| Db.eventos := [sample_evento 123 {| year := 2025; month := 8; day := 30 |}];
     Db.registros := []; Db.registro_eventos := [];
     Db.asistencias_por_sala := []; Db.fk_enforced := false;
     Db.ilike := fun _ _ => true |}.

Definition no_filters : Schemas.GetEventosInput :=
  {| Schemas.ge_fechaInicio := None; Schemas.ge_fechaFin := None;
     Schemas.ge_sede := None; Schemas.ge_sala := None; Schemas.ge_query := None |}.

Definition empty_output : Schemas.GetEventosOutput :=
  {| Schemas.geo_eventos := []; Schemas.geo_total := 0 |}.

(** A connected cache holding, under the key of an unfiltered
    [getEventos] call, an entry that lives until time 300. *)
Definition warm_cache : RedisClient.RedisCache :=
  {| RedisClient.connected := true; RedisClient.server_up := true;
     RedisClient.redis :=
       {[ "mcp:getEventos:" := {| RedisClient.e_value := "{'eventos': [], 'total': 0}";
                                  RedisClient.e_expire_at := Some 300 |} ]} |}.

Definition request_of (d : Auth.Decoded) (now : Z) : Tools.Request :=
  {| Tools.credentials := d; Tools.client_host := Some "10.0.0.7";
     Tools.rq_time := now; Tools.rq_db_time := now; Tools.rq_utcnow := now |}.

(** *** Attendance confirmations *)

(** One [confirmarAsistencia] call as the service receives it. *)
Record Call := {
  c_input : Schemas.ConfirmarAsistenciaInput;
  c_verifier : string;
  c_ip : option string;
  c_db_now : Z;
  c_utcnow : Z;
}.

Definition confirm (db : Db.Database) (c : Call)
  : Resultado (option Schemas.ConfirmarAsistenciaOutput) * Db.Database :=
  Services.AsistenciaService.confirmar_asistencia
    db (c_db_now c) (c_utcnow c) (c_input c) (c_verifier c) (c_ip c).

(** Calls served one after the other. *)
Fixpoint confirm_all (db : Db.Database) (calls : list Call)
  : list (Resultado (option Schemas.ConfirmarAsistenciaOutput)) * Db.Database :=
  match calls with
  | [] => ([], db)
  | c :: rest =>
      let '(o, db1) := confirm db c in
      let '(os, db2) := confirm_all db1 rest in
      (o :: os, db2)
  end.

Definition for_pair (r e : Z) (c : Call) : Prop :=
  Schemas.ca_registroId (c_input c) = r /\ Schemas.ca_eventoId (c_input c) = e.

(** The attendance rows stored for a pair. *)
Definition records_for (r e : Z) (db : Db.Database) : list Db.ExpoAsistenciasPorSala :=
  List.filter (Queries.AsistenciaQueries.same_pair r e) (Db.asistencias_por_sala db).

(** The primary key of the attendance table. *)
Definition primary_key_ok (db : Db.Database) : Prop :=
  NoDup (map Db.as_id (Db.asistencias_por_sala db)).


Definition is_not_found {A} (r : Resultado A) : bool :=
  match r with
  | Raise (HTTPException 404 _) => true
  | _ => false
  end.

(** What the schema promises of the attendance table and the data model
    of the pair [(r, e)]: unique primary keys and at most one row for
    the pair. *)
Definition attendance_invariant (r e : Z) (db : Db.Database) : Prop :=
  primary_key_ok db /\ (length (records_for r e db) <= 1)%nat.

(** The request times an admission check at [now] keeps. *)
Definition kept_at (now : Z) (l : list Z) : list Z :=
  List.filter (fun req_time => now - req_time <? 60) l.

(** The admission check with the pruning worded as "timestamps older
    than [now - window]": a time exactly [window] old is kept. *)
Definition is_allowed_pruning_older (rl : gmap string (list Z)) (now : Z) (key : string)
           (limit window : Z) : bool * gmap string (list Z) :=
  let kept := List.filter (fun req_time => now - window <=? req_time)
                          (Auth.requests_of rl key) in
  let rl1 := <[key := kept]> rl in
  if Z.of_nat (length kept) >=? limit then (false, rl1)
  else (true, <[key := kept ++ [now]]> rl1).

Definition prunes_only_older : Prop :=
  forall rl now key limit,
    Auth.is_allowed rl now key limit 60 = is_allowed_pruning_older rl now key limit 60.

Definition world_of (d : Db.Database) : Tools.World :=
  {| Tools.limiter := ∅; Tools.cache := warm_cache; Tools.db := d |}.

(** The store serves a confirmation for the pair: the pair has a row
    to update, or the store accepts a new row for it. *)
Definition serves (db : Db.Database) (r e : Z) : bool :=
  match records_for r e db with
  | [] => negb (Db.fk_enforced db && negb (Queries.AsistenciaQueries.fk_ok db r e))
  | _ :: _ => true
  end.

(** The answer of a confirmation that is served. *)
Definition answer_of (c : Call) : Resultado (option Schemas.ConfirmarAsistenciaOutput) :=
  Ok (Some {| Schemas.co_ok := true;
              Schemas.co_timestamp := c_utcnow c;
              Schemas.co_registroId := Schemas.ca_registroId (c_input c);
              Schemas.co_eventoId := Schemas.ca_eventoId (c_input c) |}).

Definition refused : Resultado (option Schemas.ConfirmarAsistenciaOutput) :=
  Raise IntegrityError.

Definition fk_checked_db : Db.Database :=
  {| Db.eventos := []; Db.registros := []; Db.registro_eventos := [];
     Db.asistencias_por_sala := []; Db.fk_enforced := true;
     Db.ilike := fun _ _ => true |}.

Definition sample_call (r e : Z) (verifier : string) (now : Z) : Call :=
  {| c_input := {| Schemas.ca_registroId := r; Schemas.ca_eventoId := e;
                   Schemas.ca_estado := "PRESENTE";
                   Schemas.ca_observacion := None |};
     c_verifier := verifier; c_ip := Some "10.0.0.7";
     c_db_now := now; c_utcnow := now |}.

(** *** Registrant listings *)

Definition with_estado_inscripcion (i : Schemas.GetInscritosInput) (v : option string)
  : Schemas.GetInscritosInput :=
  {| Schemas.gi_eventoId := Schemas.gi_eventoId i;
     Schemas.gi_dia := Schemas.gi_dia i;
     Schemas.gi_sala := Schemas.gi_sala i;
     Schemas.gi_estadoInscripcion := v;
     Schemas.gi_page := Schemas.gi_page i;
     Schemas.gi_pageSize := Schemas.gi_pageSize i |}.

(** A value the schema accepts for [estadoInscripcion]: absent, empty,
    or one of the three states. *)
Definition valid_estado_inscripcion (v : option string) : bool :=
  Schemas.estado_inscripcion_ok (Schemas.empty_string_to_none v).

Definition all_inscrito (r : Resultado Schemas.GetInscritosOutput) : Prop :=
  match r with
  | Ok out => Forall (fun row => Queries.estado row = "INSCRITO") (Schemas.go_lista out)
  | Raise _ => True
  end.

Definition sample_registro (id : Z) (empresa : string) : Db.ExpoRegistros :=
  {| Db.reg_id := id; Db.reg_nombres := "Asistente"; Db.reg_correo := "a@example.com";
     Db.reg_empresa := Some empresa; Db.reg_qr_code := None |}.

Definition sample_inscripcion (id r e : Z) : Db.ExpoRegistroEventos :=
  {| Db.re_id := id; Db.re_registro_id := r; Db.re_evento_id := e;
     Db.re_fecha_seleccion := Some id |}.

(** Two organisations, first "Zeta" then "Alpha", one registration each
    for an event of 30 August 2025. *)
Definition two_leads_db : Db.Database :=
  {| Db.eventos := [sample_evento 123 {| year := 2025; month := 8; day := 30 |}];
     Db.registros := [sample_registro 1 "Zeta"; sample_registro 2 "Alpha"];
     Db.registro_eventos := [sample_inscripcion 1 1 123; sample_inscripcion 2 2 123];
     Db.asistencias_por_sala := []; Db.fk_enforced := false;
     Db.ilike := fun _ _ => true |}.

(** A store that checks foreign keys and knows registrations 1037 and
    2001 and event 123; the attendance table holds the row of the
    pair (2001, 123). *)
Definition door_db : Db.Database :=
  {| Db.eventos := [sample_evento 123 {| year := 2025; month := 8; day := 30 |}];
     Db.registros := [sample_registro 1037 "Acme"; sample_registro 2001 "Zeta"];
     Db.registro_eventos := [];
     Db.asistencias_por_sala :=
       [{| Db.as_id := 4; Db.as_registro_id := 2001; Db.as_evento_id := 123;
           Db.as_qr_escaneado := "manual_2001_123"; Db.as_fecha_ingreso := Some 50;
           Db.as_asesor_verificador := "maria_recepcion";
           Db.as_ip_verificacion := None; Db.as_notas := None |}];
     Db.fk_enforced := true;
     Db.ilike := fun _ _ => true |}.

Definition by_event_123 : Schemas.GetInscritosInput :=
  {| Schemas.gi_eventoId := Some 123; Schemas.gi_dia := None; Schemas.gi_sala := None;
     Schemas.gi_estadoInscripcion := None; Schemas.gi_page := 1;
     Schemas.gi_pageSize := 20 |}.

(** *** Statistics *)

(** "Rounded to 2 decimal places": [k / 100] is a multiple of 0.01
    nearest to [x]. *)
Definition nearest_hundredth (x : Q) (k : Z) : Prop :=
  (Qabs (x * 100 - inject_Z k) <= 1 # 2)%Q.

(** Half a unit in the last place, relative to the value. *)
Definition eps64 : Q := 1 # (2 ^ 53).

Definition grid (n : nat) : list (Z * Z) :=
  flat_map (fun a => map (fun i => (Z.of_nat a, Z.of_nat i)) (seq 1 n)) (seq 0 n).

Definition august_1 : Date := {| year := 2025; month := 8; day := 1 |}.
Definition august_31 : Date := {| year := 2025; month := 8; day := 31 |}.

Definition sample_asistencia (id : Z) : Db.ExpoAsistenciasPorSala :=
  {| Db.as_id := id; Db.as_registro_id := id; Db.as_evento_id := 123;
     Db.as_qr_escaneado := "qr"; Db.as_fecha_ingreso := Some id;
     Db.as_asesor_verificador := "maria_recepcion";
     Db.as_ip_verificacion := None; Db.as_notas := None |}.

(** 150 registrations and 38 attendance confirmations for one event of
    30 August 2025. *)
Definition kpi_db : Db.Database :=
  {| Db.eventos := [sample_evento 123 {| year := 2025; month := 8; day := 30 |}];
     Db.registros := [];
     Db.registro_eventos :=
       map (fun n => sample_inscripcion (Z.of_nat n) (Z.of_nat n) 123) (seq 1 150);
     Db.asistencias_por_sala := map (fun n => sample_asistencia (Z.of_nat n)) (seq 1 38);
     Db.fk_enforced := false;
     Db.ilike := fun _ _ => true |}.

(** What [Model.join] raises. *)
Definition JoinError : Excepcion :=
  AttributeError "type object has no attribute 'join'".

(** A request for one KPI over August 2025. *)
Definition august_request (kpi : string) : Schemas.GetEstadisticasInput :=
  {| Schemas.es_granularidad := "DIA";
     Schemas.es_rango := {| Schemas.inicio := "2025-08-01"; Schemas.fin := "2025-08-31" |};
     Schemas.es_kpis := [kpi] |}.

(** The per-KPI contribution to the answer and to the log. *)
Definition kpi_of (db : Db.Database) (g : string) (fi ff : Date) (name : string)
  : list Schemas.KpiInfo :=
  match EstadisticasService.dispatch_kpi db name g fi ff with
  | Some (Ok k) => [k]
  | _ => []
  end.

Definition log_of (db : Db.Database) (g : string) (fi ff : Date) (name : string)
  : list Services.LogEvent :=
  match EstadisticasService.dispatch_kpi db name g fi ff with
  | Some (Ok _) => []
  | Some (Raise _) => [Services.LogError "calculate_kpi_error" (Some name)]
  | None => [Services.LogWarning ("Unknown KPI: " +:+ name)]
  end.

(** The isolation reading of the statistics tool: every request the
    schema accepts is answered with a result set, failures only
    removing KPIs from it. *)
Definition every_failure_only_omits : Prop :=
  forall db input_data,
    Schemas.validate_GetEstadisticasInput input_data = Ok input_data ->
    exists log out,
      EstadisticasService.get_estadisticas db input_data = (log, Ok out).

Definition malformed_range_request : Schemas.GetEstadisticasInput :=
  {| Schemas.es_granularidad := "DIA";
     Schemas.es_rango := {| Schemas.inicio := "2025-13-01"; Schemas.fin := "2025-08-31" |};
     Schemas.es_kpis := ["inscritos"; "tasaAsistencia"] |}.

(** *** Further vocabulary *)

(** The clock readings of the calls a run admitted. *)
Definition admitted_times (times : list Z) (answers : list bool) : list Z :=
  map fst (List.filter snd (combine times answers)).

(** A name without a colon, as every tool name is. *)
Fixpoint colon_free (s : string) : bool :=
  match s with
  | EmptyString => true
  | String c s' => negb (Ascii.eqb c ":") && colon_free s'
  end.

(** A handler writes nothing when a call leaves the database and the
    cache as they were. *)
Definition writes_nothing {I O : Type}
           (handler : Settings -> Tools.World -> Tools.Request -> I -> O * Tools.World)
  : Prop :=
  forall cfg w rq input_data,
    Tools.db (snd (handler cfg w rq input_data)) = Tools.db w
    /\ Tools.cache (snd (handler cfg w rq input_data)) = Tools.cache w.

(** The limiter around a handler: a request turned away by the
    dependencies or by the validation of the body leaves the whole
    state as it was; any other request costs exactly one check for the
    caller and the tool. *)
Definition counts_after_prelude {I O : Type} (tool : string)
           (validate : I -> Resultado I)
           (handler : Settings -> Tools.World -> Tools.Request -> I -> O * Tools.World)
  : Prop :=
  forall cfg w rq input_data,
    match Tools.prelude tool validate rq input_data with
    | Raise _ => snd (handler cfg w rq input_data) = w
    | Ok (user, _) =>
        Tools.limiter (snd (handler cfg w rq input_data))
        = snd (Auth.check_rate_limit cfg (Tools.limiter w) (Tools.rq_time rq)
                                     user tool)
    end.

(** An attendance row of the pair (1037, 123) that carries a note. *)
Definition noted_asistencia : Db.ExpoAsistenciasPorSala :=
  {| Db.as_id := 7; Db.as_registro_id := 1037; Db.as_evento_id := 123;
     Db.as_qr_escaneado := "qr_1037"; Db.as_fecha_ingreso := Some 50;
     Db.as_asesor_verificador := "pedro_puerta";
     Db.as_ip_verificacion := Some "10.0.0.9";
     Db.as_notas := Some "con acompanante" |}.

Definition noted_db : Db.Database :=
  Db.with_asistencias one_event_db [noted_asistencia].

(** The call the write handler hands to the service. *)
Definition call_of (user : Auth.MCPUser) (rq : Tools.Request)
           (i : Schemas.ConfirmarAsistenciaInput) : Call :=
  {| c_input := i; c_verifier := Auth.username user;
     c_ip := Tools.client_host rq;
     c_db_now := Tools.rq_db_time rq; c_utcnow := Tools.rq_utcnow rq |}.

Definition with_sede (i : Schemas.GetEventosInput) (sede : option string)
  : Schemas.GetEventosInput :=
  {| Schemas.ge_fechaInicio := Schemas.ge_fechaInicio i;
     Schemas.ge_fechaFin := Schemas.ge_fechaFin i;
     Schemas.ge_sede := sede;
     Schemas.ge_sala := Schemas.ge_sala i;
     Schemas.ge_query := Schemas.ge_query i |}.

(** Earlier in the calendar. *)
Definition date_lt (a b : Date) : Prop :=
  year a < year b
  \/ (year a = year b
      /\ (month a < month b \/ (month a = month b /\ day a < day b))).

(** The row of the room-event map for an event. *)
Definition sala_row (e : Db.ExpoEventos) : Queries.SalaEventoRow :=
  {| Queries.sr_sala := Db.ev_sala e; Queries.sr_eventoId := Db.ev_id e;
     Queries.sr_titulo := Db.ev_titulo_charla e; Queries.sr_horario := Db.ev_hora e |}.

(** The same event with another number of slots. *)
Definition with_slots (e : Db.ExpoEventos) (slots : option Z) : Db.ExpoEventos :=
  {| Db.ev_id := Db.ev_id e; Db.ev_fecha := Db.ev_fecha e; Db.ev_hora := Db.ev_hora e;
     Db.ev_sala := Db.ev_sala e; Db.ev_titulo_charla := Db.ev_titulo_charla e;
     Db.ev_expositor := Db.ev_expositor e; Db.ev_descripcion := Db.ev_descripcion e;
     Db.ev_slots_disponibles := slots; Db.ev_disponible := Db.ev_disponible e |}.

(** A store holding one event. *)
Definition db_of_event (e : Db.ExpoEventos) : Db.Database :=
  {| Db.eventos := [e]; Db.registros := []; Db.registro_eventos := [];
     Db.asistencias_por_sala := []; Db.fk_enforced := false;
     Db.ilike := fun _ _ => true |}.

Definition with_evento_id (i : Schemas.GetInscritosInput) (evento_id : option Z)
  : Schemas.GetInscritosInput :=
  {| Schemas.gi_eventoId := evento_id;
     Schemas.gi_dia := Schemas.gi_dia i;
     Schemas.gi_sala := Schemas.gi_sala i;
     Schemas.gi_estadoInscripcion := Schemas.gi_estadoInscripcion i;
     Schemas.gi_page := Schemas.gi_page i;
     Schemas.gi_pageSize := Schemas.gi_pageSize i |}.

Definition with_dia_sala (i : Schemas.GetInscritosInput) (dia : option Date)
           (sala : option string) : Schemas.GetInscritosInput :=
  {| Schemas.gi_eventoId := Schemas.gi_eventoId i;
     Schemas.gi_dia := dia;
     Schemas.gi_sala := sala;
     Schemas.gi_estadoInscripcion := Schemas.gi_estadoInscripcion i;
     Schemas.gi_page := Schemas.gi_page i;
     Schemas.gi_pageSize := Schemas.gi_pageSize i |}.

(** The search hit of a stored registration. *)
Definition hit_of (db : Db.Database) (r : Db.ExpoRegistros) : Queries.Coincidencia :=
  {| Queries.cr_registroId := Db.reg_id r;
     Queries.cr_nombre := Db.reg_nombres r;
     Queries.cr_empresa := Db.reg_empresa r;
     Queries.cr_email := Db.reg_correo r;
     Queries.cr_eventosAsociados :=
       Queries.BusquedaQueries.eventos_asociados db (Db.reg_id r) |}.

(** A registration matches a query in one of the fields searched. *)
Definition matches_in (db : Db.Database) (query : string) (campos : list string)
           (r : Db.ExpoRegistros) : Prop :=
  (In "nombre" campos /\ Db.ilike db ("%" +:+ query +:+ "%") (Db.reg_nombres r) = true)
  \/ (In "email" campos /\ Db.ilike db ("%" +:+ query +:+ "%") (Db.reg_correo r) = true)
  \/ (In "empresa" campos
      /\ exists emp, Db.reg_empresa r = Some emp
                     /\ Db.ilike db ("%" +:+ query +:+ "%") emp = true).

(** A date of the calendar, as [datetime.date] holds it. *)
Definition valid_date (d : Date) : Prop :=
  1 <= year d <= 9999 /\ 1 <= month d <= 12
  /\ 1 <= day d <= days_in_month (year d) (month d).

Fixpoint dash_free (s : string) : bool :=
  match s with
  | EmptyString => true
  | String c s' => negb (Ascii.eqb c "-") && dash_free s'
  end.

(** The printed form of a number parses back to it. *)
Definition prints_and_parses (print : Z -> string) (parse : string -> option Z)
           (n : Z) : bool :=
  dash_free (print n)
  && match parse (print n) with
     | Some n' => n' =? n
     | None => false
     end.

(** The integers from 1 to [n]. *)
Definition upto (n : Z) : list Z := map Z.of_nat (seq 1 (Z.to_nat n)).

(** * Properties *)

(** Case analysis on every string comparison of the goal, closing the
    branch where the comparison holds with [tac]. *)
Ltac split_eqb tac :=
  repeat match goal with
         | |- context [String.eqb ?a ?b] => destruct (String.eqb a b); [tac |]
         end.

(** ** Permissions *)
Section Permissions.
Import Auth.

Lemma py_in_In (x : string) (xs : list string) :
  py_in x xs = true <-> In x xs.
Proof.
  unfold py_in. rewrite existsb_exists. split.
  - intros [y [Hy Heq]]. apply String.eqb_eq in Heq. now subst.
  - intros H. exists x. split; [exact H | apply String.eqb_refl].
Qed.

Lemma role_value_roundtrip (r : UserRole) :
  UserRole_of_value (role_value r) = Ok r.
Proof. destruct r; reflexivity. Qed.

Lemma get_current_user_token (uid uname : string) (r : UserRole) :
  get_current_user (token_of uid uname r) = Ok (user_of uid uname r).
Proof.
  unfold get_current_user, verify_token, token_of; cbn [p_sub p_username p_role].
  rewrite role_value_roundtrip. reflexivity.
Qed.

Lemma require_permission_token (uid uname t : string) (r : UserRole) :
  require_permission t (token_of uid uname r) =
  if py_in t (ROLE_PERMISSIONS r) then Ok (user_of uid uname r)
  else Raise (PermissionDenied t).
Proof.
  unfold require_permission. rewrite get_current_user_token.
  cbn [bind]. unfold permission_checker, PermissionDenied.
  cbn [permissions user_of]. now destruct (py_in t (ROLE_PERMISSIONS r)).
Qed.

(** C8. The permission check lets role [r] call tool [t] exactly when
    [t] is in [ROLE_PERMISSIONS r] and answers 403 otherwise; the
    coordinator's set strictly contains the door staff's, which
    strictly contains the reader's; a reader calling
    [confirmarAsistencia] is refused with 403 and nothing changes. *)
Theorem permission_check_matches_static_table :
  (forall (uid uname t : string) (r : UserRole),
      (py_in t (ROLE_PERMISSIONS r) = true <-> In t (ROLE_PERMISSIONS r))
      /\ require_permission t (token_of uid uname r) =
         (if py_in t (ROLE_PERMISSIONS r) then Ok (user_of uid uname r)
          else Raise (PermissionDenied t))
      /\ ((exists u, require_permission t (token_of uid uname r) = Ok u)
          <-> In t (ROLE_PERMISSIONS r)))
  /\ (incl (ROLE_PERMISSIONS LECTOR) (ROLE_PERMISSIONS STAFF_PUERTA)
      /\ ~ incl (ROLE_PERMISSIONS STAFF_PUERTA) (ROLE_PERMISSIONS LECTOR))
  /\ (incl (ROLE_PERMISSIONS STAFF_PUERTA) (ROLE_PERMISSIONS COORDINADOR)
      /\ ~ incl (ROLE_PERMISSIONS COORDINADOR) (ROLE_PERMISSIONS STAFF_PUERTA))
  /\ (forall cfg w uid uname host t1 t2 t3 input_data,
         Tools.confirmar_asistencia cfg w
           {| Tools.credentials := token_of uid uname LECTOR;
              Tools.client_host := host; Tools.rq_time := t1;
              Tools.rq_db_time := t2; Tools.rq_utcnow := t3 |} input_data
         = (Raise (PermissionDenied "confirmarAsistencia"), w)).
Proof.
  split; [| split; [| split]].
  - intros uid uname t r. split; [apply py_in_In |]. split.
    + apply require_permission_token.
    + rewrite require_permission_token, <- py_in_In.
      destruct (py_in t (ROLE_PERMISSIONS r)); split.
      * reflexivity.
      * intros _. now exists (user_of uid uname r).
      * intros [u Hu]. discriminate Hu.
      * intros H. discriminate H.
  - split.
    + intros x Hx. cbn in *. tauto.
    + intros H. specialize (H "confirmarAsistencia").
      assert (Hin : In "confirmarAsistencia" (ROLE_PERMISSIONS STAFF_PUERTA))
        by (apply py_in_In; reflexivity).
      apply H, py_in_In in Hin. discriminate Hin.
  - split.
    + intros x Hx. cbn in *. tauto.
    + intros H. specialize (H "estadisticasDetalladas").
      assert (Hin : In "estadisticasDetalladas" (ROLE_PERMISSIONS COORDINADOR))
        by (apply py_in_In; reflexivity).
      apply H, py_in_In in Hin. discriminate Hin.
  - intros. unfold Tools.confirmar_asistencia, Tools.prelude.
    cbn [Tools.credentials]. rewrite require_permission_token. reflexivity.
Qed.

End Permissions.

(** ** Rate limiting *)
Section RateLimiting.
Import Auth.

Lemma requests_of_insert (rl : gmap string (list Z)) (key : string) (v : list Z) :
  requests_of (<[key := v]> rl) key = v.
Proof. unfold requests_of. now rewrite lookup_insert_eq. Qed.

Lemma is_allowed_eq (rl : gmap string (list Z)) (now : Z) (key : string) (limit : Z) :
  is_allowed rl now key limit 60 =
  if limit <=? Z.of_nat (length (kept_at now (requests_of rl key)))
  then (false, <[key := kept_at now (requests_of rl key)]> rl)
  else (true, <[key := kept_at now (requests_of rl key) ++ [now]]> rl).
Proof.
  unfold is_allowed, kept_at. rewrite Z.geb_leb.
  destruct (limit <=? _); [reflexivity |].
  now rewrite insert_insert_eq.
Qed.

Lemma kept_at_In (now t : Z) (l : list Z) :
  In t (kept_at now l) <-> In t l /\ now - 60 < t.
Proof.
  unfold kept_at. rewrite filter_In, Z.ltb_lt. intuition lia.
Qed.

Lemma kept_at_all (now t0 : Z) (l : list Z) :
  Forall (fun t => t0 <= t < t0 + 60) l -> t0 <= now < t0 + 60 ->
  kept_at now l = l.
Proof.
  intros Hl Hnow. unfold kept_at. induction Hl as [| t l Ht Hl IH]; cbn.
  - reflexivity.
  - assert (Hlt : (now - t <? 60) = true) by (apply Z.ltb_lt; lia).
    rewrite Hlt. f_equal. exact IH.
Qed.

Lemma kept_at_length_le (now : Z) (l : list Z) :
  (length (kept_at now l) <= length l)%nat.
Proof.
  unfold kept_at. induction l as [| t l IH]; cbn; [lia |].
  destruct (now - t <? 60); cbn; lia.
Qed.

Lemma kept_at_drops (now t : Z) (l : list Z) :
  In t l -> 60 <= now - t -> (length (kept_at now l) < length l)%nat.
Proof.
  unfold kept_at. induction l as [| x l IH]; cbn; [tauto |].
  intros [-> | Hin] Hold.
  - assert (Hge : (now - t <? 60) = false) by (apply Z.ltb_ge; lia).
    rewrite Hge. pose proof (kept_at_length_le now l) as Hle.
    unfold kept_at in Hle. lia.
  - specialize (IH Hin Hold). destruct (now - x <? 60); cbn; lia.
Qed.

(** Calls inside one window are admitted while the limit is not
    reached, and each is recorded. *)
Lemma admit_all_within (key : string) (limit t0 : Z) (times : list Z) :
  forall (rl : gmap string (list Z)),
    Forall (fun t => t0 <= t < t0 + 60) (requests_of rl key) ->
    Forall (fun t => t0 <= t < t0 + 60) times ->
    Z.of_nat (length (requests_of rl key) + length times) <= limit ->
    exists rl',
      admit_all rl key limit times = (repeat true (length times), rl')
      /\ requests_of rl' key = requests_of rl key ++ times.
Proof.
  induction times as [| now rest IH]; intros rl Hcur Htimes Hlen.
  - exists rl. cbn. now rewrite app_nil_r.
  - inversion Htimes as [| ? ? Hnow Hrest]; subst.
    cbn [admit_all]. rewrite is_allowed_eq.
    rewrite (kept_at_all now t0 _ Hcur Hnow).
    cbn [length] in Hlen.
    destruct (limit <=? Z.of_nat (length (requests_of rl key))) eqn:Hfull;
      [apply Z.leb_le in Hfull; lia |].
    destruct (IH (<[key := requests_of rl key ++ [now]]> rl)) as [rl' [Hrun Hreq]].
    + rewrite requests_of_insert. apply Forall_app. split; [exact Hcur |].
      now constructor.
    + exact Hrest.
    + rewrite requests_of_insert, length_app. cbn [length]. lia.
    + exists rl'. rewrite Hrun. split; [reflexivity |].
      rewrite Hreq, requests_of_insert, <- app_assoc. reflexivity.
Qed.

Lemma admit_all_app (key : string) (limit : Z) (ts1 ts2 : list Z) :
  forall (rl : gmap string (list Z)),
    admit_all rl key limit (ts1 ++ ts2) =
    (fst (admit_all rl key limit ts1)
       ++ fst (admit_all (snd (admit_all rl key limit ts1)) key limit ts2),
     snd (admit_all (snd (admit_all rl key limit ts1)) key limit ts2)).
Proof.
  induction ts1 as [| now rest IH]; intros rl.
  - cbn. now destruct (admit_all rl key limit ts2).
  - cbn [admit_all app]. destruct (is_allowed rl now key limit 60) as [b rl1].
    rewrite IH. destruct (admit_all rl1 key limit rest) as [bs rl2]. cbn.
    now destruct (admit_all rl2 key limit ts2).
Qed.

(** C4, as the code has it.  One admission check keeps exactly the
    recorded times newer than [now - 60], so a time exactly 60 old is
    pruned; with at least [limit] of them left it refuses
    (429 from [check_rate_limit]) and records nothing, otherwise it
    records [now] and admits.  Hence on a fresh key, [L] calls inside
    one window are admitted, one more call inside it is refused, and a
    call made once one of the admitted calls is 60 or more in the past
    is admitted again. *)
Theorem sliding_window_admission
        (rl : gmap string (list Z)) (key : string) (L : nat)
        (t0 extra later : Z) (times : list Z) :
  rl !! key = None ->
  length times = L ->
  Forall (fun t => t0 <= t < t0 + 60) (times ++ [extra]) ->
  (exists t, In t times /\ 60 <= later - t) ->
  (forall (rl0 : gmap string (list Z)) (now limit : Z) (k : string),
      let kept := kept_at now (requests_of rl0 k) in
      (forall t, In t kept <-> In t (requests_of rl0 k) /\ now - 60 < t)
      /\ is_allowed rl0 now k limit 60 =
         (if limit <=? Z.of_nat (length kept)
          then (false, <[k := kept]> rl0)
          else (true, <[k := kept ++ [now]]> rl0))
      /\ (forall cfg user tool,
             check_rate_limit cfg rl0 now user tool =
             (if fst (is_allowed rl0 now (rate_key user tool) (limit_for cfg tool) 60)
              then Ok tt else Raise RateLimitExceeded,
              snd (is_allowed rl0 now (rate_key user tool) (limit_for cfg tool) 60))))
  /\ fst (admit_all rl key (Z.of_nat L) (times ++ [extra] ++ [later]))
     = repeat true L ++ [false; true].
Proof.
  intros Hfresh Hlen Hwin [told [Hin Hold]]. subst L. split.
  - intros rl0 now limit k kept. split; [| split].
    + intros t. apply kept_at_In.
    + apply is_allowed_eq.
    + intros cfg user tool. unfold check_rate_limit, RateLimitExceeded.
      destruct (is_allowed rl0 now (rate_key user tool) (limit_for cfg tool) 60)
        as [[|] rl']; reflexivity.
  - apply Forall_app in Hwin as [Htimes Hextra].
    inversion Hextra as [| ? ? Hex _]; subst.
    assert (Hempty : requests_of rl key = []) by (unfold requests_of; now rewrite Hfresh).
    destruct (admit_all_within key (Z.of_nat (length times)) t0 times rl)
      as [rl1 [Hrun Hreq]].
    + rewrite Hempty. constructor.
    + exact Htimes.
    + rewrite Hempty. cbn [length]. lia.
    + rewrite Hempty in Hreq. cbn [app] in Hreq.
      rewrite admit_all_app, Hrun. cbn [fst snd]. f_equal.
      cbn [admit_all app]. rewrite (is_allowed_eq rl1 extra), Hreq.
      rewrite (kept_at_all extra t0 times Htimes Hex), Z.leb_refl.
      cbv beta iota. rewrite is_allowed_eq, requests_of_insert.
      pose proof (kept_at_drops later told times Hin Hold) as Hlt.
      destruct (Z.of_nat (length times) <=? Z.of_nat (length (kept_at later times)))
        eqn:Hfull; [apply Z.leb_le in Hfull; lia | reflexivity].
Qed.

Lemma sliding_window_admission_witness :
  fst (admit_all ∅ "staff_001:getEventos" 2 ([0; 10] ++ [20] ++ [65]))
  = [true; true; false; true].
Proof.
  refine (proj2 (sliding_window_admission ∅ "staff_001:getEventos" 2 0 20 65 [0; 10]
                   _ _ _ _)).
  - apply lookup_empty.
  - reflexivity.
  - repeat constructor; lia.
  - exists 0. split; [now left | lia].
Defined.

(** C4 as stated fails: a time exactly 60 old is not older than
    [now - 60], yet it is pruned; with a limit of 1 and a call recorded
    at 0, the call at 60 is admitted, where pruning only the older
    times would refuse it. *)
Lemma time_sixty_old_is_pruned : ~ prunes_only_older.
Proof.
  intros H. specialize (H {[ "k" := [0] ]} 60 "k" 1).
  apply (f_equal fst) in H. vm_compute in H. discriminate H.
Qed.

End RateLimiting.

(** ** Caching *)
Section Caching.
Import RedisClient Schemas Services.

Context {Value : Type} (dumps : Value -> string) (loads : string -> Value).

Lemma CACHE_TTL_nonneg (tool_name : string) :
  0 <= dict_get CACHE_TTL tool_name 0.
Proof.
  unfold CACHE_TTL. cbn [dict_get]. split_eqb lia. lia.
Qed.

Lemma cache_get_eq (c : RedisCache) (now : Z) (tool_name : string) (params : Params) :
  cache_get Value loads c now tool_name params =
  if dict_get CACHE_TTL tool_name 0 =? 0 then None
  else if connected c && server_up c
       then option_map loads (redis_get c now (get_cache_key tool_name params))
       else None.
Proof.
  unfold cache_get, get. destruct (dict_get CACHE_TTL tool_name 0 =? 0); [reflexivity |].
  destruct (connected c), (server_up c); reflexivity.
Qed.

Lemma cache_set_then_get (c : RedisCache) (t0 now : Z) (tool_name : string)
      (v : Value) (params : Params) :
  cache_get Value loads (snd (cache_set Value dumps c t0 tool_name v params))
            now tool_name params =
  if dict_get CACHE_TTL tool_name 0 =? 0 then None
  else if connected c && server_up c
       then (if now <? t0 + dict_get CACHE_TTL tool_name 0
             then Some (loads (dumps v)) else None)
       else None.
Proof.
  rewrite cache_get_eq. unfold cache_set.
  pose proof (CACHE_TTL_nonneg tool_name) as Hnn.
  destruct (dict_get CACHE_TTL tool_name 0 =? 0) eqn:Hz; [reflexivity |].
  apply Z.eqb_neq in Hz. unfold set.
  destruct (connected c) eqn:Hc; cbn [negb snd andb]; [| now rewrite Hc].
  destruct (server_up c) eqn:Hs; cbn [negb snd andb]; [| now rewrite Hc, Hs].
  apply Z.eqb_neq in Hz. rewrite Hz.
  destruct (dict_get CACHE_TTL tool_name 0 <? 0) eqn:Hneg;
    [apply Z.ltb_lt in Hneg; lia |].
  cbn [snd connected server_up andb]. unfold redis_get. cbn [redis].
  rewrite lookup_insert_eq. cbn [e_expire_at e_value].
  now destruct (now <? t0 + dict_get CACHE_TTL tool_name 0).
Qed.

End Caching.

Section CachingHandlers.
Import RedisClient Schemas Services.

Lemma get_eventos_unfold cfg (w : Tools.World) rq input_data :
  Tools.get_eventos cfg w rq input_data =
  match Tools.prelude "getEventos" validate_GetEventosInput rq input_data with
  | Raise e => ([], Raise e, w)
  | Ok (user, i) =>
      match Auth.check_rate_limit cfg (Tools.limiter w) (Tools.rq_time rq)
                                  user "getEventos" with
      | (Raise e, rl) => ([], Raise e, Tools.with_limiter w rl)
      | (Ok _, rl) =>
          (LogInfo "get_eventos_request"
             :: fst (EventosService.get_eventos (Tools.db w) i)
             ++ [LogInfo "get_eventos_success"],
           snd (EventosService.get_eventos (Tools.db w) i),
           Tools.with_limiter w rl)
      end
  end.
Proof.
  unfold Tools.get_eventos.
  destruct (Tools.prelude _ _ rq input_data) as [[user i] | e]; [| reflexivity].
  destruct (Auth.check_rate_limit _ _ _ _ _) as [[[] | e] rl]; reflexivity.
Qed.

(** Each handler reads the limiter and the database of the state, never
    its cache. *)
Ltac prove_ignores_cache :=
  intros cfg w rq input_data c';
  cbn [with_cache Tools.limiter Tools.db Tools.cache];
  destruct (Tools.prelude _ _ rq input_data) as [[user i] | e]; [| reflexivity];
  destruct (Auth.check_rate_limit _ _ _ _ _) as [[[] | e] rl]; [| reflexivity];
  cbn [with_cache Tools.with_limiter Tools.limiter Tools.db Tools.cache fst snd];
  repeat match goal with
         | |- context [match ?x with _ => _ end] => destruct x
         end;
  reflexivity.

Lemma get_eventos_ignores_cache : ignores_cache Tools.get_eventos.
Proof. unfold ignores_cache, Tools.get_eventos. prove_ignores_cache. Qed.

Lemma get_inscritos_ignores_cache : ignores_cache Tools.get_inscritos.
Proof. unfold ignores_cache, Tools.get_inscritos. prove_ignores_cache. Qed.

Lemma get_aforo_ignores_cache : ignores_cache Tools.get_aforo.
Proof. unfold ignores_cache, Tools.get_aforo. prove_ignores_cache. Qed.

Lemma get_estadisticas_ignores_cache : ignores_cache Tools.get_estadisticas.
Proof. unfold ignores_cache, Tools.get_estadisticas. prove_ignores_cache. Qed.

Lemma mapa_sala_evento_ignores_cache : ignores_cache Tools.mapa_sala_evento.
Proof. unfold ignores_cache, Tools.mapa_sala_evento. prove_ignores_cache. Qed.

Lemma cached_tools_eq (tool_name : string) :
  (dict_get CACHE_TTL tool_name 0 =? 0) = negb (py_in tool_name cached_tools).
Proof.
  unfold CACHE_TTL, cached_tools, py_in. cbn [dict_get existsb].
  split_eqb ltac:(idtac; reflexivity). reflexivity.
Qed.

(** C3, as the code has it.  The tools with a nonzero TTL are
    [mapaSalaEvento], [getAforo], [getEventos], [getInscritos] and
    [getEstadisticas], and the handler of none of them consults or fills
    the cache: replacing the cache by any other leaves its answer
    unchanged and is all that differs in the resulting state.  Every
    admitted [getEventos] call runs the events service on the database
    and returns its result.  The cache helpers themselves behave as
    described: [cache_get] answers nothing for a tool whose TTL is 0 or
    when the client is disconnected or the server fails, and otherwise
    the decoded live entry at the deterministic key; a value stored by
    [cache_set] at [t0] is returned while [now < t0 + TTL] and no
    longer from [t0 + TTL] on. *)
Theorem read_handlers_bypass_cache :
  (forall tool_name,
      (dict_get CACHE_TTL tool_name 0 =? 0) = negb (py_in tool_name cached_tools))
  /\ (ignores_cache Tools.mapa_sala_evento
      /\ ignores_cache Tools.get_aforo
      /\ ignores_cache Tools.get_eventos
      /\ ignores_cache Tools.get_inscritos
      /\ ignores_cache Tools.get_estadisticas)
  /\ (forall cfg w rq input_data,
         Tools.get_eventos cfg w rq input_data =
         match Tools.prelude "getEventos" validate_GetEventosInput rq input_data with
         | Raise e => ([], Raise e, w)
         | Ok (user, i) =>
             match Auth.check_rate_limit cfg (Tools.limiter w) (Tools.rq_time rq)
                                         user "getEventos" with
             | (Raise e, rl) => ([], Raise e, Tools.with_limiter w rl)
             | (Ok _, rl) =>
                 (LogInfo "get_eventos_request"
                    :: fst (EventosService.get_eventos (Tools.db w) i)
                    ++ [LogInfo "get_eventos_success"],
                  snd (EventosService.get_eventos (Tools.db w) i),
                  Tools.with_limiter w rl)
             end
         end)
  /\ (forall db i, In (LogInfo "get_eventos_started")
                      (fst (EventosService.get_eventos db i)))
  /\ (forall (Value : Type) (dumps : Value -> string) (loads : string -> Value)
             c t0 now tool_name v params,
         cache_get Value loads c now tool_name params =
         (if dict_get CACHE_TTL tool_name 0 =? 0 then None
          else if connected c && server_up c
               then option_map loads (redis_get c now (get_cache_key tool_name params))
               else None)
         /\ cache_get Value loads (snd (cache_set Value dumps c t0 tool_name v params))
                      now tool_name params =
            (if dict_get CACHE_TTL tool_name 0 =? 0 then None
             else if connected c && server_up c
                  then (if now <? t0 + dict_get CACHE_TTL tool_name 0
                        then Some (loads (dumps v)) else None)
                  else None))
  /\ dict_get CACHE_TTL "getEventos" 0 = 300.
Proof.
  split; [apply cached_tools_eq |].
  split; [repeat split;
          [ apply mapa_sala_evento_ignores_cache | apply get_aforo_ignores_cache
          | apply get_eventos_ignores_cache | apply get_inscritos_ignores_cache
          | apply get_estadisticas_ignores_cache ] |].
  split; [apply get_eventos_unfold |].
  split; [intros db i; cbn; now left |].
  split; [| reflexivity].
  intros. split; [apply cache_get_eq | apply cache_set_then_get].
Qed.

(** C3 as stated fails: with a live entry cached under the key of an
    unfiltered [getEventos] call, the handler still runs the service
    and answers from the database. *)
Lemma cached_entry_not_served : ~ served_from_cache.
Proof.
  intros H.
  specialize (H (fun _ => empty_output) default_settings
                {| Tools.limiter := ∅; Tools.cache := warm_cache;
                   Tools.db := one_event_db |}
                (request_of (token_of "lect_001" "guest_reader" Auth.LECTOR) 0)
                no_filters empty_output).
  edestruct H as [Heq _].
  - vm_compute. reflexivity.
  - vm_compute. reflexivity.
  - discriminate Heq.
Qed.

End CachingHandlers.

(** ** Attendance confirmation *)
Section Asistencia.
Import Db Queries Schemas Services.
Import Queries.AsistenciaQueries.

Variables r e : Z.

Let R (db : Database) := records_for r e db.

Let Inv := attendance_invariant r e.

Lemma filter_map_commute {A} (P : A -> bool) (f : A -> A) (l : list A) :
  (forall a, In a l -> P (f a) = P a) ->
  List.filter P (map f l) = map f (List.filter P l).
Proof.
  induction l as [| a l IH]; intros H; cbn; [reflexivity |].
  rewrite (H a (or_introl eq_refl)).
  destruct (P a); cbn; rewrite IH; auto; intros b Hb; apply H; now right.
Qed.

Lemma next_as_id_fresh (db : Database) (a : ExpoAsistenciasPorSala) :
  In a (asistencias_por_sala db) -> as_id a < next_as_id db.
Proof.
  unfold next_as_id. induction (asistencias_por_sala db) as [| x l IH]; cbn.
  - tauto.
  - intros [-> | Hin]; [lia | specialize (IH Hin); lia].
Qed.

Lemma same_pair_true (a : ExpoAsistenciasPorSala) :
  same_pair r e a = true <-> as_registro_id a = r /\ as_evento_id a = e.
Proof. unfold same_pair. rewrite andb_true_iff, !Z.eqb_eq. tauto. Qed.

(** The outcome of one query call on a store that satisfies the
    invariant, path by path. *)
Lemma query_step (db : Database) (now : Z) (estado v : string)
      (obs ip : option string) :
  Inv db ->
  let res := confirmar_asistencia db now r e estado v obs ip in
  Inv (snd res)
  /\ (forall a', In a' (R (snd res)) -> as_asesor_verificador a' = v)
  /\ (forall a, In a (R db) ->
                fst res = Ok true
                /\ exists a', R (snd res) = [a'] /\ as_id a' = as_id a
                              /\ as_registro_id a' = as_registro_id a
                              /\ as_evento_id a' = as_evento_id a
                              /\ as_qr_escaneado a' = as_qr_escaneado a)
  /\ (fst res = Ok true -> exists a', R (snd res) = [a'])
  /\ (fst res = Ok true \/ (exists x, fst res = Raise x) /\ snd res = db).
Proof.
  intros [Hpk Hcount]. unfold Inv, attendance_invariant, confirmar_asistencia, R, records_for in *.
  destruct (List.filter (same_pair r e) (asistencias_por_sala db))
    as [| ex [| ex2 rest]] eqn:Hf; cbn [scalar_one_or_none length] in *; [| | lia].
  - (* create path *)
    destruct (fk_enforced db && negb (fk_ok db r e)); cbn [fst snd].
    + split; [split; [exact Hpk | rewrite Hf; cbn; lia] |].
      split; [rewrite Hf; intros a' [] |].
      split; [intros a [] |].
      split; [discriminate |]. right. split; [eauto | reflexivity].
    + cbn [with_asistencias asistencias_por_sala].
      rewrite List.filter_app, Hf. cbn [List.filter app].
      assert (Hnew : forall x y z w u, same_pair r e
                {| as_id := x; as_registro_id := r; as_evento_id := e;
                   as_qr_escaneado := y; as_fecha_ingreso := z;
                   as_asesor_verificador := v; as_ip_verificacion := w;
                   as_notas := u |} = true)
        by (intros; apply same_pair_true; cbn; tauto).
      rewrite Hnew. split; [split |].
      * unfold primary_key_ok. cbn [asistencias_por_sala with_asistencias].
        rewrite List.map_app. cbn [map as_id]. apply NoDup_app.
        split; [exact Hpk |]. split; [| apply NoDup_singleton].
        intros x Hx Hx'. apply list_elem_of_singleton in Hx'. subst x.
        apply list_elem_of_In, in_map_iff in Hx as [a [Ha Hin]].
        pose proof (next_as_id_fresh db a Hin). lia.
      * cbn. lia.
      * split; [intros a' [<- | []]; reflexivity |].
        split; [intros a [] |]. split; [eauto | now left].
  - (* update path *)
    cbn [fst snd with_asistencias asistencias_por_sala].
    assert (Hex : In ex (asistencias_por_sala db) /\ same_pair r e ex = true).
    { apply filter_In. rewrite Hf. now left. }
    destruct Hex as [Hin Hpair].
    set (upd := update_existing v obs ip now ex).
    set (f := fun a => if as_id a =? as_id ex then upd else a).
    assert (Hupd : same_pair r e upd = true) by exact Hpair.
    assert (Hid : forall a, as_id (f a) = as_id a).
    { intros a. unfold f. destruct (as_id a =? as_id ex) eqn:E; [| reflexivity].
      apply Z.eqb_eq in E. now rewrite E. }
    assert (Honly : forall a, In a (asistencias_por_sala db) ->
                              as_id a = as_id ex -> a = ex).
    { clear - Hpk Hin. unfold primary_key_ok in Hpk.
      induction (asistencias_por_sala db) as [| x l IH]; [easy |].
      cbn in Hpk. apply NoDup_cons in Hpk as [Hnot Hnd].
      intros a [-> | Ha] Heq; destruct Hin as [-> | Hin]; auto.
      - exfalso. apply Hnot. rewrite list_elem_of_In, Heq. now apply in_map.
      - exfalso. apply Hnot. rewrite list_elem_of_In, <- Heq. now apply in_map. }
    assert (Hcomm : List.filter (same_pair r e) (map f (asistencias_por_sala db))
                    = [upd]).
    { rewrite filter_map_commute.
      - rewrite Hf. cbn. unfold f. now rewrite Z.eqb_refl.
      - intros a Ha. unfold f. destruct (as_id a =? as_id ex) eqn:E; [| reflexivity].
        apply Z.eqb_eq in E. rewrite (Honly a Ha E). now rewrite Hupd, Hpair. }
    fold upd. fold f. rewrite Hcomm. split; [split |].
    + unfold primary_key_ok. cbn [asistencias_por_sala with_asistencias]. rewrite List.map_map.
      erewrite map_ext; [exact Hpk | exact Hid].
    + cbn. lia.
    + split; [intros a' [<- | []]; reflexivity |].
      split; [| split; [eauto | now left]].
      intros a [<- | []]. split; [reflexivity |].
      exists upd. repeat split; reflexivity.
Qed.

Lemma confirm_step (db : Database) (c : Call) :
  for_pair r e c -> Inv db ->
  Inv (snd (confirm db c))
  /\ (forall a', In a' (R (snd (confirm db c))) ->
                 as_asesor_verificador a' = c_verifier c)
  /\ (forall a, In a (R db) ->
                is_ok (fst (confirm db c)) = true
                /\ exists a', R (snd (confirm db c)) = [a'] /\ as_id a' = as_id a
                              /\ as_registro_id a' = as_registro_id a
                              /\ as_evento_id a' = as_evento_id a
                              /\ as_qr_escaneado a' = as_qr_escaneado a)
  /\ (is_ok (fst (confirm db c)) = true -> exists a', R (snd (confirm db c)) = [a']).
Proof.
  intros [Hr He] HInv. unfold confirm, AsistenciaService.confirmar_asistencia.
  rewrite Hr, He.
  pose proof (query_step db (c_db_now c) (ca_estado (c_input c)) (c_verifier c)
                         (ca_observacion (c_input c)) (c_ip c) HInv) as Hq.
  cbv zeta in Hq.
  destruct (confirmar_asistencia db (c_db_now c) r e _ _ _ _) as [res db'].
  cbn [fst snd] in Hq. destruct Hq as (Hinv & Hver & Hold & Hone & Hcase).
  assert (Hres : res = Ok true \/ exists x, res = Raise x).
  { destruct Hcase as [-> | [[x ->] _]]; eauto. }
  destruct Hres as [-> | [x ->]]; cbn [negb fst snd is_ok].
  - split; [exact Hinv |]. split; [exact Hver |]. split; [| auto].
    intros a Ha. split; [reflexivity | now destruct (Hold a Ha)].
  - split; [exact Hinv |]. split; [exact Hver |]. split; [| discriminate].
    intros a Ha. destruct (Hold a Ha) as [Habs _]. discriminate Habs.
Qed.

Lemma confirm_all_app (calls1 calls2 : list Call) :
  forall db,
    confirm_all db (calls1 ++ calls2) =
    (fst (confirm_all db calls1)
       ++ fst (confirm_all (snd (confirm_all db calls1)) calls2),
     snd (confirm_all (snd (confirm_all db calls1)) calls2)).
Proof.
  induction calls1 as [| c rest IH]; intros db.
  - cbn. now destruct (confirm_all db calls2).
  - cbn [confirm_all app]. destruct (confirm db c) as [o db1].
    rewrite IH. destruct (confirm_all db1 rest) as [os db2]. cbn.
    now destruct (confirm_all db2 calls2).
Qed.

Lemma confirm_all_cons (db : Database) (c : Call) (rest : list Call) :
  snd (confirm_all db (c :: rest)) = snd (confirm_all (snd (confirm db c)) rest).
Proof.
  cbn [confirm_all]. destruct (confirm db c) as [o db1]. cbn [snd].
  now destruct (confirm_all db1 rest).
Qed.

Lemma confirm_all_inv (calls : list Call) :
  forall db, Inv db -> Forall (for_pair r e) calls ->
             Inv (snd (confirm_all db calls)).
Proof.
  induction calls as [| c rest IH]; intros db HInv Hcalls; [exact HInv |].
  inversion Hcalls as [| ? ? Hc Hrest]; subst. rewrite confirm_all_cons.
  apply IH; [| exact Hrest]. now apply confirm_step.
Qed.

(** A row that exists for the pair stays the one row of the pair, under
    the same keys, whatever calls for the pair follow. *)
Lemma confirm_all_persist (calls : list Call) :
  forall db a, Inv db -> Forall (for_pair r e) calls -> In a (R db) ->
               exists a', R (snd (confirm_all db calls)) = [a']
                          /\ as_id a' = as_id a
                          /\ as_registro_id a' = as_registro_id a
                          /\ as_evento_id a' = as_evento_id a
                          /\ as_qr_escaneado a' = as_qr_escaneado a.
Proof.
  induction calls as [| c rest IH]; intros db a HInv Hcalls Ha.
  - exists a. cbn [confirm_all snd]. repeat split.
    destruct HInv as [_ Hlen]. unfold R in *.
    destruct (records_for r e db) as [| x [| y l]]; cbn in *; [tauto | | lia].
    destruct Ha as [-> | []]. reflexivity.
  - inversion Hcalls as [| ? ? Hc Hrest]; subst. rewrite confirm_all_cons.
    destruct (confirm_step db c Hc HInv) as (HInv1 & _ & Hold & _).
    destruct (Hold a Ha) as (_ & a1 & HR1 & E1 & E2 & E3 & E4).
    destruct (IH (snd (confirm db c)) a1 HInv1 Hrest) as (a' & HR & F1 & F2 & F3 & F4).
    + rewrite HR1. now left.
    + exists a'. repeat split; [exact HR | congruence ..].
Qed.

(** Every row the pair has after a call carries the call's verifier
    and the database time of the call. *)
Lemma query_step_stamp (db : Database) (now : Z) (estado v : string)
      (obs ip : option string) :
  (length (R db) <= 1)%nat ->
  forall a', In a' (R (snd (confirmar_asistencia db now r e estado v obs ip))) ->
             as_fecha_ingreso a' = Some now.
Proof.
  unfold R, records_for, confirmar_asistencia.
  destruct (List.filter (same_pair r e) (asistencias_por_sala db))
    as [| ex [| ex2 rest]] eqn:Hf; cbn [scalar_one_or_none length]; [| | lia].
  - destruct (fk_enforced db && negb (fk_ok db r e)); cbn [snd].
    + rewrite Hf. intros _ a' [].
    + cbn [with_asistencias asistencias_por_sala].
      rewrite List.filter_app, Hf. cbn [List.filter app].
      intros _ a' Ha'.
      destruct (same_pair r e _);
        [destruct Ha' as [<- | []]; reflexivity | destruct Ha'].
  - cbn [snd with_asistencias asistencias_por_sala]. intros _ a' Ha'.
    apply filter_In in Ha' as [Hin Hp].
    apply in_map_iff in Hin as (a & Ha & Hina).
    destruct (as_id a =? as_id ex) eqn:E; subst a'; [reflexivity |].
    assert (Hex : In a [ex]) by (rewrite <- Hf; apply filter_In; auto).
    destruct Hex as [-> | []]. rewrite Z.eqb_refl in E. discriminate E.
Qed.

Lemma query_served (db : Database) (now : Z) (estado v : string)
      (obs ip : option string) :
  Inv db -> serves db r e = true ->
  fst (confirmar_asistencia db now r e estado v obs ip) = Ok true.
Proof.
  intros HInv Hs. destruct (records_for r e db) as [| a l] eqn:HR.
  - unfold serves in Hs. rewrite HR in Hs. unfold confirmar_asistencia.
    unfold records_for in HR. rewrite HR. cbn [scalar_one_or_none].
    destruct (fk_enforced db && negb (fk_ok db r e)); [discriminate Hs | reflexivity].
  - destruct (query_step db now estado v obs ip HInv) as (_ & _ & Hold & _).
    apply (Hold a). unfold R. rewrite HR. now left.
Qed.

Lemma query_refused (db : Database) (now : Z) (estado v : string)
      (obs ip : option string) :
  serves db r e = false ->
  confirmar_asistencia db now r e estado v obs ip = (Raise IntegrityError, db).
Proof.
  unfold serves, records_for, confirmar_asistencia.
  destruct (List.filter (same_pair r e) (asistencias_por_sala db)) as [| a l];
    [| discriminate].
  cbn [scalar_one_or_none].
  destruct (fk_enforced db && negb (fk_ok db r e)); [reflexivity | discriminate].
Qed.

Lemma confirm_served (db : Database) (c : Call) :
  for_pair r e c -> Inv db -> serves db r e = true ->
  fst (confirm db c) = answer_of c
  /\ serves (snd (confirm db c)) r e = true.
Proof.
  intros [Hr He] HInv Hs.
  pose proof (query_served db (c_db_now c) (ca_estado (c_input c)) (c_verifier c)
                           (ca_observacion (c_input c)) (c_ip c) HInv Hs) as Hq.
  destruct (query_step db (c_db_now c) (ca_estado (c_input c)) (c_verifier c)
                       (ca_observacion (c_input c)) (c_ip c) HInv)
    as (_ & _ & _ & Hone & _).
  unfold confirm, AsistenciaService.confirmar_asistencia, answer_of.
  rewrite Hr, He.
  destruct (confirmar_asistencia db (c_db_now c) r e _ _ _ _) as [res db'].
  cbn [fst snd] in *. subst res. cbn [negb fst snd].
  split; [reflexivity |].
  destruct (Hone eq_refl) as [a' HR]. unfold serves. unfold R in HR.
  now rewrite HR.
Qed.

Lemma confirm_refused (db : Database) (c : Call) :
  for_pair r e c -> serves db r e = false ->
  confirm db c = (refused, db).
Proof.
  intros [Hr He] Hs. unfold confirm, AsistenciaService.confirmar_asistencia.
  rewrite Hr, He, (query_refused db _ _ _ _ _ Hs). reflexivity.
Qed.

Lemma confirm_stamp (db : Database) (c : Call) :
  for_pair r e c -> (length (R db) <= 1)%nat ->
  forall a', In a' (R (snd (confirm db c))) ->
             as_fecha_ingreso a' = Some (c_db_now c).
Proof.
  intros [Hr He] Hlen a'. unfold confirm, AsistenciaService.confirmar_asistencia.
  rewrite Hr, He.
  pose proof (query_step_stamp db (c_db_now c) (ca_estado (c_input c)) (c_verifier c)
                               (ca_observacion (c_input c)) (c_ip c) Hlen a') as Hq.
  destruct (confirmar_asistencia db (c_db_now c) r e _ _ _ _) as [[[] |] db'];
    exact Hq.
Qed.

Lemma confirm_all_served (calls : list Call) :
  forall db, Inv db -> Forall (for_pair r e) calls -> serves db r e = true ->
             fst (confirm_all db calls) = map answer_of calls
             /\ serves (snd (confirm_all db calls)) r e = true.
Proof.
  induction calls as [| c rest IH]; intros db HInv Hcalls Hs; [now split |].
  inversion Hcalls as [| ? ? Hc Hrest]; subst.
  destruct (confirm_served db c Hc HInv Hs) as [Hans Hs1].
  destruct (confirm_step db c Hc HInv) as (HInv1 & _).
  specialize (IH (snd (confirm db c)) HInv1 Hrest Hs1).
  cbn [confirm_all map]. destruct (confirm db c) as [o db1]. cbn [fst snd] in *.
  destruct (confirm_all db1 rest) as [os db2]. cbn [fst snd] in *.
  destruct IH as [-> IH2]. now rewrite Hans.
Qed.

Lemma confirm_all_refused (calls : list Call) :
  forall db, Forall (for_pair r e) calls -> serves db r e = false ->
             confirm_all db calls = (map (fun _ => refused) calls, db).
Proof.
  induction calls as [| c rest IH]; intros db Hcalls Hs; [reflexivity |].
  inversion Hcalls as [| ? ? Hc Hrest]; subst.
  cbn [confirm_all map]. rewrite (confirm_refused db c Hc Hs), (IH db Hrest Hs).
  reflexivity.
Qed.

(** C1. On a store with unique primary keys and at most one attendance
    row for the pair, after any sequence of one or more calls for that
    pair: at most one row for the pair is stored; any such row carries
    the pair, the verifier of the most recent call and the database
    time of that call; a row seen for the pair at any point of the
    sequence is, under the same primary and composite key, the row
    stored at the end.  When the store serves the pair (the pair has a
    row already, or the store accepts a new row for it) every call of
    the sequence is answered [ok] and exactly one row is stored at the
    end; otherwise (the store checks foreign keys and the registration
    or the event is missing) every call fails and nothing is stored. *)
Theorem confirmations_converge_to_one_record
        (db : Database) (calls : list Call) (last_call : Call) :
  primary_key_ok db ->
  (length (records_for r e db) <= 1)%nat ->
  Forall (for_pair r e) (calls ++ [last_call]) ->
  let final := confirm_all db (calls ++ [last_call]) in
  (length (records_for r e (snd final)) <= 1)%nat
  /\ (forall a', In a' (records_for r e (snd final)) ->
                 as_asesor_verificador a' = c_verifier last_call
                 /\ as_fecha_ingreso a' = Some (c_db_now last_call)
                 /\ as_registro_id a' = r /\ as_evento_id a' = e)
  /\ (forall calls1 calls2 a,
         calls ++ [last_call] = calls1 ++ calls2 ->
         In a (records_for r e (snd (confirm_all db calls1))) ->
         exists a', records_for r e (snd final) = [a']
                    /\ as_id a' = as_id a
                    /\ as_registro_id a' = as_registro_id a
                    /\ as_evento_id a' = as_evento_id a)
  /\ (serves db r e = true ->
      fst final = map answer_of (calls ++ [last_call])
      /\ exists a', records_for r e (snd final) = [a']
                    /\ as_asesor_verificador a' = c_verifier last_call
                    /\ as_fecha_ingreso a' = Some (c_db_now last_call))
  /\ (serves db r e = false ->
      final = (map (fun _ => refused) (calls ++ [last_call]), db)
      /\ records_for r e (snd final) = []).
Proof.
  intros Hpk Hlen Hcalls final.
  assert (HInv : Inv db) by (split; assumption).
  pose proof Hcalls as Hsplit. apply Forall_app in Hsplit as [Hinit Hlast].
  inversion Hlast as [| ? ? Hc _]; subst.
  pose proof (confirm_all_inv calls db HInv Hinit) as HInv1.
  destruct (confirm_step _ last_call Hc HInv1) as (HInv2 & Hver & _ & Hone).
  pose proof (confirm_stamp _ last_call Hc (proj2 HInv1)) as Hstamp.
  assert (Hfinal : final = (fst (confirm_all db calls)
                              ++ [fst (confirm (snd (confirm_all db calls)) last_call)],
                            snd (confirm (snd (confirm_all db calls)) last_call))).
  { unfold final. rewrite confirm_all_app. cbn [confirm_all].
    now destruct (confirm (snd (confirm_all db calls)) last_call). }
  split; [rewrite Hfinal; exact (proj2 HInv2) |].
  split; [| split; [| split]].
  - rewrite Hfinal. cbn [snd]. intros a' Ha'. split; [now apply Hver |].
    split; [now apply Hstamp |].
    apply filter_In in Ha' as [_ Hp]. now apply same_pair_true.
  - rewrite Hfinal. cbn [snd]. intros calls1 calls2 a Heq Ha.
    assert (Hsnd : snd (confirm (snd (confirm_all db calls)) last_call)
                   = snd (confirm_all (snd (confirm_all db calls1)) calls2)).
    { transitivity (snd final); [now rewrite Hfinal |].
      unfold final. rewrite Heq, confirm_all_app. reflexivity. }
    rewrite Hsnd. rewrite Heq in Hcalls. apply Forall_app in Hcalls as [H1 H2].
    destruct (confirm_all_persist calls2 (snd (confirm_all db calls1)) a)
      as (a' & HR & E1 & E2 & E3 & _); auto.
    + now apply confirm_all_inv.
    + exists a'. auto.
  - intros Hs.
    split; [exact (proj1 (confirm_all_served _ db HInv Hcalls Hs)) |].
    destruct (confirm_all_served calls db HInv Hinit Hs) as [_ Hs1].
    destruct (confirm_served _ last_call Hc HInv1 Hs1) as [Hans _].
    rewrite Hfinal. cbn [snd].
    assert (Hok : is_ok (fst (confirm (snd (confirm_all db calls)) last_call)) = true)
      by (now rewrite Hans).
    destruct (Hone Hok) as [a' HR]. exists a'. split; [exact HR |].
    split; [apply Hver | apply Hstamp]; rewrite HR; now left.
  - intros Hs. unfold final. rewrite (confirm_all_refused _ db Hcalls Hs).
    split; [reflexivity |]. cbn [snd]. unfold serves in Hs.
    destruct (records_for r e db) as [| a l]; [reflexivity | discriminate Hs].
Qed.

End Asistencia.

Section AsistenciaTool.
Import Db Queries Schemas Services.
Import Queries.AsistenciaQueries.

Lemma confirmations_converge_to_one_record_witness :
  fst (confirm_all door_db
         [sample_call 1037 123 "maria_recepcion" 100;
          sample_call 1037 123 "pedro_puerta" 200])
  = [answer_of (sample_call 1037 123 "maria_recepcion" 100);
     answer_of (sample_call 1037 123 "pedro_puerta" 200)]
  /\ exists a',
      records_for 1037 123
        (snd (confirm_all door_db
                [sample_call 1037 123 "maria_recepcion" 100;
                 sample_call 1037 123 "pedro_puerta" 200])) = [a']
      /\ as_asesor_verificador a' = "pedro_puerta"
      /\ as_fecha_ingreso a' = Some 200.
Proof.
  refine (proj1 (proj2 (proj2 (proj2
            (confirmations_converge_to_one_record 1037 123 door_db
               [sample_call 1037 123 "maria_recepcion" 100]
               (sample_call 1037 123 "pedro_puerta" 200) _ _ _)))) _).
  - repeat constructor. intros H. inversion H.
  - cbn. lia.
  - repeat constructor.
  - reflexivity.
Defined.

(** The query never reads [estado]. *)
Lemma query_ignores_estado (db : Database) (now r e : Z) (estado1 estado2 v : string)
      (obs ip : option string) :
  confirmar_asistencia db now r e estado1 v obs ip =
  confirmar_asistencia db now r e estado2 v obs ip.
Proof. reflexivity. Qed.





(** The query answers [True] or raises one of two exceptions; it has
    no path that answers [False]. *)
Lemma query_result_cases (db : Database) (now r e : Z) (estado v : string)
      (obs ip : option string) :
  fst (confirmar_asistencia db now r e estado v obs ip) = Ok true
  \/ fst (confirmar_asistencia db now r e estado v obs ip) = Raise MultipleResultsFound
  \/ fst (confirmar_asistencia db now r e estado v obs ip) = Raise IntegrityError.
Proof.
  unfold confirmar_asistencia.
  destruct (List.filter (same_pair r e) (asistencias_por_sala db)) as [| a [| b l]];
    cbn [scalar_one_or_none]; auto.
  destruct (fk_enforced db && negb (fk_ok db r e)); auto.
Qed.

Lemma prelude_not_404 {I} (tool : string) (validate : I -> Resultado I)
      (rq : Tools.Request) (i : I) :
  (forall x, is_not_found (validate x) = false) ->
  is_not_found (Tools.prelude tool validate rq i) = false.
Proof.
  intros Hval. unfold Tools.prelude, Auth.require_permission, Auth.get_current_user,
               Auth.verify_token.
  destruct (Tools.credentials rq) as [p | |]; cbn [bind]; try reflexivity.
  destruct (Auth.p_sub p), (Auth.p_username p), (Auth.p_role p) as [role_str |];
    cbn [bind]; try reflexivity.
  unfold Auth.UserRole_of_value.
  repeat match goal with
         | |- context [String.eqb ?a ?b] => destruct (String.eqb a b)
         end; cbn [bind]; try reflexivity;
    unfold Auth.permission_checker;
    match goal with
    | |- context [negb ?b] => destruct b
    end; cbn [negb bind]; try reflexivity;
    specialize (Hval i); destruct (validate i); cbn [bind]; auto.
Qed.

(** C2, what the code does.  For a pair without attendance row whose
    registration and event do not exist, the handler never answers
    404: on a store that does not check foreign keys it answers [ok]
    and stores a row with the QR text [manual_9999_123]; on a store
    that checks them the commit fails and the answer is 500.  The 404
    branch of the handler is unreachable for every input. *)
Theorem missing_registration_is_not_reported :
  let rq := request_of (token_of "staff_001" "maria_recepcion" Auth.STAFF_PUERTA) 1000 in
  let input_data := {| ca_registroId := 9999; ca_eventoId := 123;
                       ca_estado := "PRESENTE"; ca_observacion := None |} in
  (fst (Tools.confirmar_asistencia default_settings (world_of empty_db) rq input_data)
   = Ok {| co_ok := true; co_timestamp := 1000;
           co_registroId := 9999; co_eventoId := 123 |}
   /\ asistencias_por_sala
        (Tools.db (snd (Tools.confirmar_asistencia default_settings
                          (world_of empty_db) rq input_data)))
      = [{| as_id := 1; as_registro_id := 9999; as_evento_id := 123;
            as_qr_escaneado := "manual_9999_123"; as_fecha_ingreso := Some 1000;
            as_asesor_verificador := "maria_recepcion";
            as_ip_verificacion := Some "10.0.0.7"; as_notas := None |}])
  /\ (fst (Tools.confirmar_asistencia default_settings (world_of fk_checked_db)
                                      rq input_data)
      = Raise (Tools.INTERNAL_ERROR "Error confirming attendance")
      /\ asistencias_por_sala
           (Tools.db (snd (Tools.confirmar_asistencia default_settings
                             (world_of fk_checked_db) rq input_data))) = [])
  /\ (forall cfg w rq' i,
         is_not_found (fst (Tools.confirmar_asistencia cfg w rq' i)) = false).
Proof.
  cbv zeta. split; [| split].
  - split; vm_compute; reflexivity.
  - split; vm_compute; reflexivity.
  - intros cfg w rq' i. unfold Tools.confirmar_asistencia.
    pose proof (prelude_not_404 "confirmarAsistencia"
                  validate_ConfirmarAsistenciaInput rq' i) as Hp.
    destruct (Tools.prelude _ _ rq' i) as [[user i'] | x].
    + unfold Auth.check_rate_limit.
      destruct (Auth.is_allowed _ _ _ _ _) as [[|] rl]; cbn [negb]; [| reflexivity].
      unfold AsistenciaService.confirmar_asistencia.
      pose proof (query_result_cases (Tools.db (Tools.with_limiter w rl))
                    (Tools.rq_db_time rq') (ca_registroId i') (ca_eventoId i')
                    (ca_estado i') (Auth.username user) (ca_observacion i')
                    (Tools.client_host rq')) as Hq.
      destruct (confirmar_asistencia _ _ _ _ _ _ _ _) as [res db'].
      cbn [fst] in Hq. destruct Hq as [-> | [-> | ->]]; reflexivity.
    + cbn [fst]. apply Hp. intros x0. unfold validate_ConfirmarAsistenciaInput.
      destruct (ca_observacion x0) as [o |]; [destruct (Nat.leb _ _) |]; reflexivity.
Qed.

End AsistenciaTool.

(** ** Registrant listings *)
Section Inscritos.
Import Db Queries Schemas Services.
Import Queries.InscritosQueries.

Lemma check_rows_ok (l l' : list InscritoRow) :
  InscritosService.check_rows l = Ok l' -> l' = l.
Proof.
  revert l'. induction l as [| item l IH]; intros l' H; cbn in H.
  - now injection H as <-.
  - unfold InscritosService.check_row in H.
    destruct (creadoEn item); cbn [bind] in H; [| discriminate].
    destruct (InscritosService.check_rows l) as [r |]; cbn [bind] in H; [| discriminate].
    injection H as <-. f_equal. now apply IH.
Qed.

Lemma to_row_estado {A} (f : A -> ExpoRegistroEventos) (g : A -> ExpoRegistros)
      (l : list A) :
  Forall (fun row => estado row = "INSCRITO") (map (fun x => to_row (f x) (g x)) l).
Proof. induction l; cbn; constructor; auto. Qed.

Lemma service_rows_inscrito (db : Database) (i : GetInscritosInput) :
  all_inscrito (InscritosService.get_inscritos db i).
Proof.
  unfold all_inscrito, InscritosService.get_inscritos.
  destruct (InscritosService.truthy_id (gi_eventoId i)).
  - unfold get_inscritos_by_evento.
    match goal with
    | |- context [InscritosService.check_rows ?l] =>
        destruct (InscritosService.check_rows l) as [l' |] eqn:E; cbn [bind]; [| exact I]
    end.
    apply check_rows_ok in E. subst l'. cbn [go_lista]. apply to_row_estado.
  - unfold get_inscritos_by_filters.
    match goal with
    | |- context [InscritosService.check_rows ?l] =>
        destruct (InscritosService.check_rows l) as [l' |] eqn:E; cbn [bind]; [| exact I]
    end.
    apply check_rows_ok in E. subst l'. cbn [go_lista].
    apply (to_row_estado (fun x => fst (fst x)) (fun x => snd (fst x))).
Qed.

Lemma service_ignores_estado_inscripcion (db : Database) (i : GetInscritosInput)
      (v1 v2 : option string) :
  InscritosService.get_inscritos db (with_estado_inscripcion i v1) =
  InscritosService.get_inscritos db (with_estado_inscripcion i v2).
Proof. reflexivity. Qed.

Lemma validate_with_estado_inscripcion (i : GetInscritosInput) (v : option string) :
  validate_GetInscritosInput (with_estado_inscripcion i v) =
  if (1 <=? gi_page i) && (1 <=? gi_pageSize i) && (gi_pageSize i <=? 100)
  then Ok (with_estado_inscripcion
             {| gi_eventoId := gi_eventoId i; gi_dia := gi_dia i;
                gi_sala := empty_string_to_none (gi_sala i);
                gi_estadoInscripcion := None;
                gi_page := gi_page i; gi_pageSize := gi_pageSize i |}
             (empty_string_to_none v))
  else Raise RequestValidationError.
Proof.
  unfold validate_GetInscritosInput.
  cbn [with_estado_inscripcion gi_estadoInscripcion gi_page gi_pageSize gi_sala
       gi_eventoId gi_dia].
  reflexivity.
Qed.

(** C10. Two [getInscritos] requests that differ only in a valid (or
    absent) [estadoInscripcion] get the same answer, total and rows
    alike; the service and both queries return the same for any two
    values of the filter; and every row of an answer carries
    [estado = "INSCRITO"]. *)
Theorem estado_inscripcion_is_ignored
        (cfg : Settings) (w : Tools.World) (rq : Tools.Request)
        (i : GetInscritosInput) (v1 v2 : option string) :
  valid_estado_inscripcion v1 = true ->
  valid_estado_inscripcion v2 = true ->
  Tools.get_inscritos cfg w rq (with_estado_inscripcion i v1) =
  Tools.get_inscritos cfg w rq (with_estado_inscripcion i v2)
  /\ (forall db j,
         InscritosService.get_inscritos db (with_estado_inscripcion j v1) =
         InscritosService.get_inscritos db (with_estado_inscripcion j v2))
  /\ (forall db evento_id page page_size,
         get_inscritos_by_evento db evento_id v1 page page_size =
         get_inscritos_by_evento db evento_id v2 page page_size)
  /\ (forall db dia sala page page_size,
         get_inscritos_by_filters db dia sala v1 page page_size =
         get_inscritos_by_filters db dia sala v2 page page_size)
  /\ (forall db j, all_inscrito (InscritosService.get_inscritos db j))
  /\ all_inscrito (fst (Tools.get_inscritos cfg w rq (with_estado_inscripcion i v1))).
Proof.
  intros H1 H2.
  assert (Htool : forall v, valid_estado_inscripcion v = true ->
            Tools.get_inscritos cfg w rq (with_estado_inscripcion i v) =
            match Auth.require_permission "getInscritos" (Tools.credentials rq) with
            | Raise x => (Raise x, w)
            | Ok user =>
                if (1 <=? gi_page i) && (1 <=? gi_pageSize i) && (gi_pageSize i <=? 100)
                then
                  match Auth.check_rate_limit cfg (Tools.limiter w) (Tools.rq_time rq)
                                              user "getInscritos" with
                  | (Raise x, rl) => (Raise x, Tools.with_limiter w rl)
                  | (Ok _, rl) =>
                      match InscritosService.get_inscritos (Tools.db w)
                              {| gi_eventoId := gi_eventoId i; gi_dia := gi_dia i;
                                 gi_sala := empty_string_to_none (gi_sala i);
                                 gi_estadoInscripcion := None;
                                 gi_page := gi_page i; gi_pageSize := gi_pageSize i |} with
                      | Ok r => (Ok r, Tools.with_limiter w rl)
                      | Raise _ =>
                          (Raise (Tools.INTERNAL_ERROR "Error retrieving inscribed users"),
                           Tools.with_limiter w rl)
                      end
                  end
                else (Raise RequestValidationError, w)
            end).
  { intros v Hv. unfold Tools.get_inscritos, Tools.prelude.
    rewrite (validate_with_estado_inscripcion i v).
    destruct (Auth.require_permission _ _) as [user | x]; cbn [bind]; [| reflexivity].
    destruct ((1 <=? gi_page i) && (1 <=? gi_pageSize i) && (gi_pageSize i <=? 100));
      cbn [bind]; [| reflexivity].
    destruct (Auth.check_rate_limit _ _ _ _ _) as [[[] | x] rl]; reflexivity. }
  split; [now rewrite (Htool v1 H1), (Htool v2 H2) |].
  split; [intros; apply service_ignores_estado_inscripcion |].
  split; [reflexivity |]. split; [reflexivity |].
  split; [intros; apply service_rows_inscrito |].
  rewrite (Htool v1 H1).
  destruct (Auth.require_permission _ _) as [user | x]; [| exact I].
  destruct ((1 <=? gi_page i) && (1 <=? gi_pageSize i) && (gi_pageSize i <=? 100));
    [| exact I].
  destruct (Auth.check_rate_limit _ _ _ _ _) as [[[] | x] rl]; [| exact I].
  pose proof (service_rows_inscrito (Tools.db w)
                {| gi_eventoId := gi_eventoId i; gi_dia := gi_dia i;
                   gi_sala := empty_string_to_none (gi_sala i);
                   gi_estadoInscripcion := None;
                   gi_page := gi_page i; gi_pageSize := gi_pageSize i |}) as Hs.
  destruct (InscritosService.get_inscritos _ _); [exact Hs | exact I].
Qed.

Lemma estado_inscripcion_is_ignored_witness :
  Tools.get_inscritos default_settings (world_of two_leads_db)
    (request_of (token_of "lect_001" "guest_reader" Auth.LECTOR) 5)
    (with_estado_inscripcion by_event_123 (Some "CANCELADO")) =
  Tools.get_inscritos default_settings (world_of two_leads_db)
    (request_of (token_of "lect_001" "guest_reader" Auth.LECTOR) 5)
    (with_estado_inscripcion by_event_123 None).
Proof.
  refine (proj1 (estado_inscripcion_is_ignored _ _ _ _ (Some "CANCELADO") None _ _));
    reflexivity.
Defined.

End Inscritos.

(** ** Sorting and grouping *)
Section Ordering.
Import Db.

Context {A : Type} (leb : A -> A -> bool).
Hypothesis leb_total : forall a b, leb a b = true \/ leb b a = true.
Hypothesis leb_trans : forall a b c, leb a b = true -> leb b c = true -> leb a c = true.

Let Rleb (a b : A) : Prop := leb a b = true.

Lemma insert_by_perm (x : A) (l : list A) : Permutation (insert_by leb x l) (x :: l).
Proof.
  induction l as [| y l IH]; cbn; [reflexivity |].
  destruct (leb x y); [reflexivity |].
  rewrite IH. apply perm_swap.
Qed.

Lemma order_by_perm (l : list A) : Permutation (order_by leb l) l.
Proof.
  unfold order_by. induction l as [| x l IH]; cbn; [reflexivity |].
  rewrite insert_by_perm. now constructor.
Qed.

Lemma insert_by_sorted (x : A) (l : list A) :
  StronglySorted Rleb l -> StronglySorted Rleb (insert_by leb x l).
Proof.
  induction 1 as [| y l Hs IH Hall]; cbn.
  - constructor; constructor.
  - destruct (leb x y) eqn:E.
    + constructor; [now constructor |]. constructor; [exact E |].
      eapply List.Forall_impl; [| exact Hall]. intros z Hz. now apply (leb_trans x y z).
    + constructor; [exact IH |].
      assert (Hyx : leb y x = true) by (destruct (leb_total x y); congruence).
      apply List.Forall_forall. intros z Hz.
      apply (Permutation_in _ (insert_by_perm x l)) in Hz.
      destruct Hz as [<- | Hz]; [exact Hyx |].
      rewrite List.Forall_forall in Hall. now apply Hall.
Qed.

Lemma order_by_sorted (l : list A) : StronglySorted Rleb (order_by leb l).
Proof.
  unfold order_by. induction l as [| x l IH]; cbn; [constructor |].
  now apply insert_by_sorted.
Qed.

Lemma In_firstn_In (n : nat) (l : list A) (x : A) : In x (firstn n l) -> In x l.
Proof. intros H. rewrite <- (firstn_skipn n l). apply in_or_app. now left. Qed.

Lemma In_skipn_In (n : nat) (l : list A) (x : A) : In x (skipn n l) -> In x l.
Proof. intros H. rewrite <- (firstn_skipn n l). apply in_or_app. now right. Qed.

Lemma sorted_firstn (n : nat) (l : list A) :
  StronglySorted Rleb l -> StronglySorted Rleb (firstn n l).
Proof.
  intros H. revert n. induction H as [| y l Hs IH Hall]; intros [| n]; cbn;
    try constructor; auto.
  apply List.Forall_forall. intros z Hz. rewrite List.Forall_forall in Hall.
  apply Hall. eapply In_firstn_In; eauto.
Qed.

End Ordering.

(** ** Statistics *)
Section Estadisticas.
Import Db Queries Schemas Services EstadisticasService.

Lemma round_half_even_near (y : Q) :
  (Qabs (y - inject_Z (round_half_even y)) <= 1 # 2)%Q.
Proof.
  unfold round_half_even.
  pose proof (Qfloor_le y) as Hlo. pose proof (Qlt_floor y) as Hhi.
  rewrite inject_Z_plus in Hhi. change (inject_Z 1) with 1%Q in Hhi.
  apply Qabs_Qle_condition.
  destruct (Qcompare (y - inject_Z (Qfloor y)) (1 # 2)) eqn:E.
  - apply Qeq_alt in E. destruct (Z.even (Qfloor y)).
    + split; lra.
    + rewrite inject_Z_plus. change (inject_Z 1) with 1%Q. split; lra.
  - apply Qlt_alt in E. split; lra.
  - apply Qgt_alt in E. rewrite inject_Z_plus. change (inject_Z 1) with 1%Q.
    split; lra.
Qed.

Lemma round_half_even_comp (x y : Q) : (x == y)%Q -> round_half_even x = round_half_even y.
Proof.
  intros H. unfold round_half_even.
  assert (Hf : Qfloor x = Qfloor y) by (now rewrite H).
  rewrite Hf. now rewrite H.
Qed.

Lemma round_half_even_Z (z : Z) : round_half_even (inject_Z z) = z.
Proof.
  unfold round_half_even. rewrite Qfloor_Z.
  assert (E : Qcompare (inject_Z z - inject_Z z) (1 # 2) = Lt).
  { rewrite <- Qlt_alt. lra. }
  now rewrite E.
Qed.

Lemma binade_le (x : Q) : (0 < x)%Q -> (2 ^ binade x <= x)%Q.
Proof.
  intros Hx. unfold binade.
  destruct (Qle_bool _ x) eqn:E; [now apply Qle_bool_iff |].
  destruct x as [n d]. cbn [Qnum Qden].
  assert (Hn : 0 < n) by (unfold Qlt in Hx; cbn in Hx; lia).
  pose proof (Z.log2_spec n Hn) as [Hln _].
  pose proof (Z.log2_spec (Zpos d) (Pos2Z.is_pos d)) as [_ Hld].
  pose proof (Z.log2_nonneg n) as Hnn. pose proof (Z.log2_nonneg (Zpos d)) as Hdn.
  replace (Z.log2 n - Z.log2 (Zpos d) - 1) with (Z.log2 n - Z.succ (Z.log2 (Zpos d))) by lia.
  rewrite Qpower_minus by (intros H; discriminate H).
  change 2%Q with (inject_Z 2). rewrite <- !Zpower_Qpower by lia.
  rewrite (Qmake_Qdiv n d).
  apply Qle_shift_div_l; [apply (Qlt_le_trans _ (inject_Z 1)); [reflexivity |];
                          rewrite <- Zle_Qle; lia |].
  unfold Qdiv. rewrite <- Qmult_assoc, (Qmult_comm (/ _)), Qmult_assoc.
  apply Qle_shift_div_r.
  - rewrite <- (Zlt_Qlt 0). apply Z.pow_pos_nonneg; lia.
  - rewrite <- !inject_Z_mult, <- Zle_Qle. nia.
Qed.

Lemma pow2_pos (e : Z) : (0 < 2 ^ e)%Q.
Proof. apply Qpower_0_lt. reflexivity. Qed.

Lemma binary64_pos_error (x : Q) :
  (0 < x)%Q -> (Qabs (binary64_pos x - x) <= x * eps64)%Q.
Proof.
  intros Hx. unfold binary64_pos.
  set (e := binade x - 52). set (T := (2 ^ e)%Q).
  assert (HT : (0 < T)%Q) by apply pow2_pos.
  pose proof (round_half_even_near (x / T)) as Hm.
  set (m := inject_Z (round_half_even (x / T))) in *.
  pose proof (binade_le x Hx) as HE.
  replace (binade x) with (e + 52) in HE by (unfold e; lia).
  rewrite Qpower_plus in HE by (intros H; discriminate H). fold T in HE.
  assert (H52 : (2 ^ 52 == 4503599627370496)%Q) by reflexivity.
  rewrite H52 in HE.
  assert (Hy : (x / T * T == x)%Q) by (field; lra).
  apply Qabs_Qle_condition in Hm. destruct Hm as [Hm1 Hm2].
  assert (Hlo : ((x / T - m) * T <= (1 # 2) * T)%Q)
    by (apply Qmult_le_compat_r; lra).
  assert (Hhi : (- (1 # 2) * T <= (x / T - m) * T)%Q)
    by (apply Qmult_le_compat_r; lra).
  apply Qabs_Qle_condition. unfold eps64.
  change (1 # 2 ^ 53)%Q with (1 # 9007199254740992)%Q.
  split; lra.
Qed.

Lemma binary64_comp (x y : Q) : (x == y)%Q -> binary64 x = binary64 y.
Proof. intros H. unfold binary64. now rewrite (Qred_complete x y H). Qed.

Lemma binary64_error (x : Q) :
  (0 < x)%Q -> (Qabs (binary64 x - x) <= x * eps64)%Q.
Proof.
  intros Hx. unfold binary64.
  assert (Hr : (0 < Qred x)%Q) by (now rewrite Qred_correct).
  assert (E : Qcompare (Qred x) 0 = Gt) by (now rewrite <- Qgt_alt).
  rewrite E. pose proof (binary64_pos_error (Qred x) Hr) as H.
  rewrite (Qred_correct x) in H at 2 3. exact H.
Qed.

Lemma binary64_int (n : Z) :
  0 <= n < 2 ^ 53 -> (binary64 (inject_Z n) == inject_Z n)%Q.
Proof.
  intros [H0 H53]. destruct (Z.eq_dec n 0) as [-> | Hne]; [reflexivity |].
  unfold binary64. set (x := Qred (inject_Z n)).
  assert (Hx : (x == inject_Z n)%Q) by apply Qred_correct.
  assert (Hpos : (0 < x)%Q) by (rewrite Hx, <- (Zlt_Qlt 0); lia).
  assert (E : Qcompare x 0 = Gt) by (now rewrite <- Qgt_alt).
  rewrite E. unfold binary64_pos.
  pose proof (binade_le x Hpos) as HE.
  assert (Hle : binade x <= 52).
  { destruct (Z_le_gt_dec (binade x) 52) as [Hok | Hbig]; [exact Hok | exfalso].
    assert (H2 : (2 ^ 53 <= 2 ^ binade x)%Q)
      by (apply Qpower_le_compat_l; [lia | discriminate]).
    assert (Hn : (inject_Z n < 2 ^ 53)%Q).
    { change (2 ^ 53)%Q with (inject_Z (2 ^ 53)). now rewrite <- Zlt_Qlt. }
    lra. }
  set (p := 52 - binade x).
  assert (Hp : 0 <= p) by (unfold p; lia).
  replace (binade x - 52) with (- p) by (unfold p; lia).
  assert (Hpow : (2 ^ (- p) == / inject_Z (2 ^ p))%Q).
  { rewrite Qpower_opp. change 2%Q with (inject_Z 2) at 1.
    now rewrite <- Zpower_Qpower. }
  assert (Hpp : (0 < inject_Z (2 ^ p))%Q)
    by (rewrite <- (Zlt_Qlt 0); apply Z.pow_pos_nonneg; lia).
  assert (Hy : (x / 2 ^ (- p) == inject_Z (n * 2 ^ p))%Q).
  { rewrite Hpow, Hx, inject_Z_mult. field. lra. }
  rewrite (round_half_even_comp _ _ Hy), round_half_even_Z, Hpow, inject_Z_mult.
  field. lra.
Qed.

Lemma inject_Z_sub (x y : Z) : (inject_Z (x - y) == inject_Z x - inject_Z y)%Q.
Proof. unfold Z.sub. rewrite inject_Z_plus, inject_Z_opp. ring. Qed.

(** A relative error of [eps64] cannot carry a quotient of integers over
    a rounding boundary of the hundredths. *)
Lemma hundredths_robust (a i : Z) (f : Q) :
  0 < i -> 0 <= a -> 20000 * a < 2 ^ 53 ->
  (Qabs (f - inject_Z (a * 100) / inject_Z i)
   <= inject_Z (a * 100) / inject_Z i * eps64)%Q ->
  nearest_hundredth (inject_Z (a * 100) / inject_Z i) (round_half_even (f * 100)).
Proof.
  intros Hi Ha Hbound Herr. unfold nearest_hundredth.
  set (q := (inject_Z (a * 100) / inject_Z i)%Q) in *.
  set (k := round_half_even (f * 100)).
  pose proof (round_half_even_near (f * 100)) as Hk. fold k in Hk.
  set (N := 20000 * a - 2 * k * i).
  assert (HI : (0 < inject_Z i)%Q) by (rewrite <- (Zlt_Qlt 0); lia).
  assert (Hq : (q * inject_Z i == inject_Z (a * 100))%Q) by (unfold q; field; lra).
  assert (HA : (0 <= inject_Z (a * 100))%Q) by (rewrite <- (Zle_Qle 0); lia).
  assert (HAb : (200 * inject_Z (a * 100) * eps64 < 1)%Q).
  { unfold eps64. change (1 # 2 ^ 53)%Q with (/ inject_Z (2 ^ 53))%Q.
    apply Qlt_shift_div_r; [reflexivity |].
    change 200%Q with (inject_Z 200). rewrite <- inject_Z_mult, Qmult_1_l, <- Zlt_Qlt. lia. }
  apply Qabs_Qle_condition in Hk. apply Qabs_Qle_condition in Herr.
  destruct Hk as [Hk1 Hk2], Herr as [He1 He2].
  (* the integer 2*i*(100 q - k) *)
  assert (HN : (inject_Z N == 200 * inject_Z (a * 100) - 2 * inject_Z k * inject_Z i)%Q).
  { unfold N. rewrite inject_Z_sub, !inject_Z_mult. change (inject_Z 20000) with 20000%Q.
    change (inject_Z 2) with 2%Q. change (inject_Z 100) with 100%Q. ring. }
  assert (Hint : - i <= N <= i).
  { split.
    - destruct (Z_le_gt_dec (- i) N) as [Hok | Hbad]; [exact Hok | exfalso].
      assert (HNq : (inject_Z N <= - inject_Z i - 1)%Q).
      { rewrite <- inject_Z_opp. change 1%Q with (inject_Z 1).
        rewrite <- inject_Z_sub, <- Zle_Qle. lia. }
      assert (H1 : ((f - q) * inject_Z i <= q * eps64 * inject_Z i)%Q)
        by (apply Qmult_le_compat_r; lra).
      assert (H2 : ((- (1 # 2)) * inject_Z i <= (f * 100 - inject_Z k) * inject_Z i)%Q)
        by (apply Qmult_le_compat_r; lra).
      assert (H3 : (q * eps64 * inject_Z i == inject_Z (a * 100) * eps64)%Q)
        by (rewrite <- Hq; ring).
      rewrite H3 in H1.
      assert (H4 : ((f - q) * inject_Z i == f * inject_Z i - inject_Z (a * 100))%Q)
        by (rewrite <- Hq; ring).
      rewrite H4 in H1.
      assert (H5 : ((f * 100 - inject_Z k) * inject_Z i
                    == 100 * (f * inject_Z i) - inject_Z k * inject_Z i)%Q) by ring.
      rewrite H5 in H2. lra.
    - destruct (Z_le_gt_dec N i) as [Hok | Hbad]; [exact Hok | exfalso].
      assert (HNq : (inject_Z i + 1 <= inject_Z N)%Q).
      { change 1%Q with (inject_Z 1). rewrite <- inject_Z_plus, <- Zle_Qle. lia. }
      assert (H1 : (- (q * eps64) * inject_Z i <= (f - q) * inject_Z i)%Q)
        by (apply Qmult_le_compat_r; lra).
      assert (H2 : ((f * 100 - inject_Z k) * inject_Z i <= (1 # 2) * inject_Z i)%Q)
        by (apply Qmult_le_compat_r; lra).
      assert (H3 : (- (q * eps64) * inject_Z i == - (inject_Z (a * 100) * eps64))%Q)
        by (rewrite <- Hq; ring).
      rewrite H3 in H1.
      assert (H4 : ((f - q) * inject_Z i == f * inject_Z i - inject_Z (a * 100))%Q)
        by (rewrite <- Hq; ring).
      rewrite H4 in H1.
      assert (H5 : ((f * 100 - inject_Z k) * inject_Z i
                    == 100 * (f * inject_Z i) - inject_Z k * inject_Z i)%Q) by ring.
      rewrite H5 in H2. lra. }
  destruct Hint as [Hlo Hhi].
  assert (HloQ : (- inject_Z i <= inject_Z N)%Q)
    by (rewrite <- inject_Z_opp, <- Zle_Qle; lia).
  assert (HhiQ : (inject_Z N <= inject_Z i)%Q) by (rewrite <- Zle_Qle; lia).
  assert (Hgoal : ((q * 100 - inject_Z k) * (2 * inject_Z i) == inject_Z N)%Q).
  { rewrite HN, <- Hq. ring. }
  apply Qabs_Qle_condition. split.
  - apply (Qmult_le_r _ _ (2 * inject_Z i)); [lra |]. rewrite Hgoal. lra.
  - apply (Qmult_le_r _ _ (2 * inject_Z i)); [lra |]. rewrite Hgoal. lra.
Qed.


Lemma binary64_error_nonneg (x : Q) :
  (0 <= x)%Q -> (Qabs (binary64 x - x) <= x * eps64)%Q.
Proof.
  intros Hx. destruct (Qlt_le_dec 0 x) as [Hpos | Hle]; [now apply binary64_error |].
  assert (H0 : (x == 0)%Q) by lra.
  rewrite (binary64_comp x 0 H0), H0. apply Qabs_Qle_condition.
  change (binary64 0) with 0%Q. split; lra.
Qed.

Lemma binary64_positive (x : Q) : (0 < x)%Q -> (0 < binary64 x)%Q.
Proof.
  intros Hx. pose proof (binary64_error x Hx) as H.
  apply Qabs_Qle_condition in H. destruct H as [H _].
  unfold eps64 in H. change (1 # 2 ^ 53)%Q with (1 # 9007199254740992)%Q in H. lra.
Qed.

(** A hardware check of the model: on a grid of small counts and on a
    few large ones, [binary64] computes what the primitive binary64
    multiplication and division compute. *)
Lemma binary64_agrees_with_hardware :
  forallb (fun p => Qeq_bool (hardware_rate (fst p) (snd p))
                             (model_rate (fst p) (snd p)))
          (grid 12 ++ [(38, 150); (1, 4000); (1, 20000); (123456789, 987654321);
                       (7, 4503599627370497); (4503599627370, 3)]) = true.
Proof. vm_compute. reflexivity. Qed.

(** The divisor of the rate is never zero when the guard lets the
    division run. *)
Lemma calculate_rate_total (total_inscritos total_asistieron : Z) :
  exists v, calculate_rate total_inscritos total_asistieron = Ok v.
Proof.
  unfold calculate_rate, py_truediv.
  destruct (total_inscritos >? 0) eqn:E; [| eauto].
  apply Z.gtb_lt in E.
  assert (Hpos : (0 < float_of_int total_inscritos)%Q).
  { apply binary64_positive. rewrite <- (Zlt_Qlt 0). exact E. }
  destruct (Qeq_bool (float_of_int total_inscritos) 0) eqn:Z0; [| cbn [bind]; eauto].
  apply Qeq_bool_iff in Z0. lra.
Qed.

(** For counts in the range where the conversions to float are exact,
    the rate is the float nearest to the quotient, and rounding it to
    two decimals gives a hundredth nearest to the quotient itself. *)
Lemma calculate_rate_nearest (total_inscritos total_asistieron : Z) :
  0 < total_inscritos < 2 ^ 53 ->
  0 <= total_asistieron < 2 ^ 38 ->
  exists h,
    calculate_rate total_inscritos total_asistieron = Ok (VFloat2 h)
    /\ nearest_hundredth (inject_Z (total_asistieron * 100) / inject_Z total_inscritos) h.
Proof.
  intros [Hi Hi53] [Ha Ha38]. unfold calculate_rate, py_truediv.
  assert (E : (total_inscritos >? 0) = true) by (apply Z.gtb_lt; lia).
  rewrite E.
  assert (HI : (float_of_int total_inscritos == inject_Z total_inscritos)%Q)
    by (apply binary64_int; lia).
  assert (HA : (float_mul (float_of_int total_asistieron) 100
                == inject_Z (total_asistieron * 100))%Q).
  { unfold float_mul.
    assert (H1 : (float_of_int total_asistieron * 100
                  == inject_Z (total_asistieron * 100))%Q).
    { unfold float_of_int. rewrite binary64_int by lia.
      rewrite inject_Z_mult. reflexivity. }
    rewrite (binary64_comp _ _ H1). apply binary64_int. lia. }
  assert (HIpos : (0 < inject_Z total_inscritos)%Q) by (rewrite <- (Zlt_Qlt 0); lia).
  destruct (Qeq_bool (float_of_int total_inscritos) 0) eqn:Z0.
  { apply Qeq_bool_iff in Z0. lra. }
  cbn [bind]. eexists. split; [reflexivity |].
  assert (Hq : (float_mul (float_of_int total_asistieron) 100 / float_of_int total_inscritos
                == inject_Z (total_asistieron * 100) / inject_Z total_inscritos)%Q)
    by (rewrite HA, HI; reflexivity).
  rewrite (binary64_comp _ _ Hq). unfold py_round2.
  apply hundredths_robust; [lia | lia | lia |].
  apply binary64_error_nonneg.
  apply Qle_shift_div_l; [exact HIpos |]. rewrite Qmult_0_l, <- (Zle_Qle 0). lia.
Qed.

(** Every statement of the statistics service is built with
    [Model.join], so every KPI the dispatch knows raises. *)
Lemma dispatch_kpi_raises (db : Database) (g : string) (fi ff : Date) (name : string) :
  py_in name valid_kpis = true ->
  dispatch_kpi db name g fi ff = Some (Raise JoinError).
Proof.
  intros Hvalid. unfold dispatch_kpi.
  unfold py_in, valid_kpis in Hvalid. cbn [existsb] in Hvalid.
  split_eqb ltac:(reflexivity). cbn in Hvalid. discriminate Hvalid.
Qed.

(** C6. The [tasaAsistencia] KPI is not produced: its first statement
    is built with [ExpoRegistroEventos.join], an attribute the model
    class lacks, so for every store and range the computation raises
    [AttributeError], the KPI is logged as failed and left out; a
    request for it over 150 registrations and 38 confirmations is
    answered with no KPI.  The rate line the statements lead to
    raises for no pair of counts and computes what is described: [0]
    without registrations, otherwise
    (below 2^53 registrations and 2^38 confirmations, where the
    conversions to float are exact) a multiple of 0.01 nearest to
    [attended * 100 / inscritos]; 150 and 38 give 25.33. *)
Theorem tasa_asistencia_is_not_produced :
  (forall db g fi ff,
      _kpi_tasa_asistencia db g fi ff = Raise JoinError
      /\ kpi_of db g fi ff "tasaAsistencia" = []
      /\ log_of db g fi ff "tasaAsistencia"
         = [LogError "calculate_kpi_error" (Some "tasaAsistencia")])
  /\ Z.of_nat (length (inscripciones_en_rango kpi_db august_1 august_31)) = 150
  /\ Z.of_nat (length (asistencias_en_rango kpi_db august_1 august_31)) = 38
  /\ fst (Tools.get_estadisticas default_settings (world_of kpi_db)
            (request_of (token_of "lect_001" "guest_reader" Auth.LECTOR) 5)
            (august_request "tasaAsistencia"))
     = ([LogInfo "get_estadisticas_request";
         LogInfo "get_estadisticas_started";
         LogError "calculate_kpi_error" (Some "tasaAsistencia");
         LogInfo "get_estadisticas_completed";
         LogInfo "get_estadisticas_success"],
        Ok {| kpis := [];
              granularidad := "DIA";
              periodo := {| inicio := "2025-08-01"; fin := "2025-08-31" |} |})
  /\ (forall i a : Z,
         0 < i < 2 ^ 53 -> 0 <= a < 2 ^ 38 ->
         exists h, calculate_rate i a = Ok (VFloat2 h)
                   /\ nearest_hundredth (inject_Z (a * 100) / inject_Z i) h)
  /\ (forall i a : Z, exists v, calculate_rate i a = Ok v)
  /\ calculate_rate 150 38 = Ok (VFloat2 2533)
  /\ calculate_rate 0 38 = Ok (VInt 0).
Proof.
  repeat apply conj.
  - intros db g fi ff. repeat apply conj; reflexivity.
  - vm_compute. reflexivity.
  - vm_compute. reflexivity.
  - vm_compute. reflexivity.
  - intros i a Hi Ha. apply calculate_rate_nearest; assumption.
  - apply calculate_rate_total.
  - vm_compute. reflexivity.
  - reflexivity.
Qed.

(** The loop keeps what each call returns, whatever the other calls
    did. *)
Lemma for_kpi_name_eq (outcome : string -> option (Resultado KpiInfo))
      (names : list string) :
  for_kpi_name (fun name => try_kpi name (outcome name)) names
  = (flat_map (fun name =>
                 match outcome name with
                 | Some (Ok _) => []
                 | Some (Raise _) => [LogError "calculate_kpi_error" (Some name)]
                 | None => [LogWarning ("Unknown KPI: " +:+ name)]
                 end) names,
     flat_map (fun name =>
                 match outcome name with
                 | Some (Ok k) => [k]
                 | _ => []
                 end) names).
Proof.
  induction names as [| name rest IH]; [reflexivity |].
  cbn [for_kpi_name flat_map]. rewrite IH. unfold try_kpi.
  destruct (outcome name) as [[k | x] |]; reflexivity.
Qed.

Lemma calculate_all_eq (db : Database) (g : string) (fi ff : Date) (names : list string) :
  calculate_all db names g fi ff =
  (flat_map (log_of db g fi ff) names, flat_map (kpi_of db g fi ff) names).
Proof.
  unfold calculate_all, _calculate_kpi.
  exact (for_kpi_name_eq (fun name => dispatch_kpi db name g fi ff) names).
Qed.

(** C5, as the code has it.  Whatever each KPI computation does, the
    loop keeps, in request order, exactly the results of those that
    returned one, and logs one [calculate_kpi_error] per computation
    that raised: a KPI's presence depends on its own outcome only.
    With a range whose two dates parse the answer is built from that
    loop.  A range with a date that does not parse is
    another matter: the error is logged once and re-raised before any
    KPI is computed, so the call has no result set, and the handler
    answers 500. *)
Theorem kpi_failures_are_isolated_within_a_parsed_range :
  (forall (outcome : string -> option (Resultado KpiInfo)) (names : list string),
      for_kpi_name (fun name => try_kpi name (outcome name)) names
      = (flat_map (fun name =>
                     match outcome name with
                     | Some (Ok _) => []
                     | Some (Raise _) => [LogError "calculate_kpi_error" (Some name)]
                     | None => [LogWarning ("Unknown KPI: " +:+ name)]
                     end) names,
         flat_map (fun name =>
                     match outcome name with
                     | Some (Ok k) => [k]
                     | _ => []
                     end) names))
  /\ (forall db g fi ff names,
         calculate_all db names g fi ff
         = for_kpi_name (fun name => try_kpi name (dispatch_kpi db name g fi ff)) names)
  /\ (forall db input_data,
      get_estadisticas db input_data =
      match strptime_date (inicio (es_rango input_data)),
            strptime_date (fin (es_rango input_data)) with
      | Ok fi, Ok ff =>
          (LogInfo "get_estadisticas_started"
             :: flat_map (log_of db (es_granularidad input_data) fi ff)
                         (es_kpis input_data)
             ++ [LogInfo "get_estadisticas_completed"],
           Ok {| kpis := flat_map (kpi_of db (es_granularidad input_data) fi ff)
                                  (es_kpis input_data);
                 granularidad := es_granularidad input_data;
                 periodo := es_rango input_data |})
      | Raise x, _ | Ok _, Raise x =>
          ([LogInfo "get_estadisticas_started";
            LogError "get_estadisticas_error" None], Raise x)
      end)
  /\ (forall db g fi ff name,
         (exists x, dispatch_kpi db name g fi ff = Some (Raise x)) <->
         log_of db g fi ff name = [LogError "calculate_kpi_error" (Some name)])
  /\ (forall cfg w rq input_data log out w',
         Tools.get_estadisticas cfg w rq input_data = (log, Ok out, w') ->
         exists fi ff,
           strptime_date (inicio (es_rango input_data)) = Ok fi
           /\ strptime_date (fin (es_rango input_data)) = Ok ff
           /\ kpis out = flat_map (kpi_of (Tools.db w) (es_granularidad input_data) fi ff)
                                  (es_kpis input_data))
  /\ fst (Tools.get_estadisticas default_settings
            (world_of kpi_db)
            (request_of (token_of "lect_001" "guest_reader" Auth.LECTOR) 5)
            malformed_range_request)
     = ([LogInfo "get_estadisticas_request";
         LogInfo "get_estadisticas_started";
         LogError "get_estadisticas_error" None;
         LogError "get_estadisticas_error" None],
        Raise (Tools.INTERNAL_ERROR "Error calculating statistics")).
Proof.
  assert (Hsvc : forall db input_data,
      get_estadisticas db input_data =
      match strptime_date (inicio (es_rango input_data)),
            strptime_date (fin (es_rango input_data)) with
      | Ok fi, Ok ff =>
          (LogInfo "get_estadisticas_started"
             :: flat_map (log_of db (es_granularidad input_data) fi ff)
                         (es_kpis input_data)
             ++ [LogInfo "get_estadisticas_completed"],
           Ok {| kpis := flat_map (kpi_of db (es_granularidad input_data) fi ff)
                                  (es_kpis input_data);
                 granularidad := es_granularidad input_data;
                 periodo := es_rango input_data |})
      | Raise x, _ | Ok _, Raise x =>
          ([LogInfo "get_estadisticas_started";
            LogError "get_estadisticas_error" None], Raise x)
      end).
  { intros db input_data. unfold get_estadisticas.
    destruct (strptime_date (inicio (es_rango input_data))) as [fi | x]; [| reflexivity].
    destruct (strptime_date (fin (es_rango input_data))) as [ff | x]; [| reflexivity].
    rewrite calculate_all_eq. reflexivity. }
  split; [exact for_kpi_name_eq |]. split; [reflexivity |].
  split; [exact Hsvc | split; [| split; [| vm_compute; reflexivity]]].
  - intros db g fi ff name. unfold log_of.
    destruct (dispatch_kpi db name g fi ff) as [[k | x] |]; split;
      try discriminate; try (intros [y Hy]; discriminate Hy); eauto.
  - intros cfg w rq input_data log out w' H.
    unfold Tools.get_estadisticas in H.
    destruct (Tools.prelude "getEstadisticas" validate_GetEstadisticasInput rq input_data)
      as [[user i'] | x] eqn:Hpre; [| discriminate H].
    assert (Hi : i' = input_data).
    { unfold Tools.prelude in Hpre.
      destruct (Auth.require_permission "getEstadisticas" (Tools.credentials rq));
        cbn [bind] in Hpre; [| discriminate Hpre].
      unfold validate_GetEstadisticasInput in Hpre.
      destruct (Nat.leb 1 (length (es_kpis input_data)) && _);
        cbn [bind] in Hpre; [| discriminate Hpre].
      congruence. }
    subst i'.
    destruct (Auth.check_rate_limit cfg (Tools.limiter w) (Tools.rq_time rq) user
                                    "getEstadisticas") as [[u | x] rl];
      [| discriminate H].
    cbn [Tools.db Tools.with_limiter] in H. rewrite Hsvc in H.
    destruct (strptime_date (inicio (es_rango input_data))) as [fi | x];
      [| discriminate H].
    destruct (strptime_date (fin (es_rango input_data))) as [ff | x];
      [| discriminate H].
    injection H as _ <- _. exists fi, ff. auto.
Qed.

Lemma kpi_failures_are_isolated_within_a_parsed_range_witness :
  exists fi ff,
    strptime_date "2025-08-01" = Ok fi
    /\ strptime_date "2025-08-31" = Ok ff
    /\ kpis {| kpis := []; granularidad := "DIA";
               periodo := {| inicio := "2025-08-01"; fin := "2025-08-31" |} |}
       = flat_map (kpi_of kpi_db "DIA" fi ff) ["noShow"].
Proof.
  refine (proj1 (proj2 (proj2 (proj2 (proj2
                   kpi_failures_are_isolated_within_a_parsed_range))))
                default_settings (world_of kpi_db)
                (request_of (token_of "lect_001" "guest_reader" Auth.LECTOR) 5)
                (august_request "noShow") _ _ _ _).
  vm_compute. reflexivity.
Defined.

(** C5 as stated fails: a request the schema accepts but whose range
    names month 13 gets no result set at all. *)
Lemma malformed_range_aborts_all_kpis : ~ every_failure_only_omits.
Proof.
  intros H.
  destruct (H kpi_db malformed_range_request eq_refl)
    as (log & out & Habs).
  vm_compute in Habs. discriminate Habs.
Qed.

(** C7. The [leadsPorFuente] listing is not produced: its statement is
    built with [ExpoRegistros.join], an attribute the model class
    lacks, so for every store and range the computation raises
    [AttributeError], the KPI is logged as failed and left out; a
    request for it over two organisations with one registration each
    is answered with no KPI. *)
Theorem leads_por_fuente_is_not_produced :
  (forall db g fi ff,
      _kpi_leads_por_fuente db g fi ff = Raise JoinError
      /\ kpi_of db g fi ff "leadsPorFuente" = []
      /\ log_of db g fi ff "leadsPorFuente"
         = [LogError "calculate_kpi_error" (Some "leadsPorFuente")])
  /\ leads_en_rango two_leads_db august_1 august_31 = [Some "Zeta"; Some "Alpha"]
  /\ fst (Tools.get_estadisticas default_settings (world_of two_leads_db)
            (request_of (token_of "lect_001" "guest_reader" Auth.LECTOR) 5)
            (august_request "leadsPorFuente"))
     = ([LogInfo "get_estadisticas_request";
         LogInfo "get_estadisticas_started";
         LogError "calculate_kpi_error" (Some "leadsPorFuente");
         LogInfo "get_estadisticas_completed";
         LogInfo "get_estadisticas_success"],
        Ok {| kpis := [];
              granularidad := "DIA";
              periodo := {| inicio := "2025-08-01"; fin := "2025-08-31" |} |}).
Proof.
  repeat apply conj.
  - intros db g fi ff. repeat apply conj; reflexivity.
  - vm_compute. reflexivity.
  - vm_compute. reflexivity.
Qed.

End Estadisticas.

(** * Further properties *)

(** ** Authentication *)

Section AuthFurther.
Import Auth.

Lemma UserRole_of_value_inv (s : string) (r : UserRole) :
  UserRole_of_value s = Ok r -> s = role_value r.
Proof.
  unfold UserRole_of_value.
  destruct (String.eqb_spec s "LECTOR") as [-> |];
    [intros [= <-]; reflexivity |].
  destruct (String.eqb_spec s "STAFF_PUERTA") as [-> |];
    [intros [= <-]; reflexivity |].
  destruct (String.eqb_spec s "COORDINADOR") as [-> |];
    [intros [= <-]; reflexivity | discriminate].
Qed.

Lemma UserRole_of_value_unknown (s : string) :
  (forall r, s <> role_value r) ->
  UserRole_of_value s = Raise (ValueError "not a valid UserRole").
Proof.
  intros Hs. unfold UserRole_of_value.
  destruct (String.eqb_spec s "LECTOR") as [-> |];
    [now destruct (Hs LECTOR) |].
  destruct (String.eqb_spec s "STAFF_PUERTA") as [-> |];
    [now destruct (Hs STAFF_PUERTA) |].
  destruct (String.eqb_spec s "COORDINADOR") as [-> |];
    [now destruct (Hs COORDINADOR) | reflexivity].
Qed.

(** X1. A user comes out of [verify_token] only for a decoded token
    that carries all three claims and a role among the three enum
    values; the user repeats the claims, and the permissions are those
    the static table gives the role, whatever else the token holds. *)
Theorem verified_user_repeats_the_claims (d : Decoded) (u : MCPUser) :
  verify_token d = Ok (Some u) ->
  d = token_of (user_id u) (username u) (role u)
  /\ u = user_of (user_id u) (username u) (role u)
  /\ permissions u = ROLE_PERMISSIONS (role u).
Proof.
  destruct d as [[[uid |] [uname |] [role_str |]] | |]; cbn; try discriminate.
  destruct (UserRole_of_value role_str) as [r | x] eqn:Hr; cbn; [| discriminate].
  intros [= <-]. cbn. apply UserRole_of_value_inv in Hr. subst role_str.
  repeat split.
Qed.

Lemma verified_user_repeats_the_claims_witness :
  token_of "staff_001" "maria_recepcion" STAFF_PUERTA
  = token_of "staff_001" "maria_recepcion" STAFF_PUERTA
  /\ permissions (user_of "staff_001" "maria_recepcion" STAFF_PUERTA)
     = ROLE_PERMISSIONS STAFF_PUERTA.
Proof.
  destruct (verified_user_repeats_the_claims
              (token_of "staff_001" "maria_recepcion" STAFF_PUERTA)
              (user_of "staff_001" "maria_recepcion" STAFF_PUERTA)
              eq_refl) as [H1 [_ H3]].
  split; [exact H1 | exact H3].
Defined.

(** X2. The outcomes of [get_current_user]: an expired token and a
    token lacking one of the claims are answered 401; an undecodable
    token and a token with the three claims whose role is none of the
    enum values are not: handling their exception looks up
    [jwt.JWTError], which PyJWT lacks, and the [AttributeError] leaves
    the dependency as it is, also through [require_permission] and
    [require_role]; any other token yields its user. *)
Theorem get_current_user_outcomes (d : Decoded) :
  let unauthorized : Resultado MCPUser :=
    Raise (HTTPException 401 (DetailText "Could not validate credentials")) in
  let no_JWTError : Resultado MCPUser :=
    Raise (AttributeError "module 'jwt' has no attribute 'JWTError'") in
  match d with
  | Claims {| p_sub := Some uid; p_username := Some uname; p_role := Some r |} =>
      (forall ro, r = role_value ro ->
                  get_current_user d = Ok (user_of uid uname ro))
      /\ ((forall ro, r <> role_value ro) ->
          get_current_user d = no_JWTError
          /\ (forall tool, require_permission tool d = no_JWTError)
          /\ (forall ro, require_role ro d = no_JWTError))
  | InvalidTokenError =>
      get_current_user d = no_JWTError
      /\ (forall tool, require_permission tool d = no_JWTError)
      /\ (forall ro, require_role ro d = no_JWTError)
  | _ =>
      get_current_user d = unauthorized
      /\ (forall tool, require_permission tool d = unauthorized)
      /\ (forall ro, require_role ro d = unauthorized)
  end.
Proof.
  destruct d as [[[uid |] [uname |] [r |]] | |]; cbn;
    try (repeat split; reflexivity).
  split.
  - intros ro ->. unfold get_current_user. cbn.
    now rewrite role_value_roundtrip.
  - intros Hr.
    unfold require_permission, require_role, get_current_user. cbn.
    rewrite (UserRole_of_value_unknown r Hr). repeat split.
Qed.

(** X3. [require_role] lets a user through exactly when the role is
    the required one: there is no ordering of the roles in it, so a
    coordinator is refused where door staff is required although the
    permission table gives the coordinator every door-staff
    permission. *)
Theorem require_role_is_exact (required : UserRole) (d : Decoded) (u : MCPUser) :
  get_current_user d = Ok u ->
  require_role required d =
    (if String.eqb (role_value (role u)) (role_value required) then Ok u
     else Raise (HTTPException 403
                   (DetailText ("Role '" +:+ role_value required +:+ "' required"))))
  /\ (require_role required d = Ok u <-> role u = required)
  /\ (forall tool, is_ok (require_permission tool
                            (token_of (user_id u) (username u) STAFF_PUERTA)) = true ->
                   is_ok (require_permission tool
                            (token_of (user_id u) (username u) COORDINADOR)) = true)
  /\ is_ok (require_role STAFF_PUERTA
              (token_of (user_id u) (username u) COORDINADOR)) = false.
Proof.
  intros Hu. unfold require_role. rewrite Hu. cbn. unfold role_checker.
  split; [now destruct (String.eqb _ _) |].
  split; [| split].
  - destruct (role u), required; cbn; split; intros H;
      first [reflexivity | discriminate].
  - intros tool. unfold require_permission, get_current_user, token_of. cbn.
    unfold permission_checker. cbn [permissions ROLE_PERMISSIONS].
    unfold py_in. cbn [existsb].
    repeat (destruct (String.eqb _ _); cbn; try reflexivity).
    discriminate.
  - reflexivity.
Qed.

Lemma require_role_is_exact_witness :
  require_role COORDINADOR (token_of "coord_001" "luis" COORDINADOR)
  = Ok (user_of "coord_001" "luis" COORDINADOR)
  <-> COORDINADOR = COORDINADOR.
Proof.
  exact (proj1 (proj2 (require_role_is_exact
                         COORDINADOR (token_of "coord_001" "luis" COORDINADOR)
                         (user_of "coord_001" "luis" COORDINADOR) eq_refl))).
Defined.

End AuthFurther.

(** ** Rate limiter *)

Section RateLimitingFurther.
Import Auth.

Lemma kept_at_app (now : Z) (l1 l2 : list Z) :
  kept_at now (l1 ++ l2) = kept_at now l1 ++ kept_at now l2.
Proof. unfold kept_at. apply List.filter_app. Qed.

Lemma kept_at_later (now now' : Z) (l : list Z) :
  now <= now' -> kept_at now' (kept_at now l) = kept_at now' l.
Proof.
  intros Hle. unfold kept_at. induction l as [| t l IH]; cbn; [reflexivity |].
  destruct (now - t <? 60) eqn:H1; cbn; rewrite IH; [reflexivity |].
  assert (H2 : (now' - t <? 60) = false)
    by (apply Z.ltb_ge; apply Z.ltb_ge in H1; lia).
  now rewrite H2.
Qed.

Lemma kept_at_now (now : Z) : kept_at now [now] = [now].
Proof.
  unfold kept_at. cbn. replace (now - now) with 0 by lia. reflexivity.
Qed.

Lemma admitted_times_cons (now : Z) (b : bool) (times : list Z) (bs : list bool) :
  admitted_times (now :: times) (b :: bs) =
  (if b then [now] else []) ++ admitted_times times bs.
Proof. unfold admitted_times. cbn. now destruct b. Qed.

(** The window after a run with a clock that does not go back: the
    times recorded before and the admitted ones, as far as they are
    newer than the last reading minus 60. *)
Lemma admit_all_requests (key : string) (limit : Z) (times : list Z) :
  forall (rl : gmap string (list Z)) (now : Z),
    StronglySorted Z.le (times ++ [now]) ->
    requests_of (snd (admit_all rl key limit (times ++ [now]))) key =
    kept_at now (requests_of rl key
                 ++ admitted_times (times ++ [now])
                                   (fst (admit_all rl key limit (times ++ [now])))).
Proof.
  induction times as [| t rest IH]; intros rl now Hs.
  - cbn [app admit_all]. rewrite is_allowed_eq.
    destruct (limit <=? _); cbn [fst snd]; rewrite requests_of_insert,
      admitted_times_cons; unfold admitted_times; cbn [combine List.filter map app].
    + now rewrite app_nil_r.
    + now rewrite kept_at_app, kept_at_now.
  - cbn [app admit_all]. rewrite is_allowed_eq.
    cbn [app] in Hs. inversion Hs as [| ? ? Hrest Hall]; subst.
    assert (Hle : t <= now).
    { rewrite List.Forall_forall in Hall. apply Hall.
      apply in_or_app. right. now left. }
    destruct (limit <=? _);
      match goal with
      | |- context [admit_all ?r key limit (rest ++ [now])] =>
          specialize (IH r now Hrest);
          destruct (admit_all r key limit (rest ++ [now])) as [bs rl2]
      end;
      cbn [fst snd] in *; rewrite IH, requests_of_insert, admitted_times_cons;
      cbn [app].
    + now rewrite kept_at_app, kept_at_later, <- kept_at_app.
    + change (t :: admitted_times (rest ++ [now]) bs)
        with ([t] ++ admitted_times (rest ++ [now]) bs).
      rewrite !kept_at_app, kept_at_later by exact Hle.
      now rewrite <- app_assoc.
Qed.

Lemma is_allowed_bounded (rl : gmap string (list Z)) (now : Z) (key : string)
      (limit : Z) :
  Z.of_nat (length (requests_of rl key)) <= Z.max 0 limit ->
  Z.of_nat (length (requests_of (snd (is_allowed rl now key limit 60)) key))
  <= Z.max 0 limit.
Proof.
  intros Hb. rewrite is_allowed_eq.
  pose proof (kept_at_length_le now (requests_of rl key)) as Hk.
  destruct (limit <=? _) eqn:Hfull; cbn [snd]; rewrite requests_of_insert.
  - lia.
  - apply Z.leb_gt in Hfull. rewrite length_app. cbn [length]. lia.
Qed.

Lemma admit_all_bounded (key : string) (limit : Z) (times : list Z) :
  forall (rl : gmap string (list Z)),
    Z.of_nat (length (requests_of rl key)) <= Z.max 0 limit ->
    Z.of_nat (length (requests_of (snd (admit_all rl key limit times)) key))
    <= Z.max 0 limit.
Proof.
  induction times as [| t rest IH]; intros rl Hb; [exact Hb |].
  cbn [admit_all].
  pose proof (is_allowed_bounded rl t key limit Hb) as H1.
  destruct (is_allowed rl t key limit 60) as [b rl1]. cbn [snd] in H1.
  specialize (IH rl1 H1).
  destruct (admit_all rl1 key limit rest) as [bs rl2]. exact IH.
Qed.

(** X4. The limit is never exceeded: on a key not seen before and
    with a clock that does not go back, after any run of checks the
    calls admitted less than 60 seconds before the last one, the last
    one included, are at most [limit] (none when the limit is not
    positive). *)
Theorem admitted_calls_never_exceed_limit
        (rl : gmap string (list Z)) (key : string) (limit : Z)
        (earlier : list Z) (now : Z) :
  rl !! key = None ->
  StronglySorted Z.le (earlier ++ [now]) ->
  let answers := fst (admit_all rl key limit (earlier ++ [now])) in
  Z.of_nat (length (kept_at now (admitted_times (earlier ++ [now]) answers)))
  <= Z.max 0 limit.
Proof.
  intros Hfresh Hs answers. subst answers.
  assert (H0 : requests_of rl key = []) by (unfold requests_of; now rewrite Hfresh).
  pose proof (admit_all_requests key limit earlier rl now Hs) as Hreq.
  rewrite H0 in Hreq. cbn [app] in Hreq. rewrite <- Hreq.
  apply admit_all_bounded. rewrite H0. cbn. lia.
Qed.

Lemma admitted_calls_never_exceed_limit_witness :
  Z.of_nat (length (kept_at 65 (admitted_times ([0; 10; 20] ++ [65])
                                  (fst (admit_all ∅ "staff_001:getEventos" 2
                                                  ([0; 10; 20] ++ [65]))))))
  <= Z.max 0 2.
Proof.
  apply (admitted_calls_never_exceed_limit ∅ "staff_001:getEventos" 2 [0; 10; 20] 65).
  - apply lookup_empty.
  - repeat constructor; lia.
Defined.

Lemma append_cons (c : ascii) (a s : string) :
  String c a +:+ s = String c (a +:+ s).
Proof. reflexivity. Qed.

Lemma append_nil (s : string) : "" +:+ s = s.
Proof. reflexivity. Qed.

Lemma colon_free_app_colon (a t : string) :
  colon_free (a +:+ String ":" t) = false.
Proof.
  induction a as [| c a IH]; [reflexivity |].
  rewrite append_cons. cbn [colon_free]. rewrite IH. apply andb_false_r.
Qed.

Lemma rate_key_split (a a' t t' : string) :
  colon_free t = true -> colon_free t' = true ->
  a +:+ ":" +:+ t = a' +:+ ":" +:+ t' -> a = a' /\ t = t'.
Proof.
  intros Ht Ht'. revert a'.
  change (":" +:+ t) with (String ":" t).
  change (":" +:+ t') with (String ":" t').
  induction a as [| c a IH]; intros [| c' a'];
    rewrite ?append_cons, ?append_nil; intros H.
  - now injection H as ->.
  - injection H as <- ->. now rewrite colon_free_app_colon in Ht.
  - injection H as -> <-. now rewrite colon_free_app_colon in Ht'.
  - injection H as -> H. destruct (IH _ H) as [-> ->]. now split.
Qed.

(** X5. Budgets are separate: a rate-limit check made for one user
    and tool leaves the window of every other user-and-tool pair as it
    was.  The keys [user_id:tool] of two different pairs differ, since
    tool names carry no colon, whatever the user identifiers are. *)
Theorem rate_limit_budgets_are_separate
        (cfg : Settings) (rl : gmap string (list Z)) (now : Z)
        (user other : MCPUser) (tool_name other_tool : string) :
  colon_free tool_name = true ->
  colon_free other_tool = true ->
  (user_id user, tool_name) <> (user_id other, other_tool) ->
  rate_key user tool_name <> rate_key other other_tool
  /\ snd (check_rate_limit cfg rl now user tool_name) !! rate_key other other_tool
     = rl !! rate_key other other_tool.
Proof.
  intros Ht Ht' Hne.
  assert (Hk : rate_key user tool_name <> rate_key other other_tool).
  { unfold rate_key. intros H. apply rate_key_split in H; [| assumption ..].
    destruct H as [H1 H2]. apply Hne. now rewrite H1, H2. }
  split; [exact Hk |].
  unfold check_rate_limit. rewrite is_allowed_eq.
  destruct (_ <=? _); cbn; now rewrite lookup_insert_ne.
Qed.

Lemma rate_limit_budgets_are_separate_witness :
  snd (check_rate_limit default_settings ∅ 0
         (user_of "staff_001" "maria_recepcion" STAFF_PUERTA) "getEventos")
    !! rate_key (user_of "staff_001" "maria_recepcion" STAFF_PUERTA) "getAforo"
  = (∅ : gmap string (list Z))
      !! rate_key (user_of "staff_001" "maria_recepcion" STAFF_PUERTA) "getAforo".
Proof.
  apply (rate_limit_budgets_are_separate default_settings ∅ 0
           (user_of "staff_001" "maria_recepcion" STAFF_PUERTA)
           (user_of "staff_001" "maria_recepcion" STAFF_PUERTA)
           "getEventos" "getAforo");
    [reflexivity | reflexivity | discriminate].
Defined.

(** X6. A refused call leaves no trace: the next check of the same
    key, with a clock that has not gone back, answers and records
    exactly as if the refused call had not been made, so repeating a
    refused call does not prolong the refusal. *)
Theorem refused_call_leaves_no_trace
        (rl : gmap string (list Z)) (now later : Z) (key : string)
        (limit limit' : Z) :
  fst (is_allowed rl now key limit 60) = false ->
  now <= later ->
  is_allowed (snd (is_allowed rl now key limit 60)) later key limit' 60
  = is_allowed rl later key limit' 60.
Proof.
  intros Href Hle. rewrite (is_allowed_eq rl now) in *.
  destruct (limit <=? _); [| discriminate]. cbn [snd].
  rewrite !is_allowed_eq, requests_of_insert, kept_at_later by exact Hle.
  destruct (limit' <=? _); now rewrite insert_insert_eq.
Qed.

Lemma refused_call_leaves_no_trace_witness :
  is_allowed (snd (is_allowed {[ "k" := [0; 1] ]} 5 "k" 2 60)) 70 "k" 2 60
  = is_allowed {[ "k" := [0; 1] ]} 70 "k" 2 60.
Proof.
  apply (refused_call_leaves_no_trace {[ "k" := [0; 1] ]} 5 70 "k" 2 2);
    [reflexivity | lia].
Defined.

End RateLimitingFurther.

(** ** Cache keys *)

Section StringOrder.

Lemma ascii_compare_refl (a : ascii) : Ascii.compare a a = Eq.
Proof. unfold Ascii.compare. apply N.compare_refl. Qed.

Lemma string_compare_refl (s : string) : String.compare s s = Eq.
Proof.
  induction s as [| c s IH]; cbn; [reflexivity |].
  now rewrite ascii_compare_refl.
Qed.

Lemma ascii_compare_lt_trans (a b c : ascii) :
  Ascii.compare a b = Lt -> Ascii.compare b c = Lt -> Ascii.compare a c = Lt.
Proof.
  unfold Ascii.compare. rewrite !N.compare_lt_iff. lia.
Qed.

Lemma string_compare_lt_trans (a : string) :
  forall b c, String.compare a b = Lt -> String.compare b c = Lt ->
              String.compare a c = Lt.
Proof.
  induction a as [| x a IH]; intros [| y b] [| z c]; cbn;
    try discriminate; try reflexivity.
  destruct (Ascii.compare x y) eqn:Hxy; try discriminate;
    destruct (Ascii.compare y z) eqn:Hyz; try discriminate; intros H1 H2.
  - apply Ascii.compare_eq_iff in Hxy, Hyz. subst.
    rewrite ascii_compare_refl. now apply (IH b).
  - apply Ascii.compare_eq_iff in Hxy. subst. now rewrite Hyz.
  - apply Ascii.compare_eq_iff in Hyz. subst. now rewrite Hxy.
  - now rewrite (ascii_compare_lt_trans x y z).
Qed.

Lemma string_leb_trans (a b c : string) :
  String.leb a b = true -> String.leb b c = true -> String.leb a c = true.
Proof.
  unfold String.leb.
  destruct (String.compare a b) eqn:Hab; try discriminate;
    destruct (String.compare b c) eqn:Hbc; try discriminate; intros _ _.
  - apply String.compare_eq_iff in Hab, Hbc. subst.
    now rewrite string_compare_refl.
  - apply String.compare_eq_iff in Hab. subst. now rewrite Hbc.
  - apply String.compare_eq_iff in Hbc. subst. now rewrite Hab.
  - now rewrite (string_compare_lt_trans a b c).
Qed.

(** Two sorted lists with the same elements are the same list. *)
Lemma sorted_perm_unique {A : Type} (R : A -> A -> Prop) :
  (forall a b, R a b -> R b a -> a = b) ->
  forall l l', StronglySorted R l -> StronglySorted R l' -> Permutation l l' ->
               l = l'.
Proof.
  intros Hanti. induction l as [| x l IH]; intros l' Hl Hl' Hp.
  - apply Permutation_nil in Hp. now subst.
  - destruct l' as [| y l'];
      [apply Permutation_sym, Permutation_nil in Hp; discriminate |].
    inversion Hl as [| ? ? Hl1 Hx]; subst.
    inversion Hl' as [| ? ? Hl1' Hy]; subst.
    rewrite List.Forall_forall in Hx, Hy.
    assert (Hxy : x = y).
    { assert (Hin : In x (y :: l')) by (apply (Permutation_in _ Hp); now left).
      assert (Hin' : In y (x :: l))
        by (apply (Permutation_in _ (Permutation_sym Hp)); now left).
      destruct Hin as [-> | Hin]; [reflexivity |].
      destruct Hin' as [-> | Hin']; [reflexivity |].
      apply Hanti; [now apply Hx | now apply Hy]. }
    subst y. f_equal. apply IH; [assumption .. |].
    now apply Permutation_cons_inv in Hp.
Qed.

End StringOrder.

Section CacheKeys.
Import RedisClient.

Lemma item_leb_total (a b : string * string) :
  item_leb a b = true \/ item_leb b a = true.
Proof.
  unfold item_leb. rewrite (String.compare_antisym (fst b) (fst a)).
  destruct (String.compare (fst a) (fst b)); cbn; auto using String.leb_total.
Qed.

Lemma item_leb_trans (a b c : string * string) :
  item_leb a b = true -> item_leb b c = true -> item_leb a c = true.
Proof.
  unfold item_leb.
  destruct (String.compare (fst a) (fst b)) eqn:Hab; try discriminate;
    destruct (String.compare (fst b) (fst c)) eqn:Hbc; try discriminate.
  - apply String.compare_eq_iff in Hab, Hbc. rewrite Hab, Hbc.
    rewrite string_compare_refl. apply string_leb_trans.
  - apply String.compare_eq_iff in Hab. now rewrite Hab, Hbc.
  - apply String.compare_eq_iff in Hbc. now rewrite <- Hbc, Hab.
  - now rewrite (string_compare_lt_trans _ _ _ Hab Hbc).
Qed.

Lemma item_leb_antisym (a b : string * string) :
  item_leb a b = true -> item_leb b a = true -> a = b.
Proof.
  unfold item_leb. rewrite (String.compare_antisym (fst b) (fst a)).
  destruct (String.compare (fst a) (fst b)) eqn:Hab; cbn; try discriminate.
  apply String.compare_eq_iff in Hab. intros H1 H2.
  destruct a, b; cbn in *. f_equal; [exact Hab |].
  now apply String.leb_antisym.
Qed.

Lemma sorted_items_order_by (l : list (string * string)) :
  sorted_items l = Db.order_by item_leb l.
Proof.
  unfold sorted_items, Db.order_by. induction l as [| x l IH]; cbn; [reflexivity |].
  rewrite IH. generalize (fold_right (Db.insert_by item_leb) [] l).
  intros m. induction m as [| y m IHm]; cbn; [reflexivity |].
  now rewrite IHm.
Qed.

(** X7. The cache key does not depend on the order in which the
    parameters are passed nor on parameters passed as [None]: two
    calls whose parameters with a value are the same up to order get
    the same key. *)
Theorem cache_key_ignores_order_and_none
        (tool_name : string) (params params' : Params) :
  Permutation (filtered_params params) (filtered_params params') ->
  get_cache_key tool_name params = get_cache_key tool_name params'.
Proof.
  intros Hp. unfold get_cache_key. do 4 f_equal.
  rewrite !sorted_items_order_by.
  apply (sorted_perm_unique (fun a b => item_leb a b = true) item_leb_antisym).
  - apply order_by_sorted; [apply item_leb_total | apply item_leb_trans].
  - apply order_by_sorted; [apply item_leb_total | apply item_leb_trans].
  - rewrite !order_by_perm. exact Hp.
Qed.

Lemma cache_key_ignores_order_and_none_witness :
  get_cache_key "getInscritos"
    [("sala", Some "Sala A"); ("dia", None); ("eventoId", Some "123")]
  = get_cache_key "getInscritos" [("eventoId", Some "123"); ("sala", Some "Sala A")].
Proof.
  apply (cache_key_ignores_order_and_none "getInscritos"
           [("sala", Some "Sala A"); ("dia", None); ("eventoId", Some "123")]
           [("eventoId", Some "123"); ("sala", Some "Sala A")]).
  cbn. apply perm_swap.
Defined.

(** X8. Different calls can share a cache key: names and values are
    joined with [=] and [&] without escaping, so one parameter whose
    value spells a second assignment is keyed like two parameters. *)
Theorem cache_keys_can_collide (tool_name k v k2 v2 : string) :
  item_leb (k, v) (k2, v2) = true ->
  get_cache_key tool_name [(k, Some (v +:+ "&" +:+ k2 +:+ "=" +:+ v2))]
  = get_cache_key tool_name [(k, Some v); (k2, Some v2)].
Proof.
  intros Hle. unfold get_cache_key, sorted_items, filtered_params.
  cbn [flat_map fst snd app fold_right insert_item]. rewrite Hle.
  reflexivity.
Qed.

Lemma cache_keys_can_collide_witness :
  get_cache_key "getEventos" [("query", Some "ia&sala=Sala A")]
  = get_cache_key "getEventos" [("query", Some "ia"); ("sala", Some "Sala A")].
Proof.
  apply (cache_keys_can_collide "getEventos" "query" "ia" "sala" "Sala A").
  reflexivity.
Defined.

End CacheKeys.

(** ** Cache client *)

Section RedisFurther.
Import RedisClient.

Context {Value : Type} (dumps : Value -> string) (loads : string -> Value).

(** An entry written without a time to live, or with a time to live
    of zero, never expires: [set] tests the argument for truth, so
    zero is stored like no expiry at all.  A negative one stores
    nothing.  In each case the other keys read as before. *)
Lemma zero_ttl_entry_never_expires
        (c : RedisCache) (now : Z) (key : string) (v : Value)
        (ttl_seconds : option Z) :
  connected c = true ->
  server_up c = true ->
  (ttl_seconds = None \/ ttl_seconds = Some 0 ->
   fst (set Value dumps c now key v ttl_seconds) = true
   /\ forall later,
       get Value loads (snd (set Value dumps c now key v ttl_seconds)) later key
       = Some (loads (dumps v)))
  /\ (forall ttl, ttl_seconds = Some ttl -> ttl < 0 ->
                  set Value dumps c now key v ttl_seconds = (false, c))
  /\ (forall key' later,
         key' <> key ->
         get Value loads (snd (set Value dumps c now key v ttl_seconds)) later key'
         = get Value loads c later key').
Proof.
  intros Hc Hs. unfold set, get. rewrite Hc, Hs. cbn [negb].
  split; [| split].
  - intros [-> | ->]; cbn [Z.eqb fst snd connected server_up negb];
      (split; [reflexivity |]); intros later;
      unfold redis_get; cbn [redis]; now rewrite lookup_insert_eq.
  - intros ttl -> Hneg.
    destruct (ttl =? 0) eqn:Hz; [apply Z.eqb_eq in Hz; lia |].
    apply Z.ltb_lt in Hneg. now rewrite Hneg.
  - intros key' later Hne.
    destruct ttl_seconds as [ttl |];
      [destruct (ttl =? 0); [| destruct (ttl <? 0)] |];
      cbn [snd connected server_up negb]; rewrite ?Hc, ?Hs; cbn [negb];
      unfold redis_get; cbn [redis];
      rewrite ?lookup_insert_ne by (intros E; now apply Hne); reflexivity.
Qed.

(** [delete] on a connected client answers [True] whether or not the
    key was there; afterwards the key does not exist and reads as a
    miss, and the other keys are as before.  [exists] agrees with
    [get]: a key exists exactly when reading it is a hit. *)
Lemma deleted_key_is_gone (c : RedisCache) (now : Z) (key : string) :
  connected c = true ->
  server_up c = true ->
  fst (delete c key) = true
  /\ exists_ (snd (delete c key)) now key = false
  /\ get Value loads (snd (delete c key)) now key = None
  /\ (forall key', key' <> key ->
                   get Value loads (snd (delete c key)) now key'
                   = get Value loads c now key')
  /\ (forall c' k, exists_ c' now k = true <-> get Value loads c' now k <> None).
Proof.
  intros Hc Hs. unfold delete. rewrite Hc, Hs. cbn [negb fst snd].
  unfold exists_, get, redis_get. cbn [connected server_up redis].
  rewrite Hc, Hs. cbn [negb]. rewrite lookup_delete_eq.
  repeat split; try reflexivity.
  - intros key' Hne. now rewrite lookup_delete_ne.
  - destruct (connected c'), (server_up c'); cbn [negb]; try discriminate.
    destruct (redis c' !! k) as [e |]; [| discriminate].
    destruct (e_expire_at e) as [t |]; [destruct (now <? t) |]; discriminate.
  - destruct (connected c'), (server_up c'); cbn [negb]; try congruence.
    destruct (redis c' !! k) as [e |]; [| congruence].
    destruct (e_expire_at e) as [t |]; [destruct (now <? t) |]; congruence.
Qed.

(** X9. Entries on a connected client whose server answers.  An
    entry written without a time to live, or with a time to live of
    zero, is read back at any later time: [set] tests the argument for
    truth, so zero means no expiry.  [delete] answers [True] whether
    or not the key was there, and afterwards the key does not exist
    and reads as a miss.  Neither touches another key, and [exists]
    holds of a key exactly when [get] finds it. *)
Theorem entries_on_a_connected_client
        (c : RedisCache) (now : Z) (key : string) (v : Value)
        (ttl_seconds : option Z) :
  connected c = true ->
  server_up c = true ->
  (ttl_seconds = None \/ ttl_seconds = Some 0 ->
   fst (set Value dumps c now key v ttl_seconds) = true
   /\ forall later,
       get Value loads (snd (set Value dumps c now key v ttl_seconds)) later key
       = Some (loads (dumps v)))
  /\ (forall ttl, ttl_seconds = Some ttl -> ttl < 0 ->
                  set Value dumps c now key v ttl_seconds = (false, c))
  /\ (fst (delete c key) = true
      /\ exists_ (snd (delete c key)) now key = false
      /\ get Value loads (snd (delete c key)) now key = None)
  /\ (forall key' later,
         key' <> key ->
         get Value loads (snd (set Value dumps c now key v ttl_seconds)) later key'
         = get Value loads c later key'
         /\ get Value loads (snd (delete c key)) later key'
            = get Value loads c later key')
  /\ (forall c' k, exists_ c' now k = true <-> get Value loads c' now k <> None).
Proof.
  intros Hc Hs.
  destruct (zero_ttl_entry_never_expires c now key v ttl_seconds Hc Hs)
    as (Hzero & Hneg & Hother).
  destruct (deleted_key_is_gone c now key Hc Hs) as (Hd1 & Hd2 & Hd3 & _ & Hex).
  split; [exact Hzero |]. split; [exact Hneg |].
  split; [now repeat split |]. split; [| exact Hex].
  intros key' later Hne. split; [now apply Hother |].
  now destruct (deleted_key_is_gone c later key Hc Hs) as (_ & _ & _ & H & _); apply H.
Qed.

(** X10. The client fails open: when it is not connected, or the
    server does not answer, every read is a miss, every write, delete
    and existence test answers [False], and nothing is changed; no
    exception leaves the client.  The entries themselves survive: once
    [connect] succeeds again they read as before. *)
Theorem cache_fails_open (c : RedisCache) (now : Z) (key : string) (v : Value)
        (ttl_seconds : option Z) (tool_name : string) (params : Params) :
  connected c = false \/ server_up c = false ->
  get Value loads c now key = None
  /\ set Value dumps c now key v ttl_seconds = (false, c)
  /\ delete c key = (false, c)
  /\ exists_ c now key = false
  /\ cache_get Value loads c now tool_name params = None
  /\ cache_set Value dumps c now tool_name v params = (false, c)
  /\ (forall c0, server_up c0 = true ->
                 get Value loads (connect (disconnect c0)) now key
                 = option_map loads (redis_get c0 now key))
  /\ (forall c0, get Value loads (disconnect c0) now key = None)
  /\ (forall c0, server_up c0 = false -> connected (connect c0) = false).
Proof.
  intros Hdown.
  assert (Hget : get Value loads c now key = None
                 /\ forall k, get Value loads c now k = None).
  { unfold get. destruct Hdown as [-> | ->]; [now split |].
    destruct (connected c); now split. }
  assert (Hset : forall k t, set Value dumps c now k v t = (false, c)).
  { intros k t. unfold set. destruct Hdown as [-> | ->]; [reflexivity |].
    now destruct (connected c). }
  unfold cache_get, cache_set.
  repeat split.
  - apply Hget.
  - apply Hset.
  - unfold delete. destruct Hdown as [-> | ->]; [reflexivity |].
    now destruct (connected c).
  - unfold exists_. destruct Hdown as [-> | ->]; [reflexivity |].
    now destruct (connected c).
  - destruct (_ =? 0); [reflexivity | apply Hget].
  - destruct (_ =? 0); [reflexivity | apply Hset].
  - intros c0 Hup. unfold get, connect, disconnect. cbn [connected server_up].
    rewrite Hup. cbn [negb]. unfold redis_get. cbn [redis].
    now destruct (redis c0 !! key).
  - intros c0 Hup. unfold connect. cbn. exact Hup.
Qed.

End RedisFurther.

Section RedisWitnesses.
Import RedisClient.

Lemma entries_on_a_connected_client_witness :
  get string (fun s => s)
      (snd (set string (fun s => s) warm_cache 0 "k" "v" (Some 0))) 1000000 "k"
  = Some "v"
  /\ get string (fun s => s) (snd (delete warm_cache "mcp:getEventos:")) 10
         "mcp:getEventos:" = None.
Proof.
  split.
  - refine (proj2 (proj1 (entries_on_a_connected_client
                            (fun s => s) (fun s => s) warm_cache 0 "k" "v" (Some 0)
                            eq_refl eq_refl) _) 1000000).
    now right.
  - exact (proj2 (proj2 (proj1 (proj2 (proj2
             (entries_on_a_connected_client
                (fun s => s) (fun s => s) warm_cache 10 "mcp:getEventos:" "v" None
                eq_refl eq_refl)))))).
Defined.

Lemma cache_fails_open_witness :
  cache_get string (fun s => s) (disconnect warm_cache) 10 "getEventos" [] = None.
Proof.
  refine (proj1 (proj2 (proj2 (proj2 (proj2
            (cache_fails_open (fun s => s) (fun s => s) (disconnect warm_cache)
                              10 "k" "v" None "getEventos" [] _)))))).
  now left.
Defined.

End RedisWitnesses.

(** ** What the handlers change *)

Section HandlersFurther.
Import Db Queries Schemas Services.

(** Runs a handler through its prelude, its admission check and its
    service call, leaving the goal at each outcome. *)
Ltac run_handler h :=
  intros cfg w rq input_data; unfold h;
  destruct (Tools.prelude _ _ rq input_data) as [[user i] | x]; cbn [fst snd];
  [ destruct (Auth.check_rate_limit cfg (Tools.limiter w) (Tools.rq_time rq) user _)
      as [[[] | x] rl]; cbn [fst snd]
  | ].

(** X11. The six read handlers write nothing: whatever the request
    and its outcome, the database and the cache are afterwards what
    they were.  The write handler leaves the cache and the tables of
    events, registrations and inscriptions as they were. *)
Theorem read_handlers_write_nothing :
  writes_nothing Tools.get_eventos
  /\ writes_nothing Tools.get_inscritos
  /\ writes_nothing Tools.get_aforo
  /\ writes_nothing Tools.get_estadisticas
  /\ writes_nothing Tools.buscar_registro
  /\ writes_nothing Tools.mapa_sala_evento
  /\ (forall cfg w rq input_data,
         let w' := snd (Tools.confirmar_asistencia cfg w rq input_data) in
         Tools.cache w' = Tools.cache w
         /\ eventos (Tools.db w') = eventos (Tools.db w)
         /\ registros (Tools.db w') = registros (Tools.db w)
         /\ registro_eventos (Tools.db w') = registro_eventos (Tools.db w)).
Proof.
  repeat apply conj.
  - run_handler Tools.get_eventos; split; reflexivity.
  - run_handler Tools.get_inscritos; try (split; reflexivity).
    destruct (InscritosService.get_inscritos _ i) as [r | x]; split; reflexivity.
  - run_handler Tools.get_aforo; try (split; reflexivity).
    destruct (InscritosService.get_aforo _ i) as [[r |] | x]; split; reflexivity.
  - run_handler Tools.get_estadisticas; try (split; reflexivity).
    destruct (EstadisticasService.get_estadisticas _ i) as [log [r | x]];
      split; reflexivity.
  - run_handler Tools.buscar_registro; split; reflexivity.
  - run_handler Tools.mapa_sala_evento; split; reflexivity.
  - run_handler Tools.confirmar_asistencia; try (repeat split; reflexivity).
    unfold AsistenciaService.confirmar_asistencia,
      AsistenciaQueries.confirmar_asistencia. cbn [Tools.db Tools.with_limiter].
    destruct (AsistenciaQueries.scalar_one_or_none _) as [[ex |] | x];
      cbn [negb]; try (repeat split; reflexivity).
    destruct (fk_enforced (Tools.db w) && _); repeat split; reflexivity.
Qed.

(** X12. Rate limiting comes after authentication, authorisation and
    validation of the body, in every handler: a request turned away by
    one of them changes nothing at all, so it uses none of the caller's
    budget, and a request that gets past them, whatever its outcome,
    costs exactly one check under the caller's key for the tool.
    Authentication and authorisation turn a request away with 401,
    with 403, or with the [AttributeError] of the token check, which
    is no HTTP error. *)
Theorem rate_limit_counts_only_accepted_requests :
  (forall tool d x,
      Auth.require_permission tool d = Raise x ->
      x = HTTPException 401 (DetailText "Could not validate credentials")
      \/ x = HTTPException 403 (DetailText ("Permission '" +:+ tool +:+ "' required"))
      \/ x = AttributeError "module 'jwt' has no attribute 'JWTError'")
  /\
  counts_after_prelude "getEventos" validate_GetEventosInput Tools.get_eventos
  /\ counts_after_prelude "getInscritos" validate_GetInscritosInput Tools.get_inscritos
  /\ counts_after_prelude "getAforo" Ok Tools.get_aforo
  /\ counts_after_prelude "confirmarAsistencia" validate_ConfirmarAsistenciaInput
                          Tools.confirmar_asistencia
  /\ counts_after_prelude "getEstadisticas" validate_GetEstadisticasInput
                          Tools.get_estadisticas
  /\ counts_after_prelude "buscarRegistro" validate_BuscarRegistroInput
                          Tools.buscar_registro
  /\ counts_after_prelude "mapaSalaEvento" Ok Tools.mapa_sala_evento.
Proof.
  split.
  { intros tool d x.
    unfold Auth.require_permission, Auth.get_current_user, Auth.verify_token.
    destruct d as [[[uid |] [uname |] [role_str |]] | |]; cbn;
      try (intros [= <-]; auto).
    destruct (Auth.UserRole_of_value role_str) as [ro | y]; cbn;
      [| intros [= <-]; auto].
    unfold Auth.permission_checker. cbn [Auth.permissions].
    destruct (py_in tool (Auth.ROLE_PERMISSIONS ro)); cbn [negb];
      [discriminate | intros [= <-]; auto]. }
  repeat split; intros cfg w rq input_data.
  - unfold Tools.get_eventos.
    destruct (Tools.prelude _ _ rq input_data) as [[user i] | x]; [| reflexivity].
    destruct (Auth.check_rate_limit _ _ _ _ _) as [[[] | x] rl]; [| reflexivity].
    now destruct (EventosService.get_eventos _ i) as [log [r | x]].
  - unfold Tools.get_inscritos.
    destruct (Tools.prelude _ _ rq input_data) as [[user i] | x]; [| reflexivity].
    destruct (Auth.check_rate_limit _ _ _ _ _) as [[[] | x] rl]; [| reflexivity].
    now destruct (InscritosService.get_inscritos _ i) as [r | x].
  - unfold Tools.get_aforo.
    destruct (Tools.prelude _ _ rq input_data) as [[user i] | x]; [| reflexivity].
    destruct (Auth.check_rate_limit _ _ _ _ _) as [[[] | x] rl]; [| reflexivity].
    now destruct (InscritosService.get_aforo _ i) as [[r |] | x].
  - unfold Tools.confirmar_asistencia.
    destruct (Tools.prelude _ _ rq input_data) as [[user i] | x]; [| reflexivity].
    destruct (Auth.check_rate_limit _ _ _ _ _) as [[[] | x] rl]; [| reflexivity].
    now destruct (AsistenciaService.confirmar_asistencia _ _ _ _ _ _)
      as [[[r |] | x] db'].
  - unfold Tools.get_estadisticas.
    destruct (Tools.prelude _ _ rq input_data) as [[user i] | x]; [| reflexivity].
    destruct (Auth.check_rate_limit _ _ _ _ _) as [[[] | x] rl]; [| reflexivity].
    now destruct (EstadisticasService.get_estadisticas _ i) as [log [r | x]].
  - unfold Tools.buscar_registro.
    destruct (Tools.prelude _ _ rq input_data) as [[user i] | x]; [| reflexivity].
    now destruct (Auth.check_rate_limit _ _ _ _ _) as [[[] | x] rl].
  - unfold Tools.mapa_sala_evento.
    destruct (Tools.prelude _ _ rq input_data) as [[user i] | x]; [| reflexivity].
    now destruct (Auth.check_rate_limit _ _ _ _ _) as [[[] | x] rl].
Qed.

End HandlersFurther.

(** ** Repeated confirmations *)

Section AsistenciaFurther.
Import Db Queries Schemas Services.
Import Queries.AsistenciaQueries.

Lemma primary_key_unique (db : Database) (a b : ExpoAsistenciasPorSala) :
  primary_key_ok db ->
  In a (asistencias_por_sala db) -> In b (asistencias_por_sala db) ->
  as_id a = as_id b -> a = b.
Proof.
  unfold primary_key_ok.
  induction (asistencias_por_sala db) as [| x l IH]; [easy |].
  cbn. intros Hnd. apply NoDup_cons in Hnd as [Hnot Hnd].
  intros [-> | Ha] [-> | Hb] Heq; auto.
  - exfalso. apply Hnot. rewrite list_elem_of_In, Heq. now apply in_map.
  - exfalso. apply Hnot. rewrite list_elem_of_In, <- Heq. now apply in_map.
Qed.

Lemma update_existing_idem (v : string) (obs ip : option string) (now : Z)
      (a : ExpoAsistenciasPorSala) :
  update_existing v obs ip now (update_existing v obs ip now a)
  = update_existing v obs ip now a.
Proof.
  unfold update_existing. cbn. now destruct (truthy ip), (truthy obs).
Qed.

Lemma map_id_on {A} (f : A -> A) (l : list A) :
  (forall a, In a l -> f a = a) -> map f l = l.
Proof.
  induction l as [| x l IH]; intros H; cbn; [reflexivity |].
  rewrite (H x (or_introl eq_refl)), IH; [reflexivity |].
  intros a Ha. apply H. now right.
Qed.

(** The service passes the query's outcome on: its answer on success
    is fixed by the request and the service clock. *)
Lemma confirm_query (db : Database) (c : Call) :
  let q := confirmar_asistencia db (c_db_now c)
             (ca_registroId (c_input c)) (ca_eventoId (c_input c))
             (ca_estado (c_input c)) (c_verifier c)
             (ca_observacion (c_input c)) (c_ip c) in
  confirm db c =
  (match fst q with
   | Ok _ => Ok (Some {| co_ok := true; co_timestamp := c_utcnow c;
                         co_registroId := ca_registroId (c_input c);
                         co_eventoId := ca_eventoId (c_input c) |})
   | Raise x => Raise x
   end, snd q).
Proof.
  intros q. subst q. unfold confirm, AsistenciaService.confirmar_asistencia.
  pose proof (query_result_cases db (c_db_now c)
                (ca_registroId (c_input c)) (ca_eventoId (c_input c))
                (ca_estado (c_input c)) (c_verifier c)
                (ca_observacion (c_input c)) (c_ip c)) as Hq.
  destruct (confirmar_asistencia _ _ _ _ _ _ _ _) as [res db'].
  cbn [fst snd] in *. destruct Hq as [-> | [-> | ->]]; reflexivity.
Qed.

Lemma query_unfold (db : Database) (now r e : Z) (estado v : string)
      (obs ip : option string) :
  confirmar_asistencia db now r e estado v obs ip =
  match scalar_one_or_none
          (List.filter (same_pair r e) (asistencias_por_sala db)) with
  | Raise x => (Raise x, db)
  | Ok (Some existing) =>
      (Ok true,
       with_asistencias db
         (map (fun a => if as_id a =? as_id existing
                        then update_existing v obs ip now existing else a)
              (asistencias_por_sala db)))
  | Ok None =>
      if fk_enforced db && negb (fk_ok db r e)
      then (Raise IntegrityError, db)
      else (Ok true,
            with_asistencias db
              (asistencias_por_sala db
               ++ [{| as_id := next_as_id db;
                      as_registro_id := r;
                      as_evento_id := e;
                      as_qr_escaneado :=
                        if truthy (select_qr_code db r)
                        then default "" (select_qr_code db r)
                        else "manual_" +:+ str_of_Z r +:+ "_" +:+ str_of_Z e;
                      as_fecha_ingreso := Some now;
                      as_asesor_verificador := v;
                      as_ip_verificacion := ip;
                      as_notas := obs |}]))
  end.
Proof. reflexivity. Qed.

(** The store after repeating a query call at the same database time. *)
Lemma query_idempotent (db : Database) (now r e : Z) (estado v : string)
      (obs ip : option string) :
  let q := confirmar_asistencia db now r e estado v obs ip in
  let q2 := confirmar_asistencia (snd q) now r e estado v obs ip in
  snd q2 = snd q /\ (primary_key_ok db -> fst q2 = fst q).
Proof.
  cbv zeta. rewrite (query_unfold db).
  destruct (List.filter (same_pair r e) (asistencias_por_sala db))
    as [| ex [| ex2 rest]] eqn:Hf; cbn [scalar_one_or_none].
  - (* create path *)
    destruct (fk_enforced db && negb (fk_ok db r e)) eqn:Hfk; cbn [fst snd].
    + rewrite query_unfold, Hf, Hfk. now split.
    + set (new := {| as_id := next_as_id db; as_registro_id := r |}).
      rewrite query_unfold.
      cbn [with_asistencias asistencias_por_sala].
      rewrite List.filter_app, Hf.
      assert (Hnew : same_pair r e new = true)
        by (apply same_pair_true; split; reflexivity).
      cbn [List.filter app]. rewrite Hnew. cbn [scalar_one_or_none fst snd].
      split; [| reflexivity].
      unfold with_asistencias. cbn. f_equal.
      rewrite List.map_app. cbn [map]. rewrite Z.eqb_refl. f_equal.
      * apply map_id_on. intros a Ha.
        pose proof (next_as_id_fresh 0 0 db a Ha) as Hlt.
        destruct (as_id a =? next_as_id db) eqn:E; [| reflexivity].
        apply Z.eqb_eq in E. lia.
      * f_equal. unfold update_existing, new. cbn.
        now destruct (truthy ip), (truthy obs).
  - (* update path *)
    cbn [fst snd].
    assert (Hex : In ex (asistencias_por_sala db) /\ same_pair r e ex = true).
    { apply filter_In. rewrite Hf. now left. }
    destruct Hex as [Hin Hpair].
    set (upd := update_existing v obs ip now ex).
    set (f := fun a => if as_id a =? as_id ex then upd else a).
    assert (Hupd : same_pair r e upd = true) by exact Hpair.
    assert (Hfex : f ex = upd) by (unfold f; now rewrite Z.eqb_refl).
    assert (Hmem : In upd (List.filter (same_pair r e)
                             (map f (asistencias_por_sala db)))).
    { apply filter_In. split; [| exact Hupd]. rewrite <- Hfex. now apply in_map. }
    assert (Hall : forall x, In x (List.filter (same_pair r e)
                                     (map f (asistencias_por_sala db))) -> x = upd).
    { intros x Hx. apply filter_In in Hx as [Hx Hxp].
      apply in_map_iff in Hx as [a [<- Ha]]. unfold f in *.
      destruct (as_id a =? as_id ex) eqn:E; [reflexivity |].
      assert (Ha' : In a [ex]) by (rewrite <- Hf; apply filter_In; now split).
      destruct Ha' as [<- | []]. now rewrite Z.eqb_refl in E. }
    assert (Hagain : map (fun a => if as_id a =? as_id upd
                                   then update_existing v obs ip now upd else a)
                         (map f (asistencias_por_sala db))
                     = map f (asistencias_por_sala db)).
    { rewrite List.map_map. apply map_ext. intros a. unfold f, upd.
      rewrite update_existing_idem.
      destruct (as_id a =? as_id ex) eqn:E; cbn [as_id update_existing].
      - now rewrite Z.eqb_refl.
      - now rewrite E. }
    rewrite query_unfold. cbn [with_asistencias asistencias_por_sala].
    destruct (List.filter (same_pair r e) (map f (asistencias_por_sala db)))
      as [| x [| y l]] eqn:Hf2; cbn [scalar_one_or_none fst snd].
    + destruct Hmem.
    + rewrite (Hall x (or_introl eq_refl)). split; [| reflexivity].
      unfold with_asistencias. cbn. f_equal. exact Hagain.
    + split; [reflexivity |]. intros Hpk. exfalso.
      assert (Hcomm : List.filter (same_pair r e) (map f (asistencias_por_sala db))
                      = [upd]).
      { rewrite filter_map_commute.
        - rewrite Hf. cbn. now rewrite Hfex.
        - intros a Ha. unfold f. destruct (as_id a =? as_id ex) eqn:E; [| reflexivity].
          apply Z.eqb_eq in E.
          rewrite (primary_key_unique db a ex Hpk Ha Hin E). now rewrite Hupd, Hpair. }
      rewrite Hcomm in Hf2. discriminate.
  - cbn [fst snd]. rewrite query_unfold, Hf. now split.
Qed.

(** X13. A repeated confirmation changes nothing: the same call made
    again at the same clock readings leaves the store exactly as the
    first call left it, and on a table with unique primary keys it is
    given the same answer. *)
Theorem repeated_confirmation_changes_nothing (db : Database) (c : Call) :
  primary_key_ok db ->
  confirm (snd (confirm db c)) c = confirm db c
  /\ (forall db0, snd (confirm (snd (confirm db0 c)) c) = snd (confirm db0 c)).
Proof.
  intros Hpk.
  assert (Hstore : forall db0, snd (confirm (snd (confirm db0 c)) c)
                               = snd (confirm db0 c)).
  { intros db0. rewrite !confirm_query. cbn [snd].
    apply (query_idempotent db0). }
  split; [| exact Hstore].
  specialize (Hstore db). rewrite !confirm_query in *. cbn [snd] in *.
  rewrite Hstore. f_equal.
  now rewrite (proj2 (query_idempotent db _ _ _ _ _ _ _) Hpk).
Qed.

Lemma repeated_confirmation_changes_nothing_witness :
  confirm (snd (confirm empty_db (sample_call 1037 123 "maria_recepcion" 100)))
          (sample_call 1037 123 "maria_recepcion" 100)
  = confirm empty_db (sample_call 1037 123 "maria_recepcion" 100).
Proof.
  apply (repeated_confirmation_changes_nothing
           empty_db (sample_call 1037 123 "maria_recepcion" 100)).
  constructor.
Defined.

End AsistenciaFurther.

(** ** Outcomes of a confirmation *)

Section AsistenciaOutcomes.
Import Db Queries Schemas Services.
Import Queries.AsistenciaQueries.

Lemma prelude_inv {I} (tool : string) (validate : I -> Resultado I)
      (rq : Tools.Request) (i i' : I) (user : Auth.MCPUser) :
  Tools.prelude tool validate rq i = Ok (user, i') ->
  Auth.get_current_user (Tools.credentials rq) = Ok user
  /\ py_in tool (Auth.permissions user) = true
  /\ validate i = Ok i'.
Proof.
  unfold Tools.prelude, Auth.require_permission.
  destruct (Auth.get_current_user (Tools.credentials rq)) as [u | x];
    cbn [bind]; [| discriminate].
  unfold Auth.permission_checker.
  destruct (py_in tool (Auth.permissions u)) eqn:Hperm; cbn [negb bind];
    [| discriminate].
  destruct (validate i) as [j | x]; cbn [bind]; [| discriminate].
  intros [= <- <-]. now repeat split.
Qed.

Lemma query_raise_unchanged (db : Database) (now r e : Z) (estado v : string)
      (obs ip : option string) (x : Excepcion) :
  fst (confirmar_asistencia db now r e estado v obs ip) = Raise x ->
  snd (confirmar_asistencia db now r e estado v obs ip) = db.
Proof.
  rewrite query_unfold.
  destruct (List.filter (same_pair r e) (asistencias_por_sala db))
    as [| ex [| ex2 rest]]; cbn [scalar_one_or_none]; try discriminate;
    [| reflexivity].
  destruct (fk_enforced db && negb (fk_ok db r e)); [reflexivity | discriminate].
Qed.

(** The rows of a pair after the update of its one row. *)
Lemma updated_rows (l : list ExpoAsistenciasPorSala) (r e : Z)
      (ex upd : ExpoAsistenciasPorSala) :
  List.filter (same_pair r e) l = [ex] ->
  same_pair r e upd = true ->
  let f := fun a => if as_id a =? as_id ex then upd else a in
  In upd (List.filter (same_pair r e) (map f l))
  /\ forall x, In x (List.filter (same_pair r e) (map f l)) -> x = upd.
Proof.
  intros Hf Hupd f.
  assert (Hex : In ex l /\ same_pair r e ex = true)
    by (apply filter_In; rewrite Hf; now left).
  destruct Hex as [Hin Hpair].
  assert (Hfex : f ex = upd) by (unfold f; now rewrite Z.eqb_refl).
  split.
  - apply filter_In. split; [| exact Hupd]. rewrite <- Hfex. now apply in_map.
  - intros x Hx. apply filter_In in Hx as [Hx Hxp].
    apply in_map_iff in Hx as [a [<- Ha]]. unfold f in *.
    destruct (as_id a =? as_id ex) eqn:E; [reflexivity |].
    assert (Ha' : In a [ex]) by (rewrite <- Hf; apply filter_In; now split).
    destruct Ha' as [<- | []]. now rewrite Z.eqb_refl in E.
Qed.

Lemma query_success_records (db : Database) (now r e : Z) (estado v : string)
      (obs ip : option string) :
  fst (confirmar_asistencia db now r e estado v obs ip) = Ok true ->
  let db' := snd (confirmar_asistencia db now r e estado v obs ip) in
  records_for r e db' <> []
  /\ forall a, In a (records_for r e db') ->
               as_fecha_ingreso a = Some now /\ as_asesor_verificador a = v.
Proof.
  rewrite query_unfold. unfold records_for.
  destruct (List.filter (same_pair r e) (asistencias_por_sala db))
    as [| ex [| ex2 rest]] eqn:Hf; cbn [scalar_one_or_none]; try discriminate.
  - destruct (fk_enforced db && negb (fk_ok db r e)); [discriminate |].
    intros _. cbn [fst snd with_asistencias asistencias_por_sala].
    rewrite List.filter_app, Hf. cbn [List.filter app].
    match goal with
    | |- context [same_pair r e ?n] =>
        assert (Hnew : same_pair r e n = true)
          by (apply same_pair_true; split; reflexivity);
        rewrite Hnew
    end.
    split; [discriminate |]. intros a [<- | []]. now split.
  - intros _. cbn [fst snd with_asistencias asistencias_por_sala].
    assert (Hpair : same_pair r e ex = true).
    { apply (proj2 (proj1 (filter_In _ ex _) ltac:(rewrite Hf; now left))). }
    destruct (updated_rows _ r e ex (update_existing v obs ip now ex) Hf Hpair)
      as [Hmem Hall].
    split.
    + intros Hnil. rewrite Hnil in Hmem. destruct Hmem.
    + intros a Ha. rewrite (Hall a Ha). now split.
Qed.

(** X14. A failed confirmation stores nothing: whenever the write
    handler answers with an error, whether 401, 403, 422, 429 or 500,
    the database is afterwards exactly what it was. *)
Theorem failed_confirmation_writes_nothing
        (cfg : Settings) (w : Tools.World) (rq : Tools.Request)
        (i : ConfirmarAsistenciaInput) :
  is_ok (fst (Tools.confirmar_asistencia cfg w rq i)) = false ->
  Tools.db (snd (Tools.confirmar_asistencia cfg w rq i)) = Tools.db w.
Proof.
  unfold Tools.confirmar_asistencia.
  destruct (Tools.prelude _ _ rq i) as [[user i'] | x]; [| reflexivity].
  destruct (Auth.check_rate_limit _ _ _ _ _) as [[[] | x] rl]; [| reflexivity].
  change (AsistenciaService.confirmar_asistencia
            (Tools.db (Tools.with_limiter w rl)) (Tools.rq_db_time rq)
            (Tools.rq_utcnow rq) i' (Auth.username user) (Tools.client_host rq))
    with (confirm (Tools.db w) (call_of user rq i')).
  rewrite confirm_query.
  destruct (fst (confirmar_asistencia _ _ _ _ _ _ _ _)) as [b | x] eqn:Hq;
    cbn [fst snd is_ok]; [discriminate |].
  intros _. cbn [Tools.db Tools.with_db]. now apply query_raise_unchanged in Hq.
Qed.

Lemma failed_confirmation_writes_nothing_witness :
  Tools.db (snd (Tools.confirmar_asistencia default_settings (world_of fk_checked_db)
                   (request_of (token_of "staff_001" "maria_recepcion"
                                         Auth.STAFF_PUERTA) 1000)
                   (c_input (sample_call 9999 123 "" 0))))
  = fk_checked_db.
Proof.
  apply (failed_confirmation_writes_nothing default_settings (world_of fk_checked_db)).
  reflexivity.
Defined.

(** X15. What a successful confirmation answers and stores: the
    answer repeats the two identifiers of the request and carries the
    service's own clock reading, while every row then stored for the
    pair, and there is one, carries the database's clock reading and
    the user name of the authenticated caller.  The two times come
    from different clocks. *)
Theorem confirmation_answer_and_record
        (cfg : Settings) (w w' : Tools.World) (rq : Tools.Request)
        (i : ConfirmarAsistenciaInput) (out : ConfirmarAsistenciaOutput) :
  Tools.confirmar_asistencia cfg w rq i = (Ok out, w') ->
  out = {| co_ok := true; co_timestamp := Tools.rq_utcnow rq;
           co_registroId := ca_registroId i; co_eventoId := ca_eventoId i |}
  /\ records_for (ca_registroId i) (ca_eventoId i) (Tools.db w') <> []
  /\ exists user,
      Auth.get_current_user (Tools.credentials rq) = Ok user
      /\ forall a, In a (records_for (ca_registroId i) (ca_eventoId i) (Tools.db w')) ->
                   as_fecha_ingreso a = Some (Tools.rq_db_time rq)
                   /\ as_asesor_verificador a = Auth.username user.
Proof.
  unfold Tools.confirmar_asistencia.
  destruct (Tools.prelude _ _ rq i) as [[user i'] | x] eqn:Hp; [| discriminate].
  apply prelude_inv in Hp as (Huser & _ & Hval).
  assert (i' = i) as ->.
  { revert Hval. unfold validate_ConfirmarAsistenciaInput.
    destruct (ca_observacion i) as [o |]; [destruct (Nat.leb _ _) |];
      cbv beta iota; try discriminate; now intros [= <-]. }
  destruct (Auth.check_rate_limit _ _ _ _ _) as [[[] | x] rl]; [| discriminate].
  change (AsistenciaService.confirmar_asistencia
            (Tools.db (Tools.with_limiter w rl)) (Tools.rq_db_time rq)
            (Tools.rq_utcnow rq) i (Auth.username user) (Tools.client_host rq))
    with (confirm (Tools.db w) (call_of user rq i)).
  rewrite confirm_query. cbn [c_input c_db_now c_utcnow c_verifier c_ip call_of].
  pose proof (query_result_cases (Tools.db w) (Tools.rq_db_time rq)
                (ca_registroId i) (ca_eventoId i) (ca_estado i)
                (Auth.username user) (ca_observacion i) (Tools.client_host rq)) as Hc.
  pose proof (query_success_records (Tools.db w) (Tools.rq_db_time rq)
                (ca_registroId i) (ca_eventoId i) (ca_estado i)
                (Auth.username user) (ca_observacion i) (Tools.client_host rq)) as Hs.
  destruct Hc as [Hq | [Hq | Hq]]; rewrite Hq in *; try discriminate.
  intros [= <- <-]. cbn [Tools.db Tools.with_db].
  destruct (Hs eq_refl) as [Hne Hall].
  split; [reflexivity |]. split; [exact Hne |].
  exists user. split; [exact Huser | exact Hall].
Qed.

Lemma confirmation_answer_and_record_witness :
  exists w',
    Tools.confirmar_asistencia default_settings (world_of empty_db)
      {| Tools.credentials := token_of "staff_001" "maria_recepcion" Auth.STAFF_PUERTA;
         Tools.client_host := None; Tools.rq_time := 0;
         Tools.rq_db_time := 1000; Tools.rq_utcnow := 1002 |}
      (c_input (sample_call 1037 123 "" 0))
    = (Ok {| co_ok := true; co_timestamp := 1002;
             co_registroId := 1037; co_eventoId := 123 |}, w')
    /\ forall a, In a (records_for 1037 123 (Tools.db w')) ->
                 as_fecha_ingreso a = Some 1000.
Proof.
  eexists. split; [reflexivity |].
  intros a Ha.
  destruct (confirmation_answer_and_record default_settings (world_of empty_db) _
              {| Tools.credentials :=
                   token_of "staff_001" "maria_recepcion" Auth.STAFF_PUERTA;
                 Tools.client_host := None; Tools.rq_time := 0;
                 Tools.rq_db_time := 1000; Tools.rq_utcnow := 1002 |}
              (c_input (sample_call 1037 123 "" 0)) _ eq_refl)
    as (_ & _ & user & _ & Hall).
  exact (proj1 (Hall a Ha)).
Defined.

(** X16. A confirmation touches one pair only: on a table with
    unique primary keys, the rows stored for any other registration
    and event are afterwards what they were. *)
Theorem confirmation_touches_one_pair
        (db : Database) (c : Call) (r' e' : Z) :
  primary_key_ok db ->
  (r', e') <> (ca_registroId (c_input c), ca_eventoId (c_input c)) ->
  records_for r' e' (snd (confirm db c)) = records_for r' e' db.
Proof.
  intros Hpk Hne. rewrite confirm_query. cbn [snd]. rewrite query_unfold.
  set (r := ca_registroId (c_input c)) in *.
  set (e := ca_eventoId (c_input c)) in *.
  unfold records_for.
  assert (Hother : forall a, same_pair r e a = true -> same_pair r' e' a = false).
  { intros a Ha. apply same_pair_true in Ha as [Hr He].
    destruct (same_pair r' e' a) eqn:E; [| reflexivity].
    apply same_pair_true in E as [Hr' He']. exfalso. apply Hne. congruence. }
  destruct (List.filter (same_pair r e) (asistencias_por_sala db))
    as [| ex [| ex2 rest]] eqn:Hf; cbn [scalar_one_or_none snd]; [| | reflexivity].
  - destruct (fk_enforced db && negb (fk_ok db r e)); [reflexivity |].
    cbn [snd with_asistencias asistencias_por_sala].
    rewrite List.filter_app. cbn [List.filter].
    rewrite Hother by (apply same_pair_true; split; reflexivity).
    apply app_nil_r.
  - cbn [with_asistencias asistencias_por_sala].
    assert (Hex : In ex (asistencias_por_sala db) /\ same_pair r e ex = true)
      by (apply filter_In; rewrite Hf; now left).
    destruct Hex as [Hin Hpair].
    set (upd := update_existing _ _ _ _ ex).
    assert (Hupd : same_pair r e upd = true) by exact Hpair.
    rewrite filter_map_commute.
    + apply map_id_on. intros a Ha. apply filter_In in Ha as [Ha Hp].
      destruct (as_id a =? as_id ex) eqn:E; [| reflexivity].
      apply Z.eqb_eq in E. rewrite (primary_key_unique db a ex Hpk Ha Hin E) in Hp.
      rewrite (Hother ex Hpair) in Hp. discriminate.
    + intros a Ha. destruct (as_id a =? as_id ex) eqn:E; [| reflexivity].
      apply Z.eqb_eq in E. rewrite (primary_key_unique db a ex Hpk Ha Hin E).
      now rewrite (Hother ex Hpair), (Hother upd Hupd).
Qed.

Lemma confirmation_touches_one_pair_witness :
  records_for 1037 123 (snd (confirm noted_db (sample_call 2001 123 "maria_recepcion" 100)))
  = records_for 1037 123 noted_db.
Proof.
  apply (confirmation_touches_one_pair
           noted_db (sample_call 2001 123 "maria_recepcion" 100) 1037 123).
  - repeat constructor. intros H. inversion H.
  - discriminate.
Defined.



End AsistenciaOutcomes.

(** ** Events and capacity *)

Section DateOrder.

Lemma date_compare_spec (a b : Date) :
  CompareSpec (a = b) (date_lt a b) (date_lt b a) (date_compare a b).
Proof.
  unfold date_compare, date_lt. destruct a as [ya ma da], b as [yb mb db]. cbn.
  destruct (Z.compare_spec ya yb); [| constructor; lia ..].
  destruct (Z.compare_spec ma mb); [| constructor; lia ..].
  destruct (Z.compare_spec da db); constructor; [congruence | lia ..].
Qed.

Lemma date_lt_compare (a b : Date) : date_lt a b -> date_compare a b = Lt.
Proof.
  intros H. destruct (date_compare_spec a b) as [-> | _ | H'];
    [| reflexivity |]; unfold date_lt in *; lia.
Qed.

Lemma date_compare_refl (a : Date) : date_compare a a = Eq.
Proof.
  unfold date_compare. now rewrite !Z.compare_refl.
Qed.

Lemma date_eqb_eq (a b : Date) : date_eqb a b = true <-> a = b.
Proof.
  unfold date_eqb. split.
  - destruct (date_compare_spec a b); [easy | discriminate ..].
  - intros ->. now rewrite date_compare_refl.
Qed.

End DateOrder.

Section EventosFurther.
Import Db Queries Schemas Services.
Import Queries.EventosQueries.

Lemma fecha_hora_leb_total (a b : ExpoEventos) :
  fecha_hora_leb a b = true \/ fecha_hora_leb b a = true.
Proof.
  unfold fecha_hora_leb.
  destruct (date_compare_spec (ev_fecha a) (ev_fecha b)) as [E | H | H].
  - rewrite E, date_compare_refl. apply String.leb_total.
  - now left.
  - right. now rewrite (date_lt_compare _ _ H).
Qed.

Lemma fecha_hora_leb_trans (a b c : ExpoEventos) :
  fecha_hora_leb a b = true -> fecha_hora_leb b c = true ->
  fecha_hora_leb a c = true.
Proof.
  unfold fecha_hora_leb.
  destruct (date_compare_spec (ev_fecha a) (ev_fecha b)) as [E1 | H1 | H1];
    try discriminate;
    destruct (date_compare_spec (ev_fecha b) (ev_fecha c)) as [E2 | H2 | H2];
    try discriminate.
  - rewrite E1, E2, date_compare_refl. apply string_leb_trans.
  - intros _ _. rewrite E1. now rewrite (date_lt_compare _ _ H2).
  - intros _ _. rewrite <- E2. now rewrite (date_lt_compare _ _ H1).
  - intros _ _. rewrite (date_lt_compare (ev_fecha a) (ev_fecha c)); [reflexivity |].
    unfold date_lt in *. lia.
Qed.

Lemma sala_hora_leb_total (a b : ExpoEventos) :
  sala_hora_leb a b = true \/ sala_hora_leb b a = true.
Proof.
  unfold sala_hora_leb. rewrite (String.compare_antisym (ev_sala b) (ev_sala a)).
  destruct (String.compare (ev_sala a) (ev_sala b)); cbn; auto using String.leb_total.
Qed.

Lemma sala_hora_leb_trans (a b c : ExpoEventos) :
  sala_hora_leb a b = true -> sala_hora_leb b c = true -> sala_hora_leb a c = true.
Proof.
  unfold sala_hora_leb.
  destruct (String.compare (ev_sala a) (ev_sala b)) eqn:Hab; try discriminate;
    destruct (String.compare (ev_sala b) (ev_sala c)) eqn:Hbc; try discriminate.
  - apply String.compare_eq_iff in Hab, Hbc. rewrite Hab, Hbc.
    rewrite string_compare_refl. apply string_leb_trans.
  - apply String.compare_eq_iff in Hab. now rewrite Hab, Hbc.
  - apply String.compare_eq_iff in Hbc. now rewrite <- Hbc, Hab.
  - now rewrite (string_compare_lt_trans _ _ _ Hab Hbc).
Qed.

Lemma limit_offset_length {A} (n k : Z) (l : list A) :
  0 <= n -> Z.of_nat (length (limit_offset n k l)) <= n.
Proof.
  intros Hn. unfold limit_offset. rewrite length_firstn. lia.
Qed.

Lemma In_limit_offset {A} (n k : Z) (l : list A) (x : A) :
  In x (limit_offset n k l) -> In x l.
Proof.
  unfold limit_offset. intros H. apply In_firstn_In in H. now apply In_skipn_In in H.
Qed.

Lemma sorted_skipn {A} (R : A -> A -> Prop) (n : nat) (l : list A) :
  StronglySorted R l -> StronglySorted R (skipn n l).
Proof.
  revert l. induction n as [| n IH]; intros l Hs; [exact Hs |].
  destruct l as [| x l]; [constructor |]. cbn. apply IH.
  now inversion Hs.
Qed.

Lemma In_filter_and {B} (conditions : list (B -> bool)) (c : B -> bool) (x : B) :
  In c conditions -> and_ conditions x = true -> c x = true.
Proof.
  unfold and_. rewrite forallb_forall. auto.
Qed.

(** The [sede] filter of [getEventos] is accepted, passed down to the
    query and never used. *)
Lemma sede_filter_is_ignored :
  forall cfg w rq i sede1 sede2,
    Tools.get_eventos cfg w rq (with_sede i sede1)
    = Tools.get_eventos cfg w rq (with_sede i sede2).
Proof.
  intros cfg w rq i sede1 sede2. unfold Tools.get_eventos, Tools.prelude.
  destruct (Auth.require_permission _ _) as [user | x]; cbn [bind]; [| reflexivity].
  unfold validate_GetEventosInput, with_sede. cbn [ge_fechaFin ge_fechaInicio].
  destruct (ge_fechaFin i) as [v |], (ge_fechaInicio i) as [ini |];
    try destruct (negb (date_leb ini v)); cbn [bind]; try reflexivity;
    destruct (Auth.check_rate_limit _ _ _ _ _) as [[[] | x] rl]; reflexivity.
Qed.

(** X18. What [getEventos] lists: at most 50 events, each a stored
    event inside the requested dates, in order of date and then hour;
    [total] counts the events listed, not the events that match.  The
    [sede] filter plays no part: two requests that differ in it only
    are answered alike in every respect. *)
Theorem eventos_listing :
  forall db i,
    (exists evs,
        snd (EventosService.get_eventos db i)
        = Ok {| geo_eventos := map EventosService.to_info evs;
                geo_total := Z.of_nat (length evs) |}
        /\ (length evs <= 50)%nat
        /\ StronglySorted (fun a b => fecha_hora_leb a b = true) evs
        /\ forall e, In e evs ->
                     In e (eventos db)
                     /\ (forall f, ge_fechaInicio i = Some f ->
                                   date_leb f (ev_fecha e) = true)
                     /\ (forall f, ge_fechaFin i = Some f ->
                                   date_leb (ev_fecha e) f = true))
    /\ (forall cfg w rq sede1 sede2,
           Tools.get_eventos cfg w rq (with_sede i sede1)
           = Tools.get_eventos cfg w rq (with_sede i sede2)).
Proof.
  intros db i. split; [| intros; apply sede_filter_is_ignored].
  unfold EventosService.get_eventos. cbn [snd].
  eexists. split; [rewrite length_map; reflexivity |].
  unfold get_eventos_filtered.
  split; [| split].
  - apply Nat2Z.inj_le. now apply limit_offset_length.
  - unfold limit_offset. apply sorted_firstn, sorted_skipn, order_by_sorted;
      [apply fecha_hora_leb_total | apply fecha_hora_leb_trans].
  - intros e He. apply In_limit_offset in He.
    apply (Permutation_in _ (order_by_perm _ _)) in He.
    apply filter_In in He as [Hin Hc]. split; [exact Hin |].
    split; intros f Hf; rewrite Hf in Hc; cbn [option_filter] in Hc.
    + apply (In_filter_and _ (fun e => date_leb f (ev_fecha e)) e) in Hc;
        [exact Hc | now left].
    + apply (In_filter_and _ (fun e => date_leb (ev_fecha e) f) e) in Hc;
        [exact Hc |].
      apply in_or_app. right. now left.
Qed.

(** X19. An event without a number of slots, or with zero slots, is
    listed by [getEventos] with a capacity of 60, since the listing
    never reports zero; [getAforo] reports the stored zero for the
    same event and fails when the number is missing. *)
Theorem missing_slots_reported_differently (e : ExpoEventos) :
  (forall e0, ei_cupoTotal (EventosService.to_info e0) <> 0)
  /\ ei_cupoTotal (EventosService.to_info (with_slots e None)) = 60
  /\ ei_cupoTotal (EventosService.to_info (with_slots e (Some 0))) = 60
  /\ (exists out,
         InscritosService.get_aforo (db_of_event (with_slots e (Some 0)))
                                    {| ga_eventoId := ev_id e |} = Ok (Some out)
         /\ gao_cupoTotal out = 0)
  /\ (exists x,
         InscritosService.get_aforo (db_of_event (with_slots e None))
                                    {| ga_eventoId := ev_id e |} = Raise x
         /\ Tools.reraise_or_500 "Error retrieving event capacity" x
            = Tools.INTERNAL_ERROR "Error retrieving event capacity").
Proof.
  split; [| split; [reflexivity | split; [reflexivity | split]]].
  - intros e0. unfold EventosService.to_info. cbn [ei_cupoTotal].
    destruct (ev_slots_disponibles e0) as [n |]; [| discriminate].
    destruct (n =? 0) eqn:E; [discriminate | now apply Z.eqb_neq].
  - unfold InscritosService.get_aforo, AforoQueries.get_aforo_evento, db_of_event,
      with_slots. cbn. rewrite Z.eqb_refl. cbn. eexists. split; reflexivity.
  - unfold InscritosService.get_aforo, AforoQueries.get_aforo_evento, db_of_event,
      with_slots. cbn. rewrite Z.eqb_refl. cbn. eexists. split; reflexivity.
Qed.

(** X20. [getAforo] for an event that is not stored: an
    authenticated, permitted and admitted caller is answered 404
    [NOT_FOUND] with the requested identifier in the details; for a
    stored event the confirmed count repeats the inscribed count and
    the estimated no-shows are the inscribed minus those who entered,
    never below zero. *)
Theorem aforo_of_unknown_event_is_not_found
        (cfg : Settings) (w : Tools.World) (rq : Tools.Request)
        (i : GetAforoInput) (user : Auth.MCPUser) :
  Auth.require_permission "getAforo" (Tools.credentials rq) = Ok user ->
  fst (Auth.check_rate_limit cfg (Tools.limiter w) (Tools.rq_time rq) user "getAforo")
  = Ok tt ->
  ((forall e, In e (eventos (Tools.db w)) -> ev_id e <> ga_eventoId i) ->
   fst (Tools.get_aforo cfg w rq i)
   = Raise (Tools.NOT_FOUND "Event not found" [("eventoId", ga_eventoId i)]))
  /\ (forall out, fst (Tools.get_aforo cfg w rq i) = Ok out ->
                  gao_confirmados out = gao_inscritos out
                  /\ gao_inscritos out
                     = Z.of_nat (length (List.filter
                                           (fun re => re_evento_id re =? ga_eventoId i)
                                           (registro_eventos (Tools.db w))))
                  /\ gao_asistenciaEnPuerta out
                     = Z.of_nat (length (List.filter
                                           (fun a => as_evento_id a =? ga_eventoId i)
                                           (asistencias_por_sala (Tools.db w))))
                  /\ gao_noShowEstimado out
                     = Z.max 0 (gao_inscritos out - gao_asistenciaEnPuerta out)
                  /\ 0 <= gao_noShowEstimado out <= gao_inscritos out).
Proof.
  intros Huser Hadm. unfold Tools.get_aforo, Tools.prelude. rewrite Huser.
  cbn [bind]. destruct (Auth.check_rate_limit _ _ _ _ _) as [adm rl].
  cbn [fst] in Hadm. subst adm. cbn [Tools.db Tools.with_limiter].
  unfold InscritosService.get_aforo, AforoQueries.get_aforo_evento.
  split.
  - intros Hno.
    destruct (List.filter (fun e => ev_id e =? ga_eventoId i) (eventos (Tools.db w)))
      as [| e l] eqn:Hf; [reflexivity |].
    assert (He : In e (e :: l)) by now left.
    rewrite <- Hf in He. apply filter_In in He as [Hin Hid].
    apply Z.eqb_eq in Hid. now destruct (Hno e Hin).
  - intros out.
    destruct (List.filter (fun e => ev_id e =? ga_eventoId i) (eventos (Tools.db w)))
      as [| e l]; [discriminate |].
    cbn [af_cupoTotal]. destruct (ev_slots_disponibles e) as [cupo |];
      [| discriminate].
    cbn [fst af_inscritos af_confirmados af_asistenciaEnPuerta af_noShowEstimado].
    intros [= <-]. cbn. repeat split; lia.
Qed.

Lemma aforo_of_unknown_event_is_not_found_witness :
  fst (Tools.get_aforo default_settings (world_of one_event_db)
         (request_of (token_of "lect_001" "guest_reader" Auth.LECTOR) 5)
         {| ga_eventoId := 999 |})
  = Raise (Tools.NOT_FOUND "Event not found" [("eventoId", 999)]).
Proof.
  apply (proj1 (aforo_of_unknown_event_is_not_found
                  default_settings (world_of one_event_db)
                  (request_of (token_of "lect_001" "guest_reader" Auth.LECTOR) 5)
                  {| ga_eventoId := 999 |}
                  (user_of "lect_001" "guest_reader" Auth.LECTOR)
                  eq_refl eq_refl)).
  intros e [<- | []]. discriminate.
Defined.

(** X21. The room-event map of a day lists exactly the events stored
    for that day, each once per stored row, ordered by room and then
    by hour, and counts them. *)
Theorem mapa_lists_the_events_of_the_day :
  forall db i,
  exists evs,
    EventosService.get_mapa_sala_evento db i
    = Ok {| mso_items := map sala_row evs; mso_dia := ms_dia i;
            mso_total := Z.of_nat (length evs) |}
    /\ Permutation evs (List.filter (fun e => date_eqb (ev_fecha e) (ms_dia i))
                                    (eventos db))
    /\ (forall e, In e evs <-> In e (eventos db) /\ ev_fecha e = ms_dia i)
    /\ StronglySorted (fun a b => sala_hora_leb a b = true) evs.
Proof.
  intros db i. unfold EventosService.get_mapa_sala_evento, get_mapa_sala_evento.
  eexists. split; [rewrite length_map; reflexivity |].
  split; [apply order_by_perm |]. split.
  - intros e. rewrite <- date_eqb_eq.
    rewrite <- (filter_In (fun e => date_eqb (ev_fecha e) (ms_dia i))).
    split; apply Permutation_in; [| symmetry]; apply order_by_perm.
  - apply order_by_sorted; [apply sala_hora_leb_total | apply sala_hora_leb_trans].
Qed.

End EventosFurther.

(** ** Registrant listings and search *)

Section InscritosFurther.
Import Db Queries Schemas Services.
Import Queries.InscritosQueries.








(** X23. Routing of [getInscritos]: an event identifier other than
    zero selects the listing of that event and makes the day and room
    filters irrelevant; an identifier of zero counts as no identifier,
    so the day and room filters apply. *)
Theorem inscritos_routing (db : Database) (i : GetInscritosInput) (n : Z)
        (dia : option Date) (sala : option string) :
  gi_eventoId i = Some n ->
  n <> 0 ->
  InscritosService.get_inscritos db (with_dia_sala i dia sala)
  = InscritosService.get_inscritos db i
  /\ InscritosService.get_inscritos db (with_evento_id i (Some 0))
     = InscritosService.get_inscritos db (with_evento_id i None)
  /\ (forall cfg w rq,
         Tools.get_inscritos cfg w rq (with_evento_id i (Some 0))
         = Tools.get_inscritos cfg w rq (with_evento_id i None)).
Proof.
  intros Hid Hn. split; [| split].
  - unfold InscritosService.get_inscritos, with_dia_sala. cbn. rewrite Hid.
    apply Z.eqb_neq in Hn. cbn. now rewrite Hn.
  - reflexivity.
  - intros cfg w rq. unfold Tools.get_inscritos, Tools.prelude.
    destruct (Auth.require_permission _ _) as [user | x]; cbn [bind]; [| reflexivity].
    unfold validate_GetInscritosInput, with_evento_id. cbn.
    destruct (_ && _); cbn [bind]; [| reflexivity].
    destruct (Auth.check_rate_limit _ _ _ _ _) as [[[] | x] rl]; reflexivity.
Qed.

Lemma inscritos_routing_witness :
  InscritosService.get_inscritos two_leads_db
    (with_dia_sala by_event_123 (Some august_1) (Some "Sala Z"))
  = InscritosService.get_inscritos two_leads_db by_event_123.
Proof.
  apply (inscritos_routing two_leads_db by_event_123 123 (Some august_1)
                           (Some "Sala Z")); [reflexivity | discriminate].
Defined.

End InscritosFurther.

Section BusquedaFurther.
Import Db Queries Schemas Services.
Import Queries.BusquedaQueries.

Lemma py_in_only_doc (c : string) (campos : list string) :
  (forall x, In x campos -> x = "doc") ->
  c <> "doc" -> py_in c campos = false.
Proof.
  intros Hall Hc. unfold py_in. induction campos as [| x l IH]; [reflexivity |].
  cbn. rewrite IH by (intros y Hy; apply Hall; now right).
  rewrite (Hall x (or_introl eq_refl)).
  destruct (String.eqb_spec c "doc"); [contradiction | reflexivity].
Qed.

(** X24. What [buscarRegistro] returns: at most 20 hits, counted in
    [total]; every hit is a stored registration that matches the query
    in one of the fields searched; every event attached to a hit
    comes from an inscription of that registration and is reported as
    [INSCRITO].  An empty list of fields searches the three default
    fields, like no list at all. *)
Theorem search_hits :
  forall db i,
  exists hits,
    InscritosService.buscar_registro db i
    = Ok {| bo_coincidencias := map (hit_of db) hits;
            bo_total := Z.of_nat (length hits) |}
    /\ (length hits <= 20)%nat
    /\ (forall r, In r hits ->
                  In r (registros db)
                  /\ matches_in db (br_query i)
                       (match br_campos i with
                        | None | Some [] => ["nombre"; "email"; "empresa"]
                        | Some l => l
                        end) r)
    /\ (forall r ev, In ev (cr_eventosAsociados (hit_of db r)) ->
                     ea_estado ev = "INSCRITO"
                     /\ exists re, In re (registro_eventos db)
                                   /\ re_registro_id re = reg_id r
                                   /\ re_evento_id re = ea_eventoId ev)
    /\ buscar_registro db (br_query i) (Some [])
       = buscar_registro db (br_query i) None.
Proof.
  intros db i. unfold InscritosService.buscar_registro, buscar_registro.
  set (campos := match br_campos i with
                 | None | Some [] => ["nombre"; "email"; "empresa"]
                 | Some l => l
                 end).
  set (conditions := _ ++ _ ++ _).
  assert (Hcond : forall r, or_ conditions r = true ->
                            matches_in db (br_query i) campos r).
  { intros r. unfold or_. rewrite existsb_exists. intros [c [Hc Hr]].
    unfold conditions, matches_in in *.
    rewrite !in_app_iff in Hc.
    destruct Hc as [Hc | [Hc | Hc]].
    - destruct (py_in "nombre" campos) eqn:E; [| destruct Hc].
      destruct Hc as [<- | []]. left. split; [now apply py_in_In | exact Hr].
    - destruct (py_in "email" campos) eqn:E; [| destruct Hc].
      destruct Hc as [<- | []]. right. left. split; [now apply py_in_In | exact Hr].
    - destruct (py_in "empresa" campos) eqn:E; [| destruct Hc].
      destruct Hc as [<- | []]. right. right. split; [now apply py_in_In |].
      unfold EventosQueries.opt_ilike in Hr.
      destruct (reg_empresa r) as [emp |]; [| discriminate]. eauto. }
  exists (match conditions with
          | [] => []
          | _ => firstn 20 (List.filter (or_ conditions) (registros db))
          end).
  split; [| split; [| split; [| split]]].
  - destruct conditions; [reflexivity |]. now rewrite length_map.
  - destruct conditions; [cbn; lia |]. rewrite length_firstn. lia.
  - intros r Hr. destruct conditions as [| c0 cs] eqn:Ec; [destruct Hr |].
    apply In_firstn_In, filter_In in Hr as [Hin Hm]. split; [exact Hin |].
    now apply Hcond.
  - intros r ev Hev. unfold hit_of, eventos_asociados in Hev. cbn in Hev.
    apply in_flat_map in Hev as [re [Hre Hev]].
    apply filter_In in Hre as [Hre Hid]. apply Z.eqb_eq in Hid.
    apply in_map_iff in Hev as [e [<- He]].
    apply filter_In in He as [He Hid']. apply Z.eqb_eq in Hid'.
    split; [reflexivity |]. exists re. cbn. auto.
  - reflexivity.
Qed.

(** X25. A search restricted to the document field finds nothing:
    [doc] is among the fields the schema accepts, but no condition is
    built for it, so the answer is empty whatever is stored. *)
Theorem document_search_finds_nothing
        (db : Database) (i : BuscarRegistroInput) (campos : list string) :
  br_campos i = Some campos ->
  campos <> [] ->
  (forall c, In c campos -> c = "doc") ->
  (Nat.leb 2 (String.length (br_query i)) = true ->
   validate_BuscarRegistroInput i = Ok i)
  /\ InscritosService.buscar_registro db i
     = Ok {| bo_coincidencias := []; bo_total := 0 |}.
Proof.
  intros Hc Hne Hall. split.
  - intros Hq. unfold validate_BuscarRegistroInput. rewrite Hq, Hc.
    assert (H : forallb (fun campo => py_in campo valid_campos) campos = true).
    { apply forallb_forall. intros c Hin. now rewrite (Hall c Hin). }
    now rewrite H.
  - unfold InscritosService.buscar_registro, buscar_registro. rewrite Hc.
    destruct campos as [| c l]; [contradiction |].
    rewrite !(py_in_only_doc _ (c :: l) Hall) by discriminate. reflexivity.
Qed.

Lemma document_search_finds_nothing_witness :
  InscritosService.buscar_registro two_leads_db
    {| br_query := "Asistente"; br_campos := Some ["doc"] |}
  = Ok {| bo_coincidencias := []; bo_total := 0 |}.
Proof.
  apply (document_search_finds_nothing
           two_leads_db {| br_query := "Asistente"; br_campos := Some ["doc"] |}
           ["doc"] eq_refl).
  - discriminate.
  - intros c [<- | []]. reflexivity.
Defined.

End BusquedaFurther.

(** ** Statistics *)

Section EstadisticasFurther.
Import Db Queries Schemas Services EstadisticasService.

Lemma every_kpi_is_logged (db : Database) (g : string) (fi ff : Date)
      (names : list string) :
  forallb (fun k => py_in k valid_kpis) names = true ->
  calculate_all db names g fi ff
  = (map (fun name => LogError "calculate_kpi_error" (Some name)) names, []).
Proof.
  induction names as [| name rest IH]; [reflexivity |].
  cbn [forallb]. intros H. apply andb_prop in H as [Hname Hrest].
  unfold calculate_all in *. cbn [for_kpi_name]. rewrite (IH Hrest).
  unfold _calculate_kpi. rewrite (dispatch_kpi_raises db g fi ff name Hname).
  reflexivity.
Qed.

(** X26. No KPI is returned by [getEstadisticas].  Each of the
    computations starts by building a statement with [Model.join],
    which the model classes lack, so each raises [AttributeError]
    whatever the store holds; a request the schema accepts whose two
    dates parse is answered with an empty [kpis] list and a log of one
    [calculate_kpi_error] per requested KPI, in request order; and
    every answer of the handler that is not an error has no KPI. *)
Theorem no_kpi_is_returned :
  (forall db g fi ff alias, _kpi_inscritos db g fi ff alias = Raise JoinError)
  /\ (forall db g fi ff, _kpi_no_show db g fi ff = Raise JoinError)
  /\ (forall db g fi ff, _kpi_eventos_populares db g fi ff = Raise JoinError)
  /\ (forall db i fi ff,
         validate_GetEstadisticasInput i = Ok i ->
         strptime_date (inicio (es_rango i)) = Ok fi ->
         strptime_date (fin (es_rango i)) = Ok ff ->
         get_estadisticas db i
         = (LogInfo "get_estadisticas_started"
              :: map (fun name => LogError "calculate_kpi_error" (Some name)) (es_kpis i)
              ++ [LogInfo "get_estadisticas_completed"],
            Ok {| kpis := [];
                  granularidad := es_granularidad i;
                  periodo := es_rango i |}))
  /\ (forall cfg w rq i log out w',
         Tools.get_estadisticas cfg w rq i = (log, Ok out, w') ->
         kpis out = []).
Proof.
  assert (Hvalid : forall i j,
             validate_GetEstadisticasInput i = Ok j ->
             j = i /\ forallb (fun k => py_in k valid_kpis) (es_kpis i) = true).
  { intros i j. unfold validate_GetEstadisticasInput.
    destruct (Nat.leb 1 (length (es_kpis i))); cbn [andb]; [| discriminate].
    destruct (forallb _ (es_kpis i)); [| discriminate].
    intros [= <-]. auto. }
  repeat apply conj; try reflexivity.
  - intros db i fi ff Hv Hfi Hff. apply Hvalid in Hv as [_ Hv].
    unfold get_estadisticas. rewrite Hfi, Hff, (every_kpi_is_logged _ _ _ _ _ Hv).
    reflexivity.
  - intros cfg w rq i log out w' H. unfold Tools.get_estadisticas in H.
    destruct (Tools.prelude "getEstadisticas" validate_GetEstadisticasInput rq i)
      as [[user j] | x] eqn:Hpre; [| discriminate H].
    apply prelude_inv in Hpre as (_ & _ & Hv). apply Hvalid in Hv as [-> Hv].
    destruct (Auth.check_rate_limit cfg (Tools.limiter w) (Tools.rq_time rq) user
                                    "getEstadisticas") as [[u | x] rl];
      [| discriminate H].
    cbn [Tools.db Tools.with_limiter] in H. unfold get_estadisticas in H.
    destruct (strptime_date (inicio (es_rango i))) as [fi | x]; [| discriminate H].
    destruct (strptime_date (fin (es_rango i))) as [ff | x]; [| discriminate H].
    rewrite (every_kpi_is_logged _ _ _ _ _ Hv) in H.
    injection H as _ <- _. reflexivity.
Qed.

End EstadisticasFurther.

(** ** Dates *)

Section DateParsing.

Lemma In_upto (n z : Z) : 1 <= z <= n -> In z (upto n).
Proof.
  intros Hz. unfold upto. apply in_map_iff. exists (Z.to_nat z).
  split; [lia |]. apply in_seq. lia.
Qed.

Lemma prints_and_parses_upto (print : Z -> string) (parse : string -> option Z)
      (n z : Z) :
  forallb (prints_and_parses print parse) (upto n) = true ->
  1 <= z <= n ->
  dash_free (print z) = true /\ parse (print z) = Some z.
Proof.
  intros Hall Hz. rewrite forallb_forall in Hall.
  specialize (Hall z (In_upto n z Hz)). unfold prints_and_parses in Hall.
  apply andb_true_iff in Hall as [Hfree Hparse]. split; [exact Hfree |].
  destruct (parse (print z)) as [z' |]; [| discriminate].
  apply Z.eqb_eq in Hparse. now subst.
Qed.

Lemma years_print_and_parse :
  forallb (prints_and_parses pad4 parse_Y) (upto 9999) = true.
Proof. vm_compute. reflexivity. Qed.

Lemma months_print_and_parse :
  forallb (prints_and_parses pad2 parse_m) (upto 12) = true.
Proof. vm_compute. reflexivity. Qed.

Lemma days_print_and_parse :
  forallb (prints_and_parses pad2 parse_d) (upto 31) = true.
Proof. vm_compute. reflexivity. Qed.

Lemma split_on_free (a : string) :
  dash_free a = true -> split_on "-" a = [a].
Proof.
  induction a as [| c a IH]; [reflexivity |]. cbn [dash_free split_on].
  intros H. apply andb_true_iff in H as [Hc Ha].
  apply negb_true_iff in Hc. rewrite Hc, (IH Ha). reflexivity.
Qed.

Lemma split_on_dash (a rest : string) :
  dash_free a = true ->
  split_on "-" (a +:+ String "-" rest) = a :: split_on "-" rest.
Proof.
  induction a as [| c a IH]; intros H.
  - reflexivity.
  - cbn [dash_free] in H. apply andb_true_iff in H as [Hc Ha].
    apply negb_true_iff in Hc. rewrite append_cons. cbn [split_on].
    now rewrite Hc, (IH Ha).
Qed.

Lemma days_in_month_le (y m : Z) : days_in_month y m <= 31.
Proof.
  unfold days_in_month.
  destruct (m =? 2); [destruct (is_leap y); lia |].
  destruct (_ || _); lia.
Qed.

Lemma make_date_valid (y m d : Z) (x : Date) :
  make_date y m d = Ok x <-> x = {| year := y; month := m; day := d |} /\ valid_date x.
Proof.
  unfold make_date, valid_date.
  destruct (_ && _) eqn:E.
  - repeat rewrite andb_true_iff in E. rewrite !Z.leb_le in E.
    split; [intros [= <-]; cbn; intuition lia | intros [-> _]; reflexivity].
  - split; [discriminate |]. intros [-> H]. cbn in H.
    repeat rewrite andb_false_iff in E. rewrite !Z.leb_gt in E. lia.
Qed.

(** X30. Parsing a date: whatever [strptime_date] accepts is a date
    of the calendar, and printing a date of the calendar and parsing
    it again gives the date back, so the printed form of an accepted
    text is accepted as the same date.  The accepted text itself need
    not be the printed form: a month or day of one digit is read as
    well. *)
Theorem parsed_dates_are_calendar_dates (s : string) (d : Date) :
  strptime_date s = Ok d ->
  valid_date d
  /\ strptime_date (date_str d) = Ok d
  /\ (forall d', valid_date d' -> strptime_date (date_str d') = Ok d').
Proof.
  assert (Hround : forall d', valid_date d' -> strptime_date (date_str d') = Ok d').
  { intros [y m dd] (Hy & Hm & Hd). cbn [year month day] in *.
    pose proof (days_in_month_le y m) as Hle.
    destruct (prints_and_parses_upto pad4 parse_Y 9999 y years_print_and_parse
                ltac:(lia)) as [Hfy Hpy].
    destruct (prints_and_parses_upto pad2 parse_m 12 m months_print_and_parse
                ltac:(lia)) as [Hfm Hpm].
    destruct (prints_and_parses_upto pad2 parse_d 31 dd days_print_and_parse
                ltac:(lia)) as [Hfd Hpd].
    unfold strptime_date, date_str. cbn [year month day].
    change ("-" +:+ pad2 m +:+ "-" +:+ pad2 dd)
      with (String "-" (pad2 m +:+ String "-" (pad2 dd))).
    rewrite (split_on_dash _ _ Hfy), (split_on_dash _ _ Hfm), (split_on_free _ Hfd).
    rewrite Hpy, Hpm, Hpd. apply make_date_valid. split; [reflexivity |].
    unfold valid_date. cbn. lia. }
  intros Hs.
  assert (Hv : valid_date d).
  { unfold strptime_date in Hs.
    destruct (split_on "-" s) as [| ys [| ms [| ds [| ? ?]]]]; try discriminate.
    destruct (parse_Y ys) as [y |]; [| discriminate].
    destruct (parse_m ms) as [m |]; [| discriminate].
    destruct (parse_d ds) as [dd |]; [| discriminate].
    now apply make_date_valid in Hs. }
  split; [exact Hv |]. split; [now apply Hround | exact Hround].
Qed.

Lemma parsed_dates_are_calendar_dates_witness :
  valid_date august_1 /\ strptime_date "2025-08-01" = Ok august_1.
Proof.
  destruct (parsed_dates_are_calendar_dates "2025-8-1" august_1 eq_refl)
    as (Hv & Hs & _).
  split; [exact Hv | exact Hs].
Defined.

End DateParsing.
